(** * Functionalised Philox RNG bookkeeping: torch/_decomp/decompositions_for_rng.py

    A shallow embedding of the module that tracks the Philox (seed, offset)
    pair during AOT Autograd tracing, together with the properties of its
    specification.

    - Python integers are [Z]; Python floats are IEEE binary64 values, taken
      from the Standard Library's [SpecFloat] (round to nearest, ties to
      even), because the offset calculator divides with [/] and truncates
      with [int].
    - Python exceptions are values of [exn]; a computation that may raise
      returns a [result].
    - [PhiloxStateTracker] keeps three class attributes that are references
      to [PhiloxState] objects: the objects live in a store and the
      attributes are addresses, so that [running_state] can alias
      [fwd_state] or [bwd_state] as it does in the source. *)

From Stdlib Require Import ZArith Lia Bool.
From Stdlib Require Import SpecFloat.
From stdpp Require Import base list strings.

Local Open Scope Z_scope.

(** ** Python exceptions and results *)

Inductive exn : Type :=
| ValueError (msg : string)
| RuntimeError (msg : string)
| AssertionError
| AttributeError (msg : string)
| IndexError (msg : string)
| ZeroDivisionError
| OverflowError.

Inductive result (A : Type) : Type :=
| Ok (a : A)
| Raise (e : exn).
Arguments Ok {A} a.
Arguments Raise {A} e.

Definition rbind {A B} (r : result A) (k : A -> result B) : result B :=
  match r with
  | Ok a => k a
  | Raise e => Raise e
  end.

Notation "x <-? r ; k" := (rbind r (fun x => k))
  (at level 100, r at level 99, k at level 200, right associativity, only parsing).

(** Code that also mutates a state of type [S]: when it raises, the
    mutations made so far stay. *)
Definition ST (S A : Type) : Type := S -> result A * S.

Definition ret {S A} (a : A) : ST S A := fun s => (Ok a, s).
Definition raise {S A} (e : exn) : ST S A := fun s => (Raise e, s).
Definition lift {S A} (r : result A) : ST S A := fun s => (r, s).
Definition bind {S A B} (m : ST S A) (k : A -> ST S B) : ST S B :=
  fun s =>
    match m s with
    | (Ok a, s') => k a s'
    | (Raise e, s') => (Raise e, s')
    end.

Notation "x <- m ;; k" := (bind m (fun x => k))
  (at level 100, m at level 99, k at level 200, right associativity, only parsing).
Notation "m ;; k" := (bind m (fun _ => k))
  (at level 100, k at level 200, right associativity, only parsing).

(** ** Python arithmetic on [int] and [float] *)

Module Py.

Definition prec : Z := 53.
Definition emax : Z := 1024.

(** An integer as an exact (unnormalised) binary float: mantissa [n],
    exponent 0. The division below rounds once, from the exact quotient. *)
Definition exact (n : Z) : spec_float :=
  match n with
  | Z0 => S754_zero false
  | Zpos p => S754_finite false p 0
  | Zneg p => S754_finite true p 0
  end.

(** [float(n)]: the nearest double, OverflowError beyond the range. *)
Definition float_of_int (n : Z) : result spec_float :=
  match binary_normalize prec emax n 0 false with
  | S754_infinity _ => Raise OverflowError
  | f => Ok f
  end.

(** [a / b] on two ints: true division, correctly rounded. *)
Definition int_truediv (a b : Z) : result spec_float :=
  if b =? 0 then Raise ZeroDivisionError
  else match SFdiv prec emax (exact a) (exact b) with
       | S754_infinity _ => Raise OverflowError
       | f => Ok f
       end.

(** [x + n] with [x] a float and [n] an int: [n] is converted first. *)
Definition float_add_int (x : spec_float) (n : Z) : result spec_float :=
  y <-? float_of_int n;
  Ok (SFadd prec emax x y).

(** [int(x)]: truncation towards zero. *)
Definition int_of_float (x : spec_float) : result Z :=
  match x with
  | S754_zero _ => Ok 0
  | S754_infinity _ => Raise OverflowError
  | S754_nan => Raise (ValueError "cannot convert float NaN to integer")
  | S754_finite s m e =>
      Ok (cond_Zopp s
            (match e with
             | Zneg p => Z.shiftr (Zpos m) (Zpos p)
             | _ => Z.shiftl (Zpos m) e
             end))
  end.

End Py.

(** ** rand_offset_calculator *)

(** The two fields of [torch.cuda.get_device_properties(...)] that the
    calculator reads. *)
Record device_properties : Type := {
  max_threads_per_multi_processor : Z;
  multi_processor_count : Z
}.

Definition numel_of (shape : list Z) : Z := fold_left Z.mul shape 1.

Definition rand_offset_calculator
    (device_property : device_properties) (shape : list Z) : result Z :=
  let numel := numel_of shape in
  let block_size := 256 in
  let unroll := 4 in
  let curand4_engine_calls := 4 in
  q <-? Py.int_truediv (max_threads_per_multi_processor device_property) block_size;
  blocks_per_sm <-? Py.int_of_float q;
  q <-? Py.int_truediv (numel + block_size - 1) block_size;
  grid_size <-? Py.int_of_float q;
  let grid_size :=
    Z.min grid_size (multi_processor_count device_property * blocks_per_sm) in
  q <-? Py.int_truediv (numel - 1) (block_size * grid_size * unroll);
  q <-? Py.float_add_int q 1;
  n <-? Py.int_of_float q;
  Ok (n * curand4_engine_calls).

(** The closed form of the specification: integer floor and ceiling
    divisions throughout. *)
Definition spec_rand_offset (hw : device_properties) (numel : Z) : Z :=
  let block_size := 256 in
  let unroll := 4 in
  let engine_calls_per_block := 4 in
  let blocks_per_core := max_threads_per_multi_processor hw / block_size in
  let grid_size :=
    Z.min ((numel + block_size - 1) / block_size)
          (multi_processor_count hw * blocks_per_core) in
  ((numel - 1) / (block_size * grid_size * unroll) + 1) * engine_calls_per_block.

(** ** Tensors holding the RNG state

    The seed and the offsets are int64 tensors. A tensor is a scalar or a
    sequence of sub-tensors along its first dimension. *)

#[local] Set Warnings "-register-all".
Inductive Tensor : Type :=
| Scalar (v : Z)
| Dim (rows : list Tensor).

Module torch.

Definition wrap64 (z : Z) : Z := (z + 2 ^ 63) mod 2 ^ 64 - 2 ^ 63.

(** [torch.Tensor(())]: no element. *)
Definition empty : Tensor := Dim [].

(** [torch.tensor(v)]: a 0-dimensional tensor. *)
Definition tensor (v : Z) : Tensor := Scalar (wrap64 v).

Fixpoint numel (t : Tensor) : Z :=
  match t with
  | Scalar _ => 1
  | Dim rows => fold_right (fun r acc => numel r + acc) 0 rows
  end.

Fixpoint values (t : Tensor) : list Z :=
  match t with
  | Scalar v => [v]
  | Dim rows => flat_map values rows
  end.

Fixpoint shape (t : Tensor) : list nat :=
  match t with
  | Scalar _ => []
  | Dim rows =>
      length rows :: match rows with
                     | [] => []
                     | r :: _ => shape r
                     end
  end.

(** The elements of [t], each plus [k], in the two's complement
    arithmetic of int64. *)
Fixpoint wrapping_add (t : Tensor) (k : Z) : Tensor :=
  match t with
  | Scalar v => Scalar (wrap64 (v + k))
  | Dim rows => Dim (map (fun r => wrapping_add r k) rows)
  end.

(** Modelled from the spec: [t + k] for an int64 tensor and a Python
    int, the element-wise sum ("returns base_offset + relative_offset").
    The Python int first becomes a scalar of the element type, and that
    conversion raises when the int does not fit int64: an overflow error
    for an int outside 64 bits, a runtime error for one that fits only
    unsigned 64 bits (which of the two is raised has changed between
    versions of the tensor library; the properties below only say that
    an exception is raised). The sum of the elements wraps around. *)
Definition add (t : Tensor) (k : Z) : result Tensor :=
  if (- 2 ^ 63 <=? k) && (k <? 2 ^ 63) then Ok (wrapping_add t k)
  else if (0 <=? k) && (k <? 2 ^ 64)
  then Raise (RuntimeError "value cannot be converted to type int64_t without overflow")
  else Raise OverflowError.

(** Modelled from the spec: [torch.stack] packs tensors of one shape
    into one composite value, along a new first dimension. *)
Definition stack (ts : list Tensor) : result Tensor :=
  match ts with
  | [] => Raise (RuntimeError "stack expects a non-empty TensorList")
  | t :: rest =>
      if forallb (fun u => bool_decide (shape u = shape t)) rest
      then Ok (Dim ts)
      else Raise (RuntimeError "stack expects each tensor to be equal size")
  end.

(** Modelled from the spec: [torch.split(t, 1)] unpacks a composite value
    into its chunks of size 1 along the first dimension. *)
Definition split1 (t : Tensor) : result (list Tensor) :=
  match t with
  | Scalar _ =>
      Raise (RuntimeError "split expects at least a 1-dimensional tensor")
  | Dim [] => Ok [Dim []]
  | Dim rows => Ok (map (fun r => Dim [r]) rows)
  end.

End torch.

(** ** PhiloxState *)

Module PhiloxState.

Record t : Type := {
  seed : Tensor;
  base_offset : Tensor;
  relative_offset : Z
}.

Definition reset (self : t) : t :=
  {| seed := torch.empty; base_offset := torch.empty; relative_offset := 0 |}.

(** [PhiloxState()]: [__init__] calls [reset] on the new object. *)
Definition __init__ : t :=
  reset {| seed := torch.empty; base_offset := torch.empty; relative_offset := 0 |}.

Definition validate_state (self : t) : result unit :=
  if negb (torch.numel (seed self) =? 0) && negb (torch.numel (base_offset self) =? 0)
  then Ok tt
  else Raise AssertionError.

Definition advance_offset (self : t) (consumed_offset : Z) : t :=
  {| seed := seed self;
     base_offset := base_offset self;
     relative_offset := relative_offset self + consumed_offset |}.

Definition set_state (self : t) (seed' base_offset' : Tensor) (relative_offset' : Z) : t :=
  {| seed := seed'; base_offset := base_offset'; relative_offset := relative_offset' |}.

Definition get_state_as_tuple (self : t) : result (Tensor * Tensor) :=
  _ <-? validate_state self;
  offset <-? torch.add (base_offset self) (relative_offset self);
  Ok (seed self, offset).

Definition get_state_as_tensor (self : t) : result Tensor :=
  _ <-? validate_state self;
  offset <-? torch.add (base_offset self) (relative_offset self);
  torch.stack [seed self; offset].

(** The tuple assignment unpacks before it stores: when the split does
    not give exactly two chunks, nothing has been assigned. *)
Definition set_state_from_tensor (self : t) (state : Tensor) : result t :=
  chunks <-? torch.split1 state;
  match chunks with
  | [seed'; base_offset'] =>
      Ok {| seed := seed'; base_offset := base_offset'; relative_offset := 0 |}
  | [] => Raise (ValueError "not enough values to unpack (expected 2, got 0)")
  | [_] => Raise (ValueError "not enough values to unpack (expected 2, got 1)")
  | _ => Raise (ValueError "too many values to unpack (expected 2)")
  end.

End PhiloxState.

Record PhiloxTotalOffsets : Type := {
  total_fwd_offset : Z;
  total_bwd_offset : Z
}.

(** ** PhiloxStateTracker

    The class attributes [running_state], [fwd_state] and [bwd_state] hold
    references. [store] is the heap of [PhiloxState] objects created so
    far; an object's address is its index, and [PhiloxState()] allocates at
    the end. *)

Module PhiloxStateTracker.

Record t : Type := {
  store : list PhiloxState.t;
  running_state : nat;
  fwd_state : nat;
  bwd_state : nat
}.

(** A classmethod: it may raise, and it leaves a class state behind
    either way. *)
Definition M (A : Type) : Type := ST t A.

(** The object at an address ([PhiloxState.__init__] for an address that
    was never allocated, which no reference of a well-formed class state
    holds). *)
Definition deref (cls : t) (a : nat) : PhiloxState.t :=
  default PhiloxState.__init__ (store cls !! a).

(** In-place mutation of the object at an address. *)
Definition mutate (a : nat) (f : PhiloxState.t -> PhiloxState.t) (cls : t) : t :=
  {| store := <[a := f (deref cls a)]> (store cls);
     running_state := running_state cls;
     fwd_state := fwd_state cls;
     bwd_state := bwd_state cls |}.

(** The class body: three distinct fresh objects. *)
Definition initial : t :=
  {| store := [PhiloxState.__init__; PhiloxState.__init__; PhiloxState.__init__];
     running_state := 0;
     fwd_state := 1;
     bwd_state := 2 |}.

Definition mark_beginning_of_forward : M unit :=
  fun cls =>
    (Ok tt,
     {| store := store cls;
        running_state := fwd_state cls;
        fwd_state := fwd_state cls;
        bwd_state := bwd_state cls |}).

Definition mark_beginning_of_backward : M unit :=
  fun cls =>
    (Ok tt,
     {| store := store cls;
        running_state := bwd_state cls;
        fwd_state := fwd_state cls;
        bwd_state := bwd_state cls |}).

Definition clear : M unit :=
  fun cls =>
    let a := length (store cls) in
    (Ok tt,
     {| store := store cls ++
                 [PhiloxState.__init__; PhiloxState.__init__; PhiloxState.__init__];
        running_state := a;
        fwd_state := S a;
        bwd_state := S (S a) |}).

Definition mark_end_of_tracing : M unit := clear.

Definition record_state (seed offset : Tensor) (mode : string) : M unit :=
  fun cls =>
    if bool_decide (mode = "forward") then
      (Ok tt, mutate (fwd_state cls)
                (fun self => PhiloxState.set_state self seed offset 0) cls)
    else if bool_decide (mode = "backward") then
      (Ok tt, mutate (bwd_state cls)
                (fun self => PhiloxState.set_state self seed offset 0) cls)
    else (Raise AssertionError, cls).

Definition get_state_as_tensor : M Tensor :=
  fun cls => (PhiloxState.get_state_as_tensor (deref cls (running_state cls)), cls).

Definition get_state_as_tuple : M (Tensor * Tensor) :=
  fun cls => (PhiloxState.get_state_as_tuple (deref cls (running_state cls)), cls).

Definition set_state_from_tensor (x : Tensor) : M unit :=
  fun cls =>
    match PhiloxState.set_state_from_tensor (deref cls (running_state cls)) x with
    | Ok self' => (Ok tt, mutate (running_state cls) (fun _ => self') cls)
    | Raise e => (Raise e, cls)
    end.

Definition advance_offset (consumed_offset : Z) : M unit :=
  fun cls =>
    (Ok tt, mutate (running_state cls)
              (fun self => PhiloxState.advance_offset self consumed_offset) cls).

Definition get_current_relative_offset : M Z :=
  fun cls => (Ok (PhiloxState.relative_offset (deref cls (running_state cls))), cls).

Definition get_accumulated_offsets : M PhiloxTotalOffsets :=
  fun cls =>
    let fwd_offset := PhiloxState.relative_offset (deref cls (fwd_state cls)) in
    let bwd_offset := PhiloxState.relative_offset (deref cls (bwd_state cls)) in
    (Ok {| total_fwd_offset := fwd_offset; total_bwd_offset := bwd_offset |}, cls).

End PhiloxStateTracker.

(** ** The guard and the registration of decompositions *)

Definition OffsetStagnationError : exn :=
  ValueError "Philox seed offset did not advance after decomposition".

Definition throw_if_philox_offset_did_not_advance {Args A : Type}
    (fn : Args -> PhiloxStateTracker.M A) : Args -> PhiloxStateTracker.M A :=
  fun args =>
    old_relative_offset <- PhiloxStateTracker.get_current_relative_offset;;
    out <- fn args;;
    new_relative_offset <- PhiloxStateTracker.get_current_relative_offset;;
    if old_relative_offset =? new_relative_offset
    then raise OffsetStagnationError
    else ret out.

(** [decomp.register_decomposition(aten_op, rng_decompositions)] records
    the function it is given under [aten_op] and returns it, so the name
    bound by the decorator is the guarded function. *)
Definition register_rng_decomposition {Args A : Type} (aten_op : string)
    (fn : Args -> PhiloxStateTracker.M A) : Args -> PhiloxStateTracker.M A :=
  throw_if_philox_offset_did_not_advance fn.

(** ** The decompositions *)

(** A [torch.device] object. *)
Record device : Type := {
  type : string;
  index : option Z
}.

(** What a caller may pass as [device]: a device object or a plain string. *)
Inductive device_arg : Type :=
| DeviceObj (d : device)
| DeviceStr (s : string).

Inductive dtype : Type := float16 | bfloat16 | float32 | float64 | int64 | uint8.
Inductive layout : Type := strided | sparse_coo.
Inductive memory_format : Type := preserve_format | contiguous_format.

(** [device or other]: [None] and the empty string are falsy, a device
    object is truthy. *)
Definition device_or (d : option device_arg) (other : device_arg) : device_arg :=
  match d with
  | None => other
  | Some (DeviceStr "") => other
  | Some d' => d'
  end.

(** [device.type]: a [str] has no such attribute. *)
Definition device_type (d : device_arg) : result string :=
  match d with
  | DeviceObj o => Ok (type o)
  | DeviceStr _ => Raise (AttributeError "'str' object has no attribute 'type'")
  end.

Definition non_cuda_message (kind : string) : string :=
  "You are trying to functionalize a " +:+ kind +:+ " RNG operator but " +:+ kind +:+
  " does not use Philox/counter-based PRNG. Therefore, functionalizing a " +:+ kind +:+
  " RNG operator is not supported. We are discussing the possibility of a Philox-based RNG implementation for CPU.".

Definition UnsupportedDeviceError (kind : string) : exn :=
  RuntimeError (non_cuda_message kind).

Definition throw_on_non_cuda {S : Type} (d : device_arg) : ST S unit :=
  kind <- lift (device_type d);;
  raise (UnsupportedDeviceError kind).

(** Modelled from the spec: [make_contiguous_strides_for] of
    torch._prims_common, the strides of a contiguous tensor of that shape. *)
Fixpoint make_contiguous_strides_for (shape : list Z) : list Z :=
  match shape with
  | [] => []
  | _ :: rest =>
      fold_left Z.mul (map (Z.max 1) rest) 1 :: make_contiguous_strides_for rest
  end.

(** Modelled from the spec: [torch.ops.prims.philox_rand], the
    counter-based draw. Its value is a function of its arguments alone, so
    the drawn tensor is represented by the call that produces it. *)
Record philox_rand_call : Type := philox_rand {
  drawn_shape : list Z;
  drawn_seed : Tensor;
  drawn_offset : Tensor;
  drawn_stride : list Z;
  drawn_device : device_arg;
  drawn_dtype : dtype
}.

(** What the decompositions read of their tensor argument [x]. *)
Record TensorMeta : Type := {
  x_shape : list Z;
  x_stride : list Z;
  x_device : device;
  x_dtype : dtype
}.

Record rand_args : Type := {
  rand_shape : list Z;
  rand_dtype : option dtype;
  rand_layout : layout;
  rand_device : option device_arg;
  rand_pin_memory : bool
}.

Record rand_like_args : Type := {
  like_x : TensorMeta;
  like_dtype : option dtype;
  like_layout : option layout;
  like_device : option device_arg;
  like_pin_memory : bool;
  like_memory_format : memory_format
}.

Section Decompositions.

(** [torch.cuda.get_device_properties(torch.cuda.current_device())]. *)
Variable device_property : device_properties.

(** The function under the decorator, and [rand], the name the decorator
    binds: the guarded function. *)
Definition rand_fn (a : rand_args) : PhiloxStateTracker.M philox_rand_call :=
  let device := device_or (rand_device a) (DeviceStr "cpu") in
  kind <- lift (device_type device);;
  (if negb (String.eqb kind "cuda") then throw_on_non_cuda device else ret tt);;
  state <- PhiloxStateTracker.get_state_as_tuple;;
  let '(seed, offset) := state in
  let dtype := default float32 (rand_dtype a) in
  let stride := make_contiguous_strides_for (rand_shape a) in
  let r := philox_rand (rand_shape a) seed offset stride device dtype in
  consumed <- lift (rand_offset_calculator device_property (rand_shape a));;
  PhiloxStateTracker.advance_offset consumed;;
  ret r.

Definition rand : rand_args -> PhiloxStateTracker.M philox_rand_call :=
  register_rng_decomposition "aten.rand" rand_fn.

(** Likewise for [rand_like]. *)
Definition rand_like_fn (a : rand_like_args) : PhiloxStateTracker.M philox_rand_call :=
  let x := like_x a in
  let device := device_or (like_device a) (DeviceObj (x_device x)) in
  kind <- lift (device_type device);;
  (if negb (String.eqb kind "cuda") then throw_on_non_cuda device else ret tt);;
  let dtype := default (x_dtype x) (like_dtype a) in
  state <- PhiloxStateTracker.get_state_as_tuple;;
  let '(seed, offset) := state in
  let r := philox_rand (x_shape x) seed offset (x_stride x) device dtype in
  consumed <- lift (rand_offset_calculator device_property (x_shape x));;
  PhiloxStateTracker.advance_offset consumed;;
  ret r.

Definition rand_like : rand_like_args -> PhiloxStateTracker.M philox_rand_call :=
  register_rng_decomposition "aten.rand_like" rand_like_fn.

End Decompositions.

(** ** RNGStateHelper

    [torch.cuda] as this module sees it: whether a device is available, and
    the device RNG state, a uint8 tensor whose bytes are numbers below 256. *)

Module cuda.

Record t : Type := {
  is_available : bool;
  rng_state : list Z
}.

(** Modelled from the spec: [torch.cuda.get_rng_state()] gives the device
    RNG state buffer. *)
Definition get_rng_state : ST t (list Z) :=
  fun dev => (Ok (rng_state dev), dev).

(** Modelled from the spec: [torch.cuda.set_rng_state(new_state)] installs
    the buffer as the new device RNG state. *)
Definition set_rng_state (new_state : list Z) : ST t unit :=
  fun dev => (Ok tt, {| is_available := is_available dev; rng_state := new_state |}).

End cuda.

Module bytes.

(** The [n] low bytes of [v], least significant first; a negative [v]
    comes out in two's complement. *)
Fixpoint of_int (n : nat) (v : Z) : list Z :=
  match n with
  | O => []
  | S n' => v mod 256 :: of_int n' (v / 256)
  end.

Fixpoint to_uint (bs : list Z) : Z :=
  match bs with
  | [] => 0
  | b :: rest => b + 256 * to_uint rest
  end.

Fixpoint chunks8 (fuel : nat) (bs : list Z) : list (list Z) :=
  match fuel, bs with
  | O, _ | _, [] => []
  | S fuel', _ => take 8 bs :: chunks8 fuel' (drop 8 bs)
  end.

(** [bs.view(dtype=torch.int64)]: the length must be a multiple of 8. *)
Definition view_int64 (bs : list Z) : result (list Z) :=
  if (Z.of_nat (length bs) mod 8 =? 0)
  then Ok (map (fun c => torch.wrap64 (to_uint c)) (chunks8 (length bs) bs))
  else Raise (RuntimeError "self.size(-1) must be divisible by 8 to view Byte as Long").

(** [ints[0]] as a 0-dimensional tensor. *)
Definition item0 (ints : list Z) : result Tensor :=
  match ints with
  | [] => Raise (IndexError "index 0 is out of bounds for dimension 0 with size 0")
  | v :: _ => Ok (Scalar v)
  end.

(** [bs[lo:hi]] and [bs[lo:]]. *)
Definition slice (lo hi : nat) (bs : list Z) : list Z := take (hi - lo) (drop lo bs).
Definition slice_from (lo : nat) (bs : list Z) : list Z := drop lo bs.

(** [t.reshape([1]).view(torch.uint8)]: the 8 bytes of the one element. *)
Definition of_tensor (t : Tensor) : result (list Z) :=
  match torch.values t with
  | [v] => Ok (of_int 8 v)
  | _ => Raise (RuntimeError "shape '[1]' is invalid for input")
  end.

(** [torch.tensor([v] * n, dtype=torch.uint8)]. *)
Definition uint8_fill (v : Z) (n : nat) : list Z := replicate n (v mod 256).

End bytes.

Module RNGStateHelper.

Definition get_torch_state_as_tuple (fake_mode : option (Tensor -> Tensor))
    : ST cuda.t (Tensor * Tensor) :=
  fun dev =>
    if negb (cuda.is_available dev) then
      (Ok (torch.tensor 0, torch.tensor 0), dev)
    else
      (rng_state <- cuda.get_rng_state;;
       ints <- lift (bytes.view_int64 (bytes.slice 800 808 rng_state));;
       seed <- lift (bytes.item0 ints);;
       ints <- lift (bytes.view_int64 (bytes.slice_from 808 rng_state));;
       offset <- lift (bytes.item0 ints);;
       match fake_mode with
       | Some from_tensor => ret (from_tensor seed, from_tensor offset)
       | None => ret (seed, offset)
       end) dev.

Definition set_torch_state_tensor (seed offset : Tensor) : ST cuda.t unit :=
  seed_portion <- lift (bytes.of_tensor seed);;
  offset_portion <- lift (bytes.of_tensor offset);;
  let prefix := bytes.uint8_fill (-1) 800 in
  let new_state := prefix ++ seed_portion ++ offset_portion in
  cuda.set_rng_state new_state.


End RNGStateHelper.

(** ** Sequences of tracker calls *)

Inductive call : Type :=
| MarkBeginningOfForward
| MarkBeginningOfBackward
| MarkEndOfTracing
| Clear
| RecordState (seed offset : Tensor) (mode : string)
| SetStateFromTensor (x : Tensor)
| AdvanceOffset (consumed_offset : Z).

Definition perform (c : call) : PhiloxStateTracker.M unit :=
  match c with
  | MarkBeginningOfForward => PhiloxStateTracker.mark_beginning_of_forward
  | MarkBeginningOfBackward => PhiloxStateTracker.mark_beginning_of_backward
  | MarkEndOfTracing => PhiloxStateTracker.mark_end_of_tracing
  | Clear => PhiloxStateTracker.clear
  | RecordState seed offset mode => PhiloxStateTracker.record_state seed offset mode
  | SetStateFromTensor x => PhiloxStateTracker.set_state_from_tensor x
  | AdvanceOffset n => PhiloxStateTracker.advance_offset n
  end.

(** The class state after a sequence of calls; a call that raises leaves
    its state behind and the next call runs on it. *)
Definition after (cs : list call) (cls : PhiloxStateTracker.t) : PhiloxStateTracker.t :=
  fold_left (fun cls c => snd (perform c cls)) cs cls.

Definition reachable (cls : PhiloxStateTracker.t) : Prop :=
  exists cs, cls = after cs PhiloxStateTracker.initial.

(** The references of a class state point to allocated objects, and the
    forward and the backward objects are two objects. *)
Definition well_formed (cls : PhiloxStateTracker.t) : Prop :=
  (PhiloxStateTracker.running_state cls < length (PhiloxStateTracker.store cls))%nat /\
  (PhiloxStateTracker.fwd_state cls < length (PhiloxStateTracker.store cls))%nat /\
  (PhiloxStateTracker.bwd_state cls < length (PhiloxStateTracker.store cls))%nat /\
  PhiloxStateTracker.fwd_state cls <> PhiloxStateTracker.bwd_state cls.

(** Phases, and the calls that interleave them. *)
Inductive phase : Type := Forward | Backward.

Inductive phase_call : Type :=
| BeginForward
| BeginBackward
| Advance (consumed_offset : Z).

Definition call_of (p : phase_call) : call :=
  match p with
  | BeginForward => MarkBeginningOfForward
  | BeginBackward => MarkBeginningOfBackward
  | Advance n => AdvanceOffset n
  end.

(** Which phase object the running reference aliases, if any. *)
Definition running_phase (cls : PhiloxStateTracker.t) : option phase :=
  if decide (PhiloxStateTracker.running_state cls = PhiloxStateTracker.fwd_state cls)
  then Some Forward
  else if decide (PhiloxStateTracker.running_state cls = PhiloxStateTracker.bwd_state cls)
  then Some Backward
  else None.

(** The offsets consumed per phase by a sequence of phase calls, as
    (forward, backward), when it starts in phase [p]. *)
Fixpoint consumed_per_phase (p : option phase) (ps : list phase_call) : Z * Z :=
  match ps with
  | [] => (0, 0)
  | BeginForward :: rest => consumed_per_phase (Some Forward) rest
  | BeginBackward :: rest => consumed_per_phase (Some Backward) rest
  | Advance n :: rest =>
      let '(f, b) := consumed_per_phase p rest in
      match p with
      | Some Forward => (n + f, b)
      | Some Backward => (f, n + b)
      | None => (f, b)
      end
  end.

(** The relative offset of the running object, as
    [get_current_relative_offset] reads it. *)
Definition current_relative_offset (cls : PhiloxStateTracker.t) : Z :=
  PhiloxState.relative_offset
    (PhiloxStateTracker.deref cls (PhiloxStateTracker.running_state cls)).

(** ** Draws *)

Inductive draw : Type :=
| Rand (a : rand_args)
| RandLike (a : rand_like_args).

Definition draw_shape (d : draw) : list Z :=
  match d with
  | Rand a => rand_shape a
  | RandLike a => x_shape (like_x a)
  end.

Section Draws.

Variable device_property : device_properties.

Definition perform_draw (d : draw) : PhiloxStateTracker.M philox_rand_call :=
  match d with
  | Rand a => rand device_property a
  | RandLike a => rand_like device_property a
  end.

Fixpoint perform_draws (ds : list draw) : PhiloxStateTracker.M unit :=
  match ds with
  | [] => ret tt
  | d :: rest => perform_draw d;; perform_draws rest
  end.

(** The offset the calculator gives for a draw (0 where it raises). *)
Definition computed_offset (d : draw) : Z :=
  match rand_offset_calculator device_property (draw_shape d) with
  | Ok k => k
  | Raise _ => 0
  end.

Definition total_computed_offset (ds : list draw) : Z :=
  fold_right (fun d acc => computed_offset d + acc) 0 ds.

(** The end-to-end scenario of the specification. *)
Definition scenario (S O S2 O2 : Tensor) (a44 : rand_args) (like : rand_like_args)
    : PhiloxStateTracker.M (Z * PhiloxTotalOffsets) :=
  PhiloxStateTracker.clear;;
  PhiloxStateTracker.mark_beginning_of_forward;;
  PhiloxStateTracker.record_state S O "forward";;
  rand device_property a44;;
  rand device_property a44;;
  current <- PhiloxStateTracker.get_current_relative_offset;;
  PhiloxStateTracker.mark_beginning_of_backward;;
  PhiloxStateTracker.record_state S2 O2 "backward";;
  rand_like device_property like;;
  totals <- PhiloxStateTracker.get_accumulated_offsets;;
  ret (current, totals).

End Draws.

(** [write_state] followed by [read_state]. *)
Definition write_then_read (seed offset : Tensor) : ST cuda.t (Tensor * Tensor) :=
  RNGStateHelper.set_torch_state_tensor seed offset;;
  RNGStateHelper.get_torch_state_as_tuple None.

(** The names of the specification for the errors of the code. *)
Definition UninitializedStateError : exn := AssertionError.
Definition InvalidPhaseError : exn := AssertionError.

(** The device configuration used in examples: 108 multiprocessors of 2048
    threads. *)
Definition a100 : device_properties :=
  {| max_threads_per_multi_processor := 2048; multi_processor_count := 108 |}.

(** ** Values of binary64 floats, for the comparison with the integer
    formula *)

(** The value of a positive finite float [m * 2^e], times [2^scale]: an
    integer for every exponent from [-scale] on. *)
Definition scale : Z := 200.

Definition scaled (f : spec_float) : Z :=
  match f with
  | S754_finite false m e => Zpos m * 2 ^ (scale + e)
  | _ => 0
  end.

(** [f] is a faithful rounding of the positive rational [N / Dn]: a
    normalised float whose value is [N / Dn] truncated to 53 bits or the
    next float up, and is the truncation when that is exact. *)
Definition faithful (N Dn : Z) (f : spec_float) : Prop :=
  exists T m2 mf ef,
    f = S754_finite false mf ef /\
    0 <= T <= scale /\ - scale <= ef /\
    2 ^ 52 <= Zpos mf < 2 ^ 53 /\
    scaled f = m2 * 2 ^ (scale - T) /\
    2 ^ 52 <= N * 2 ^ T / Dn /\
    (m2 = N * 2 ^ T / Dn \/ m2 = N * 2 ^ T / Dn + 1) /\
    ((N * 2 ^ T) mod Dn = 0 -> m2 = N * 2 ^ T / Dn).

(** A shift record that has lost nothing: round and sticky bits are 0. *)
Definition exact_record (mrs : shr_record) : Prop :=
  shr_r mrs = false /\ shr_s mrs = false.

(** ** Notions used by the further properties *)

(** The blocks a device keeps resident at once: multiprocessors times
    blocks per multiprocessor. *)
Definition resident_blocks (hw : device_properties) : Z :=
  multi_processor_count hw * (max_threads_per_multi_processor hw / 256).

(** A device with at least one multiprocessor of at least 256 threads, and
    a shape of at least one and at most 2^48 elements: the range in which
    the float arithmetic of the calculator is exact. *)
Definition ordinary_device (hw : device_properties) : Prop :=
  256 <= max_threads_per_multi_processor hw <= 2 ^ 51 /\
  1 <= multi_processor_count hw.

Definition ordinary_shape (shape : list Z) : Prop :=
  1 <= numel_of shape <= 2 ^ 48.

(** Every dimension is non-negative, as the sizes of a tensor are. *)
Definition valid_shape (shape : list Z) : Prop := Forall (fun n => 0 <= n) shape.

(** The device a draw ends up with after [device or ...]. *)
Definition draw_device (d : draw) : device_arg :=
  match d with
  | Rand a => device_or (rand_device a) (DeviceStr "cpu")
  | RandLike a => device_or (like_device a) (DeviceObj (x_device (like_x a)))
  end.

(** A draw on a cuda device object, of a shape in the exact range whose
    dimensions are sizes. *)
Definition ordinary_draw (d : draw) : Prop :=
  (exists o, draw_device d = DeviceObj o /\ type o = "cuda") /\
  ordinary_shape (draw_shape d) /\
  valid_shape (draw_shape d).

(** Seed and base offset are both populated. *)
Definition populated (self : PhiloxState.t) : Prop :=
  torch.numel (PhiloxState.seed self) <> 0 /\
  torch.numel (PhiloxState.base_offset self) <> 0.

(** The sum of the closed-form offsets of the shapes of the draws. *)
Definition total_spec_offset (hw : device_properties) (ds : list draw) : Z :=
  fold_right (fun d acc => spec_rand_offset hw (numel_of (draw_shape d)) + acc) 0 ds.

(** What the tracker's methods can observe of a class state: the three
    objects behind the references, and which phase object the running
    reference aliases. *)
Record view : Type := {
  v_running : PhiloxState.t;
  v_fwd : PhiloxState.t;
  v_bwd : PhiloxState.t;
  v_phase : option phase
}.

Definition view_of (cls : PhiloxStateTracker.t) : view :=
  {| v_running := PhiloxStateTracker.deref cls (PhiloxStateTracker.running_state cls);
     v_fwd := PhiloxStateTracker.deref cls (PhiloxStateTracker.fwd_state cls);
     v_bwd := PhiloxStateTracker.deref cls (PhiloxStateTracker.bwd_state cls);
     v_phase := running_phase cls |}.

(** A mutation through one of the three references, as the view shows
    it: the aliases of the mutated object change with it. *)
Definition view_mutate_running (f : PhiloxState.t -> PhiloxState.t) (v : view) : view :=
  {| v_running := f (v_running v);
     v_fwd := match v_phase v with Some Forward => f (v_running v) | _ => v_fwd v end;
     v_bwd := match v_phase v with Some Backward => f (v_running v) | _ => v_bwd v end;
     v_phase := v_phase v |}.

Definition view_mutate_fwd (f : PhiloxState.t -> PhiloxState.t) (v : view) : view :=
  {| v_running := match v_phase v with Some Forward => f (v_fwd v) | _ => v_running v end;
     v_fwd := f (v_fwd v);
     v_bwd := v_bwd v;
     v_phase := v_phase v |}.

Definition view_mutate_bwd (f : PhiloxState.t -> PhiloxState.t) (v : view) : view :=
  {| v_running := match v_phase v with Some Backward => f (v_bwd v) | _ => v_running v end;
     v_fwd := v_fwd v;
     v_bwd := f (v_bwd v);
     v_phase := v_phase v |}.

(** One step of a tracing session: a tracker call or a draw. Its outcome
    is what it raises or returns (the drawn tensor for a draw). *)
Inductive action : Type :=
| Call (c : call)
| Draw (d : draw).

Definition act (hw : device_properties) (x : action)
    : PhiloxStateTracker.M (option philox_rand_call) :=
  match x with
  | Call c => perform c;; ret None
  | Draw d => r <- perform_draw hw d;; ret (Some r)
  end.

(** The outcomes of a sequence of steps, in order, and the class state
    it leaves; a step that raises does not stop the ones after it. *)
Fixpoint session (hw : device_properties) (xs : list action) (cls : PhiloxStateTracker.t)
    : list (result (option philox_rand_call)) * PhiloxStateTracker.t :=
  match xs with
  | [] => ([], cls)
  | x :: rest =>
      let '(outcome, cls1) := act hw x cls in
      let '(outcomes, cls2) := session hw rest cls1 in
      (outcome :: outcomes, cls2)
  end.

(** The outcome of a draw as a function of the running object alone:
    what the guarded call raises or returns, and the offset it advances
    by, if it gets that far. *)
Definition draw_outcome (hw : device_properties) (d : draw) (self : PhiloxState.t)
    : result philox_rand_call * option Z :=
  match device_type (draw_device d) with
  | Raise e => (Raise e, None)
  | Ok kind =>
      if negb (String.eqb kind "cuda") then (Raise (UnsupportedDeviceError kind), None)
      else
        match PhiloxState.get_state_as_tuple self with
        | Raise e => (Raise e, None)
        | Ok (seed, offset) =>
            match rand_offset_calculator hw (draw_shape d) with
            | Raise e => (Raise e, None)
            | Ok k =>
                let r :=
                  match d with
                  | Rand a =>
                      philox_rand (rand_shape a) seed offset
                        (make_contiguous_strides_for (rand_shape a)) (draw_device d)
                        (default float32 (rand_dtype a))
                  | RandLike a =>
                      philox_rand (x_shape (like_x a)) seed offset
                        (x_stride (like_x a)) (draw_device d)
                        (default (x_dtype (like_x a)) (like_dtype a))
                  end in
                (if k =? 0 then Raise OffsetStagnationError else Ok r, Some k)
            end
        end
  end.

(** * Properties *)

(** ** Tensors *)

Lemma Tensor_induction (P : Tensor -> Prop) :
  (forall v, P (Scalar v)) ->
  (forall rows, Forall P rows -> P (Dim rows)) ->
  forall t, P t.
Proof.
  intros HS HD. fix IH 1. intros [v | rows].
  - apply HS.
  - apply HD. induction rows as [| r rows IHrows]; constructor.
    + apply IH.
    + exact IHrows.
Qed.

Lemma wrap64_range z : - 2 ^ 63 <= torch.wrap64 z < 2 ^ 63.
Proof.
  unfold torch.wrap64.
  pose proof (Z.mod_pos_bound (z + 2 ^ 63) (2 ^ 64) ltac:(lia)).
  change (2 ^ 64) with (2 * 2 ^ 63) in *. lia.
Qed.

Lemma wrap64_small z : - 2 ^ 63 <= z < 2 ^ 63 -> torch.wrap64 z = z.
Proof.
  intros Hz. unfold torch.wrap64.
  rewrite Z.mod_small; [lia |].
  change (2 ^ 64) with (2 * 2 ^ 63). lia.
Qed.

Lemma wrap64_idempotent z : torch.wrap64 (torch.wrap64 z + 0) = torch.wrap64 z.
Proof. rewrite Z.add_0_r. apply wrap64_small, wrap64_range. Qed.

Lemma add_zero_after_add t k :
  torch.wrapping_add (torch.wrapping_add t k) 0 = torch.wrapping_add t k.
Proof.
  induction t as [v | rows IH] using Tensor_induction; simpl.
  - now rewrite wrap64_idempotent.
  - f_equal. rewrite map_map. apply map_ext_Forall. exact IH.
Qed.

Lemma numel_nonneg t : 0 <= torch.numel t.
Proof.
  induction t as [v | rows IH] using Tensor_induction; simpl; [lia |].
  induction IH as [| r rows Hr _ IHrows]; simpl; lia.
Qed.

Lemma numel_add t k : torch.numel (torch.wrapping_add t k) = torch.numel t.
Proof.
  induction t as [v | rows IH] using Tensor_induction; simpl; [reflexivity |].
  induction IH as [| r rows Hr _ IHrows]; simpl; [reflexivity |].
  now rewrite Hr, IHrows.
Qed.

Lemma shape_add t k : torch.shape (torch.wrapping_add t k) = torch.shape t.
Proof.
  induction t as [v | rows IH] using Tensor_induction; simpl; [reflexivity |].
  rewrite length_map. f_equal.
  destruct IH as [| r rows Hr _]; simpl; [reflexivity | exact Hr].
Qed.

Lemma add_in_range t k :
  - 2 ^ 63 <= k < 2 ^ 63 -> torch.add t k = Ok (torch.wrapping_add t k).
Proof.
  intros Hk. unfold torch.add.
  destruct (Z.leb_spec (- 2 ^ 63) k); [| lia].
  destruct (Z.ltb_spec k (2 ^ 63)); [| lia].
  reflexivity.
Qed.

Lemma add_out_of_range t k :
  ~ - 2 ^ 63 <= k < 2 ^ 63 ->
  exists e, torch.add t k = Raise e /\ e <> AssertionError.
Proof.
  intros Hk. unfold torch.add.
  destruct (Z.leb_spec (- 2 ^ 63) k); destruct (Z.ltb_spec k (2 ^ 63));
    cbn [andb]; try lia;
    destruct ((0 <=? k) && (k <? 2 ^ 64)); eexists; split; try reflexivity; discriminate.
Qed.

Lemma add_inv t k r :
  torch.add t k = Ok r -> - 2 ^ 63 <= k < 2 ^ 63 /\ r = torch.wrapping_add t k.
Proof.
  intros H. destruct (Z_le_dec (- 2 ^ 63) k) as [Hl |]; [destruct (Z_lt_dec k (2 ^ 63)) |].
  - rewrite add_in_range in H by lia. injection H as <-. split; [lia | reflexivity].
  - destruct (add_out_of_range t k) as (e & He & _); [lia | congruence].
  - destruct (add_out_of_range t k) as (e & He & _); [lia | congruence].
Qed.

(** ** Binary64 rounding

    [rand_offset_calculator] divides integers with [/] and truncates the
    float with [int]. This section shows that, as long as the operands are
    small enough, [int(a / b)] and [int(a / b + 1)] are the integer
    quotient and the integer quotient plus 1. The argument needs only
    that [SFdiv] and [SFadd] round faithfully: the result is the exact
    value truncated to 53 bits or the next float, and the truncation when
    it is exact. Floats of at most 53 bits then bracket the result. *)

Lemma digits2_pos_bounds p :
  2 ^ (Zpos (digits2_pos p) - 1) <= Zpos p < 2 ^ Zpos (digits2_pos p).
Proof.
  assert (Hpow : forall d, 0 < d -> 2 ^ d = 2 * 2 ^ (d - 1)).
  { intros d Hd. rewrite <- Z.pow_succ_r by lia. f_equal. lia. }
  induction p as [p IH | p IH |]; cbn [digits2_pos].
  - rewrite Pos2Z.inj_succ, (Pos2Z.inj_xI p).
    pose proof (Pos2Z.is_pos (digits2_pos p)) as Hd.
    set (d := Zpos (digits2_pos p)) in *.
    replace (Z.succ d - 1) with d by lia.
    rewrite (Hpow (Z.succ d)) by lia.
    replace (Z.succ d - 1) with d by lia.
    pose proof (Hpow d Hd). lia.
  - rewrite Pos2Z.inj_succ, (Pos2Z.inj_xO p).
    pose proof (Pos2Z.is_pos (digits2_pos p)) as Hd.
    set (d := Zpos (digits2_pos p)) in *.
    replace (Z.succ d - 1) with d by lia.
    rewrite (Hpow (Z.succ d)) by lia.
    replace (Z.succ d - 1) with d by lia.
    pose proof (Hpow d Hd). lia.
  - simpl. lia.
Qed.

Lemma Zdigits2_bounds m :
  0 < m -> 2 ^ (Zdigits2 m - 1) <= m < 2 ^ Zdigits2 m.
Proof. destruct m as [| p | p]; try lia. intros _. apply digits2_pos_bounds. Qed.

Lemma Zdigits2_unique m d :
  2 ^ (d - 1) <= m < 2 ^ d -> 0 < d -> Zdigits2 m = d.
Proof.
  intros Hm Hd.
  assert (0 < m) by (pose proof (Z.pow_pos_nonneg 2 (d - 1)); lia).
  pose proof (Zdigits2_bounds m H) as Hb.
  assert (0 < Zdigits2 m) by (destruct m; simpl; lia).
  destruct (Z.lt_trichotomy (Zdigits2 m) d) as [Hlt | [Heq | Hgt]]; [| exact Heq |].
  - assert (2 ^ Zdigits2 m <= 2 ^ (d - 1)) by (apply Z.pow_le_mono_r; lia). lia.
  - assert (2 ^ d <= 2 ^ (Zdigits2 m - 1)) by (apply Z.pow_le_mono_r; lia). lia.
Qed.

(** [shr_1] halves the mantissa and keeps a record exact when the bit it
    drops is 0. *)
Lemma shr_1_mantissa mrs :
  0 <= shr_m mrs -> shr_m (shr_1 mrs) = shr_m mrs / 2.
Proof.
  destruct mrs as [m r s]. simpl. intros Hm.
  destruct m as [| [p | p |] |]; simpl; try reflexivity; try lia.
  - rewrite (Pos2Z.inj_xI p). apply Z.div_unique with 1; lia.
  - rewrite (Pos2Z.inj_xO p). apply Z.div_unique with 0; lia.
Qed.

Lemma shr_1_exact mrs :
  0 <= shr_m mrs -> exact_record mrs -> shr_m mrs mod 2 = 0 -> exact_record (shr_1 mrs).
Proof.
  destruct mrs as [m r s]. unfold exact_record. simpl. intros Hm [-> ->] Hmod.
  destruct m as [| [p | p |] |]; simpl; auto; try lia.
  - rewrite (Pos2Z.inj_xI p) in Hmod.
    rewrite Z.add_comm, Z.mul_comm, Z.mod_add in Hmod by lia. discriminate.
  - discriminate.
Qed.

Lemma iter_pos_shr_1 p :
  forall mrs, 0 <= shr_m mrs ->
  shr_m (SpecFloat.iter_pos shr_1 p mrs) = shr_m mrs / 2 ^ Zpos p /\
  (exact_record mrs -> shr_m mrs mod 2 ^ Zpos p = 0 ->
   exact_record (SpecFloat.iter_pos shr_1 p mrs)).
Proof.
  assert (Hstep : forall f : shr_record -> shr_record, forall k,
    0 < k ->
    (forall mrs, 0 <= shr_m mrs ->
       shr_m (f mrs) = shr_m mrs / 2 ^ k /\
       (exact_record mrs -> shr_m mrs mod 2 ^ k = 0 -> exact_record (f mrs))) ->
    forall mrs, 0 <= shr_m mrs ->
       shr_m (f (f mrs)) = shr_m mrs / 2 ^ (2 * k) /\
       (exact_record mrs -> shr_m mrs mod 2 ^ (2 * k) = 0 -> exact_record (f (f mrs)))).
  { intros f k Hk Hf mrs Hm.
    destruct (Hf mrs Hm) as [E1 X1].
    assert (H1 : 0 <= shr_m (f mrs)) by (rewrite E1; apply Z.div_pos; lia).
    destruct (Hf (f mrs) H1) as [E2 X2].
    replace (2 * k) with (k + k) by lia. rewrite Z.pow_add_r by lia.
    split.
    - rewrite E2, E1. apply Z.div_div; lia.
    - intros Hex Hmod.
      assert (Hdiv : (2 ^ k * 2 ^ k | shr_m mrs)) by (apply Z.mod_divide; lia).
      destruct Hdiv as [c Hc].
      apply X2.
      + apply X1; [exact Hex |]. rewrite Hc.
        replace (c * (2 ^ k * 2 ^ k)) with (c * 2 ^ k * 2 ^ k) by ring.
        apply Z.mod_mul. lia.
      + rewrite E1, Hc.
        replace (c * (2 ^ k * 2 ^ k)) with (c * 2 ^ k * 2 ^ k) by ring.
        rewrite Z.div_mul by lia. apply Z.mod_mul. lia. }
  induction p as [p IH | p IH |]; intros mrs Hm; cbn [SpecFloat.iter_pos].
  - assert (H1 : 0 <= shr_m (shr_1 mrs))
      by (rewrite shr_1_mantissa by exact Hm; apply Z.div_pos; lia).
    destruct (Hstep (SpecFloat.iter_pos shr_1 p) (Zpos p) ltac:(lia) IH (shr_1 mrs) H1) as [E X].
    rewrite (Pos2Z.inj_xI p).
    replace (2 * Zpos p + 1) with (1 + 2 * Zpos p) by lia.
    rewrite Z.pow_add_r by lia. change (2 ^ 1) with 2.
    split.
    + rewrite E, shr_1_mantissa by exact Hm. apply Z.div_div; lia.
    + intros Hex Hmod.
      assert (Hdiv : (2 * 2 ^ (2 * Zpos p) | shr_m mrs)) by (apply Z.mod_divide; lia).
      destruct Hdiv as [c Hc].
      apply X.
      * apply shr_1_exact; [exact Hm | exact Hex |]. rewrite Hc.
        replace (c * (2 * 2 ^ (2 * Zpos p))) with (c * 2 ^ (2 * Zpos p) * 2) by ring.
        apply Z.mod_mul. lia.
      * rewrite shr_1_mantissa by exact Hm. rewrite Hc.
        replace (c * (2 * 2 ^ (2 * Zpos p))) with (c * 2 ^ (2 * Zpos p) * 2) by ring.
        rewrite Z.div_mul by lia. apply Z.mod_mul. lia.
  - rewrite (Pos2Z.inj_xO p). apply (Hstep (SpecFloat.iter_pos shr_1 p) (Zpos p)); [lia | exact IH | exact Hm].
  - change (2 ^ 1) with 2. split.
    + apply shr_1_mantissa, Hm.
    + intros Hex Hmod. now apply shr_1_exact.
Qed.

Lemma Zdigits2_large m : 2 ^ 52 <= m -> 53 <= Zdigits2 m.
Proof.
  intros Hm. assert (0 < m) by lia.
  pose proof (Zdigits2_bounds m H) as [_ Hb].
  destruct (Z_lt_le_dec (Zdigits2 m) 53) as [Hlt | Hge]; [| exact Hge].
  assert (2 ^ Zdigits2 m <= 2 ^ 52) by (apply Z.pow_le_mono_r; lia). lia.
Qed.

Lemma shr_record_of_loc_mantissa m l : shr_m (shr_record_of_loc m l) = m.
Proof. destruct l as [| []]; reflexivity. Qed.

Lemma shr_fexp_spec m e l :
  2 ^ 52 <= m -> -1074 <= e ->
  exists mrs,
    shr_fexp 53 1024 m e l = (mrs, e + (Zdigits2 m - 53)) /\
    shr_m mrs = m / 2 ^ (Zdigits2 m - 53) /\
    (l = loc_Exact -> m mod 2 ^ (Zdigits2 m - 53) = 0 -> exact_record mrs).
Proof.
  intros Hm He. pose proof (Zdigits2_large m Hm) as Hd.
  unfold shr_fexp, fexp, emin.
  replace (Z.max (Zdigits2 m + e - 53) (3 - 1024 - 53) - e) with (Zdigits2 m - 53) by lia.
  destruct (Zdigits2 m - 53) as [| p | p] eqn:Hn; [| | lia].
  - exists (shr_record_of_loc m l). simpl shr.
    rewrite Z.add_0_r, shr_record_of_loc_mantissa, Z.div_1_r.
    split; [reflexivity | split; [reflexivity |]].
    intros -> _. split; reflexivity.
  - exists (SpecFloat.iter_pos shr_1 p (shr_record_of_loc m l)). cbn [shr].
    destruct (iter_pos_shr_1 p (shr_record_of_loc m l)) as [E X].
    { rewrite shr_record_of_loc_mantissa. lia. }
    rewrite shr_record_of_loc_mantissa in *.
    split; [reflexivity | split; [exact E |]].
    intros -> Hmod. apply X; [split; reflexivity | exact Hmod].
Qed.

Lemma round_nearest_even_spec mrs :
  let m' := round_nearest_even (shr_m mrs) (loc_of_shr_record mrs) in
  (m' = shr_m mrs \/ m' = shr_m mrs + 1) /\
  (exact_record mrs -> m' = shr_m mrs).
Proof.
  destruct mrs as [m [] []]; unfold exact_record; simpl;
    try destruct (Z.even m); split; auto; intros [? ?]; discriminate.
Qed.

(** [binary_round_aux] on a mantissa of at least 53 bits: the result is
    finite, its mantissa is the truncated mantissa [m / 2^n] or the next
    one, and it is the truncated one when nothing is lost. *)
Lemma binary_round_aux_spec m e l :
  2 ^ 52 <= m -> -1074 <= e -> e + (Zdigits2 m - 53) + 1 <= 971 ->
  let n := Zdigits2 m - 53 in
  let m1 := m / 2 ^ n in
  exists m2 mf ef,
    binary_round_aux 53 1024 false m e l = S754_finite false mf ef /\
    2 ^ 52 <= m1 < 2 ^ 53 /\
    (m2 = m1 \/ m2 = m1 + 1) /\
    (l = loc_Exact -> m mod 2 ^ n = 0 -> m2 = m1) /\
    2 ^ 52 <= Zpos mf < 2 ^ 53 /\
    ((ef = e + n /\ Zpos mf = m2) \/
     (ef = e + n + 1 /\ Zpos mf = 2 ^ 52 /\ m2 = 2 ^ 53)).
Proof.
  intros Hm He Hov n m1.
  pose proof (Zdigits2_large m Hm) as Hd.
  assert (Hn : 0 <= n) by (unfold n; lia).
  assert (Hm1 : 2 ^ 52 <= m1 < 2 ^ 53).
  { assert (0 < m) by lia.
    pose proof (Zdigits2_bounds m H) as Hb. fold n in Hb.
    replace (Zdigits2 m - 1) with (52 + n) in Hb by (unfold n; lia).
    replace (Zdigits2 m) with (53 + n) in Hb by (unfold n; lia).
    rewrite !Z.pow_add_r in Hb by lia.
    assert (0 < 2 ^ n) by (apply Z.pow_pos_nonneg; lia).
    unfold m1. split.
    - apply Z.div_le_lower_bound; lia.
    - apply Z.div_lt_upper_bound; lia. }
  unfold binary_round_aux.
  destruct (shr_fexp_spec m e l Hm He) as (mrs & -> & Em & Xm). fold n in Em, Xm |- *.
  fold m1 in Em.
  pose proof (round_nearest_even_spec mrs) as [Hr Hx]. cbv zeta in Hr, Hx.
  set (m2 := round_nearest_even (shr_m mrs) (loc_of_shr_record mrs)) in *.
  rewrite Em in Hr, Hx.
  assert (Hm2 : 2 ^ 52 <= m2) by lia.
  destruct (shr_fexp_spec m2 (e + n) loc_Exact Hm2 ltac:(lia)) as (mrs2 & -> & Em2 & _).
  exists m2.
  destruct (Z_lt_le_dec m2 (2 ^ 53)) as [Hlt | Hge].
  - assert (Hd2 : Zdigits2 m2 = 53) by (apply Zdigits2_unique; [simpl Z.sub; lia | lia]).
    rewrite Hd2 in *. simpl Z.sub in *. rewrite Z.div_1_r in Em2. rewrite Em2.
    destruct m2 as [| p2 | p2]; try lia.
    rewrite Z.add_0_r.
    replace (e + n <=? 1024 - 53) with true by (symmetry; apply Z.leb_le; lia).
    exists p2, (e + n). repeat split; auto; try lia.
  - assert (E2 : m2 = 2 ^ 53) by lia.
    assert (Hd2 : Zdigits2 m2 = 54) by (rewrite E2; reflexivity).
    rewrite Hd2 in *. rewrite Em2, E2.
    change (2 ^ 53 / 2 ^ (54 - 53)) with (Zpos 4503599627370496).
    replace (e + n + (54 - 53) <=? 1024 - 53) with true by (symmetry; apply Z.leb_le; lia).
    exists 4503599627370496%positive, (e + n + 1).
    split; [f_equal; lia |]. split; [exact Hm1 |]. split; [lia |].
    split; [intros HE HM; specialize (Hx (Xm HE HM)); lia |].
    split; [vm_compute; split; [discriminate | reflexivity] |].
    right. repeat split; reflexivity.
Qed.

Lemma pow2_pos n : 0 <= n -> 0 < 2 ^ n.
Proof. intros. apply Z.pow_pos_nonneg; lia. Qed.

Lemma pow2_split a b : 0 <= a -> 0 <= b -> 2 ^ (a + b) = 2 ^ a * 2 ^ b.
Proof. intros. apply Z.pow_add_r; lia. Qed.

Lemma faithful_lower N Dn f K :
  faithful N Dn f -> 0 < Dn -> K * Dn <= N -> K * 2 ^ scale <= scaled f.
Proof.
  intros (T & m2 & mf & ef & -> & HT & Hef & Hmf & Hs & Hn & Hm2 & Hx) HDn HK.
  rewrite Hs.
  pose proof (pow2_pos T ltac:(lia)) as HpT.
  pose proof (pow2_pos (scale - T) ltac:(lia)) as HpS.
  assert (K * 2 ^ T <= N * 2 ^ T / Dn).
  { apply Z.div_le_lower_bound; [lia |]. nia. }
  replace (2 ^ scale) with (2 ^ T * 2 ^ (scale - T))
    by (rewrite <- pow2_split by lia; f_equal; lia).
  nia.
Qed.

Lemma faithful_upper N Dn f Y c :
  faithful N Dn f -> 0 < Dn -> 0 <= c <= scale -> 0 <= Y < 2 ^ 53 ->
  N * 2 ^ c <= Y * Dn ->
  scaled f * 2 ^ c <= Y * 2 ^ scale.
Proof.
  intros (T & m2 & mf & ef & -> & HT & Hef & Hmf & Hs & Hn & Hm2 & Hx) HDn Hc HY HN.
  rewrite Hs.
  pose proof (pow2_pos T ltac:(lia)) as HpT.
  pose proof (pow2_pos c ltac:(lia)) as Hpc.
  pose proof (pow2_pos (scale - T) ltac:(lia)) as HpS.
  set (m1 := N * 2 ^ T / Dn) in *.
  assert (Hfloor : m1 * Dn <= N * 2 ^ T).
  { unfold m1. rewrite Z.mul_comm. apply Z.mul_div_le. lia. }
  destruct (Z_le_gt_dec c T) as [HcT | HcT].
  - pose proof (pow2_pos (T - c) ltac:(lia)) as HpTc.
    assert (E : 2 ^ T = 2 ^ c * 2 ^ (T - c))
      by (rewrite <- pow2_split by lia; f_equal; lia).
    assert (Hup : N * 2 ^ T <= Y * 2 ^ (T - c) * Dn) by (rewrite E; nia).
    assert (Hm1 : m1 <= Y * 2 ^ (T - c)).
    { unfold m1. apply Z.div_le_upper_bound; [lia |]. lia. }
    assert (Hm2' : m2 <= Y * 2 ^ (T - c)).
    { destruct Hm2 as [-> | ->]; [exact Hm1 |].
      destruct (Z.eq_dec m1 (Y * 2 ^ (T - c))) as [Heq | Hne]; [| lia].
      assert (N * 2 ^ T = m1 * Dn) by (rewrite Heq in *; lia).
      assert ((N * 2 ^ T) mod Dn = 0) by (rewrite H; apply Z.mod_mul; lia).
      specialize (Hx H0). lia. }
    replace (2 ^ scale) with (2 ^ (T - c) * 2 ^ (scale - T) * 2 ^ c).
    + nia.
    + rewrite <- !pow2_split by lia. f_equal. lia.
  - exfalso.
    pose proof (pow2_pos (c - T - 1) ltac:(lia)) as Hp1.
    assert (E : 2 ^ c = 2 * 2 ^ T * 2 ^ (c - T - 1)).
    { replace (2 * 2 ^ T) with (2 ^ (1 + T)) by (rewrite pow2_split by lia; reflexivity).
      rewrite <- pow2_split by lia. f_equal. lia. }
    assert (m1 * Dn * 2 ^ c <= Y * Dn * 2 ^ T) by nia.
    assert (m1 * 2 ^ c <= Y * 2 ^ T) by nia.
    assert (2 ^ 53 * 2 ^ T <= m1 * 2 ^ c).
    { rewrite E. change (2 ^ 53) with (2 * 2 ^ 52). nia. }
    nia.
Qed.

Lemma int_of_float_scaled mf ef K :
  - scale <= ef ->
  K * 2 ^ scale <= scaled (S754_finite false mf ef) < (K + 1) * 2 ^ scale ->
  Py.int_of_float (S754_finite false mf ef) = Ok K.
Proof.
  intros Hef HK. unfold Py.int_of_float. cbn [cond_Zopp]. f_equal.
  cbn [scaled] in HK.
  pose proof (pow2_pos scale ltac:(unfold scale; lia)) as HpS.
  assert (Hfloor : Zpos mf * 2 ^ (scale + ef) / 2 ^ scale = K).
  { symmetry. apply Z.div_unique with (Zpos mf * 2 ^ (scale + ef) - K * 2 ^ scale); lia. }
  destruct ef as [| p | p].
  - rewrite Z.shiftl_0_r. rewrite Z.add_0_r, Z.div_mul in Hfloor by lia. exact Hfloor.
  - rewrite Z.shiftl_mul_pow2 by lia.
    replace (Zpos mf * 2 ^ (scale + Zpos p)) with (Zpos mf * 2 ^ Zpos p * 2 ^ scale)
      in Hfloor by (rewrite pow2_split by (unfold scale; lia); ring).
    rewrite Z.div_mul in Hfloor by lia. exact Hfloor.
  - rewrite Z.shiftr_div_pow2 by lia.
    pose proof (pow2_pos (scale + Zneg p) ltac:(lia)) as Hp1.
    replace (2 ^ scale) with (2 ^ Zpos p * 2 ^ (scale + Zneg p)) in Hfloor.
    + rewrite Z.div_mul_cancel_r in Hfloor by lia. exact Hfloor.
    + rewrite <- pow2_split by lia. f_equal. lia.
Qed.

Lemma Zdigits2_small m k : 0 < m < 2 ^ k -> 0 < Zdigits2 m <= k.
Proof.
  intros [Hm Hk]. pose proof (Zdigits2_bounds m Hm) as [Hb _].
  assert (0 < Zdigits2 m) by (destruct m; simpl; lia).
  split; [assumption |].
  destruct (Z_le_gt_dec (Zdigits2 m) k) as [Hle | Hgt]; [exact Hle |].
  assert (2 ^ k <= 2 ^ (Zdigits2 m - 1)) by (apply Z.pow_le_mono_r; lia). lia.
Qed.

Lemma new_location_zero b : new_location b 0 = loc_Exact.
Proof. unfold new_location. destruct (Z.even b); reflexivity. Qed.

(** The quotient of two positive integers below 2^53, as [/] computes it,
    is a faithful rounding of the exact quotient. *)
Lemma int_truediv_faithful a b :
  0 < a < 2 ^ 53 -> 0 < b < 2 ^ 53 ->
  exists f, Py.int_truediv a b = Ok f /\ faithful a b f.
Proof.
  intros Ha Hb.
  destruct a as [| pa |]; try lia. destruct b as [| pb |]; try lia.
  unfold Py.int_truediv. change (Zpos pb =? 0) with false. cbv iota.
  cbn [Py.exact SFdiv xorb].
  pose proof (Zdigits2_small (Zpos pa) 53 Ha) as Hd1.
  pose proof (Zdigits2_small (Zpos pb) 53 Hb) as Hd2.
  pose proof (Zdigits2_bounds (Zpos pa) ltac:(lia)) as Hba.
  pose proof (Zdigits2_bounds (Zpos pb) ltac:(lia)) as Hbb.
  unfold SFdiv_core_binary, fexp, emin, Py.prec, Py.emax.
  set (d1 := Zdigits2 (Zpos pa)) in *. set (d2 := Zdigits2 (Zpos pb)) in *.
  replace (Z.min (Z.max (d1 + 0 - (d2 + 0) - 53) (3 - 1024 - 53)) (0 - 0))
    with (d1 - d2 - 53) by lia.
  replace (0 - 0 - (d1 - d2 - 53)) with (53 + d2 - d1) by lia.
  set (s := 53 + d2 - d1).
  assert (Hs : 0 < s <= 106) by (unfold s; lia).
  destruct s as [| ps | ps] eqn:Es; try lia. rewrite <- Es in *.
  rewrite Z.shiftl_mul_pow2 by lia.
  pose proof (pow2_pos s ltac:(lia)) as Hps.
  set (Q := Zpos pa * 2 ^ s).
  destruct (Z.div_eucl Q (Zpos pb)) as [q r] eqn:Ediv.
  assert (Eq : q = Q / Zpos pb) by (unfold Z.div; now rewrite Ediv).
  assert (Er : r = Q mod Zpos pb) by (unfold Z.modulo; now rewrite Ediv).
  (* the quotient has 53 or 54 bits *)
  assert (Hq : 2 ^ 52 <= q < 2 ^ 54).
  { rewrite Eq. unfold Q. split.
    - apply Z.div_le_lower_bound; [lia |].
      assert (2 ^ 52 * 2 ^ d2 <= 2 ^ (d1 - 1) * 2 ^ s).
      { rewrite <- !pow2_split by lia. apply Z.pow_le_mono_r; unfold s; lia. }
      pose proof (pow2_pos d2 ltac:(lia)). pose proof (pow2_pos (d1 - 1) ltac:(lia)). nia.
    - apply Z.div_lt_upper_bound; [lia |].
      assert (2 ^ d1 * 2 ^ s <= 2 ^ (d2 - 1) * 2 ^ 54).
      { rewrite <- !pow2_split by lia. apply Z.pow_le_mono_r; unfold s; lia. }
      pose proof (pow2_pos (d2 - 1) ltac:(lia)). pose proof (pow2_pos d1 ltac:(lia)). nia. }
  pose proof (Zdigits2_large q ltac:(lia)) as Hdq.
  pose proof (Zdigits2_small q 54 ltac:(lia)) as Hdq'.
  destruct (binary_round_aux_spec q (d1 - d2 - 53) (new_location (Zpos pb) r))
    as (m2 & mf & ef & -> & Hm1 & Hm2 & Hx & Hmf & Hfin); try lia.
  eexists. split; [reflexivity |].
  set (n := Zdigits2 q - 53) in *.
  pose proof (pow2_pos n ltac:(lia)) as Hpn.
  assert (HT : 0 <= s - n) by (unfold n; lia).
  pose proof (pow2_pos (s - n) HT) as HpT.
  assert (EQ : Q = Zpos pa * 2 ^ (s - n) * 2 ^ n).
  { unfold Q. rewrite <- Z.mul_assoc, <- pow2_split by lia. do 2 f_equal. lia. }
  assert (Em1 : q / 2 ^ n = Zpos pa * 2 ^ (s - n) / Zpos pb).
  { rewrite Eq, Z.div_div by lia. rewrite EQ.
    apply Z.div_mul_cancel_r; lia. }
  rewrite Em1 in *.
  exists (s - n), m2, mf, ef.
  split; [reflexivity |]. split; [unfold scale; lia |].
  split; [unfold scale; lia |]. split; [exact Hmf |].
  split; [| split; [lia | split; [exact Hm2 |]]].
  - cbn [scaled]. destruct Hfin as [[-> ->] | (-> & -> & ->)].
    + do 2 f_equal. unfold s. lia.
    + replace (scale + (d1 - d2 - 53 + n + 1)) with (1 + (scale - (s - n)))
        by (unfold s; lia).
      rewrite pow2_split by (unfold scale; lia).
      change (2 ^ 53) with (2 ^ 52 * 2 ^ 1). ring.
  - intros Hmod. apply Hx.
    + assert (Hr0 : r = 0).
      { rewrite Er, EQ.
        apply Z.mod_divide in Hmod; [| lia]. destruct Hmod as [c Hc]. rewrite Hc.
        replace (c * Zpos pb * 2 ^ n) with (c * 2 ^ n * Zpos pb) by ring.
        apply Z.mod_mul. lia. }
      rewrite Hr0. apply new_location_zero.
    + rewrite Eq, EQ.
      apply Z.mod_divide in Hmod; [| lia]. destruct Hmod as [c Hc]. rewrite Hc.
      replace (c * Zpos pb * 2 ^ n) with (c * 2 ^ n * Zpos pb) by ring.
      rewrite Z.div_mul by lia. apply Z.mod_mul. lia.
Qed.

Lemma iter_xO_value d : forall m, Zpos (Pos.iter xO m d) = Zpos m * 2 ^ Zpos d.
Proof.
  induction d as [| d IH] using Pos.peano_ind; intros m.
  - cbn [Pos.iter]. rewrite (Pos2Z.inj_xO m). change (2 ^ 1) with 2. ring.
  - rewrite Pos.iter_succ, (Pos2Z.inj_xO (Pos.iter xO m d)), IH, Pos2Z.inj_succ.
    rewrite Z.pow_succ_r by lia. ring.
Qed.

Lemma shl_align_value mx ex ex' :
  ex' <= ex -> Zpos (fst (shl_align mx ex ex')) = Zpos mx * 2 ^ (ex - ex').
Proof.
  intros Hle. unfold shl_align.
  destruct (ex' - ex) as [| d | d] eqn:Hd; try lia; cbn [fst].
  - replace (ex - ex') with 0 by lia. lia.
  - rewrite iter_xO_value. do 2 f_equal. lia.
Qed.

Lemma shl_align_keep mx ex ex' : ex <= ex' -> shl_align mx ex ex' = (mx, ex).
Proof.
  intros Hle. unfold shl_align. destruct (ex' - ex) eqn:Hd; try reflexivity. lia.
Qed.

(** Adding the integer 1 to a normalised positive float gives a faithful
    rounding of the exact sum, as long as the sum stays below 2^53. *)
Lemma float_add_one_faithful mf ef :
  2 ^ 52 <= Zpos mf < 2 ^ 53 -> - scale <= ef ->
  scaled (S754_finite false mf ef) + 2 ^ scale < 2 ^ 53 * 2 ^ scale ->
  exists f',
    Py.float_add_int (S754_finite false mf ef) 1 = Ok f' /\
    faithful (scaled (S754_finite false mf ef) + 2 ^ scale) (2 ^ scale) f'.
Proof.
  intros Hmf Hef Hlt.
  unfold Py.float_add_int.
  change (Py.float_of_int 1) with (Ok (S754_finite false 4503599627370496 (-52))).
  cbn [rbind SFadd cond_Zopp].
  set (ez := Z.min ef (-52)).
  assert (Hez : - scale <= ez <= -52) by (unfold ez, scale in *; lia).
  rewrite !shl_align_value by (unfold ez; lia).
  change (Zpos 4503599627370496) with (2 ^ 52).
  rewrite <- (pow2_split 52 (-52 - ez)) by lia.
  replace (52 + (-52 - ez)) with (- ez) by lia.
  set (M := Zpos mf * 2 ^ (ef - ez) + 2 ^ (- ez)).
  pose proof (pow2_pos (ef - ez) ltac:(unfold ez; lia)) as Hp1.
  pose proof (pow2_pos (- ez) ltac:(lia)) as Hp2.
  pose proof (pow2_pos (scale + ez) ltac:(lia)) as Hp3.
  pose proof (pow2_pos scale ltac:(unfold scale; lia)) as Hp4.
  assert (HM : 2 ^ 52 <= M) by (unfold M; nia).
  assert (EN : scaled (S754_finite false mf ef) + 2 ^ scale = M * 2 ^ (scale + ez)).
  { cbn [scaled]. unfold M. rewrite Z.mul_add_distr_r, <- Z.mul_assoc.
    rewrite <- !pow2_split by (unfold ez; lia).
    f_equal; [do 2 f_equal; lia | f_equal; lia]. }
  assert (ED : 2 ^ scale = 2 ^ (- ez) * 2 ^ (scale + ez)).
  { rewrite <- pow2_split by lia. f_equal. lia. }
  assert (HMlt : M < 2 ^ (53 - ez)).
  { rewrite EN in Hlt.
    replace (2 ^ 53 * 2 ^ scale) with (2 ^ (53 - ez) * 2 ^ (scale + ez)) in Hlt.
    - nia.
    - rewrite <- !pow2_split by (unfold scale in *; lia). f_equal. lia. }
  pose proof (Zdigits2_large M HM) as Hd.
  pose proof (Zdigits2_small M (53 - ez) ltac:(lia)) as Hd'.
  unfold Py.prec, Py.emax.
  assert (Hnorm : binary_normalize 53 1024 M ez false =
                  binary_round_aux 53 1024 false M ez loc_Exact).
  { clearbody M. destruct M as [| pm | pm]; try lia.
    cbn [binary_normalize]. unfold binary_round.
    rewrite shl_align_keep; [reflexivity |].
    cbn [Zdigits2] in Hd. unfold fexp, emin. lia. }
  rewrite Hnorm.
  destruct (binary_round_aux_spec M ez loc_Exact)
    as (m2 & mf' & ef' & Hres & Hm1 & Hm2 & Hx & Hmf' & Hfin);
    try (unfold scale in *; lia).
  rewrite Hres.
  eexists. split; [reflexivity |].
  set (n := Zdigits2 M - 53) in *.
  pose proof (pow2_pos n ltac:(lia)) as Hpn.
  assert (HT : 0 <= - ez - n) by (unfold n; lia).
  pose proof (pow2_pos (- ez - n) HT) as HpT.
  assert (Em1 : (scaled (S754_finite false mf ef) + 2 ^ scale) * 2 ^ (- ez - n) / 2 ^ scale
                = M / 2 ^ n).
  { rewrite EN, ED.
    replace (M * 2 ^ (scale + ez) * 2 ^ (- ez - n))
      with (M * 2 ^ (- ez - n) * 2 ^ (scale + ez)) by ring.
    rewrite Z.div_mul_cancel_r by lia.
    replace (2 ^ (- ez)) with (2 ^ n * 2 ^ (- ez - n))
      by (rewrite <- pow2_split by lia; f_equal; lia).
    apply Z.div_mul_cancel_r; lia. }
  exists (- ez - n), m2, mf', ef'.
  split; [reflexivity |]. split; [unfold scale in *; lia |].
  split; [destruct Hfin as [[-> _] | (-> & _)]; lia |]. split; [exact Hmf' |].
  rewrite Em1.
  split; [| split; [lia | split; [exact Hm2 |]]].
  - cbn [scaled]. destruct Hfin as [[-> ->] | (-> & -> & ->)].
    + do 2 f_equal. lia.
    + replace (scale + (ez + n + 1)) with (1 + (scale - (- ez - n))) by lia.
      rewrite pow2_split by lia.
      change (2 ^ 53) with (2 ^ 52 * 2 ^ 1). ring.
  - intros Hmod. apply Hx; [reflexivity |].
    rewrite EN, ED in Hmod.
    apply Z.mod_divide in Hmod; [| lia]. destruct Hmod as [c Hc].
    replace (2 ^ (- ez)) with (2 ^ n * 2 ^ (- ez - n)) in Hc
      by (rewrite <- pow2_split by lia; f_equal; lia).
    assert (M = c * 2 ^ n) by nia.
    rewrite H. apply Z.mod_mul. lia.
Qed.

(** The two bounds that tie a faithful rounding of [a / b] to the integer
    quotient [k = a / b]: it is at least [k], and at most
    [k + 1 - 2^-c] for [c] the number of bits of [b]. *)
Lemma faithful_quotient_bounds a b f :
  0 < a -> 0 < b -> a + b <= 2 ^ 52 -> faithful a b f ->
  let k := a / b in
  let c := Zdigits2 b in
  0 < c <= 53 /\ 2 ^ (c - 1) <= b < 2 ^ c /\
  k * b <= a < (k + 1) * b /\
  k * 2 ^ scale <= scaled f /\
  scaled f * 2 ^ c <= ((k + 1) * 2 ^ c - 1) * 2 ^ scale.
Proof.
  intros Ha Hb Hab Hf k c.
  assert (Hk : k * b <= a < (k + 1) * b).
  { unfold k. pose proof (Z.mul_div_le a b Hb). pose proof (Z.mul_succ_div_gt a b Hb). lia. }
  assert (Hk0 : 0 <= k) by (apply Z.div_pos; lia).
  pose proof (Zdigits2_bounds b Hb) as Hc. fold c in Hc.
  pose proof (Zdigits2_small b 53 ltac:(lia)) as Hc53. fold c in Hc53.
  pose proof (pow2_pos (c - 1) ltac:(lia)) as Hp1.
  assert (E : 2 ^ c = 2 * 2 ^ (c - 1)).
  { replace c with (1 + (c - 1)) at 1 by lia. rewrite pow2_split by lia. reflexivity. }
  split; [exact Hc53 |]. split; [exact Hc |]. split; [exact Hk |]. split.
  - apply (faithful_lower a b f k Hf Hb). lia.
  - apply (faithful_upper a b f _ c Hf Hb).
    + unfold scale. lia.
    + split; [nia |]. change (2 ^ 53) with (2 * 2 ^ 52). nia.
    + nia.
Qed.

(** [int(a / b)] is the integer quotient. *)
Lemma int_of_truediv a b :
  0 <= a -> 0 < b -> a + b <= 2 ^ 52 ->
  exists f, Py.int_truediv a b = Ok f /\ Py.int_of_float f = Ok (a / b).
Proof.
  intros Ha Hb Hab.
  destruct (Z.eq_dec a 0) as [-> | Hne].
  - exists (S754_zero false). split; [| reflexivity].
    unfold Py.int_truediv. destruct b; try lia. reflexivity.
  - destruct (int_truediv_faithful a b) as (f & Hdiv & Hf); try lia.
    exists f. split; [exact Hdiv |].
    destruct (faithful_quotient_bounds a b f ltac:(lia) Hb Hab Hf)
      as (Hc & Hbc & Hk & Hlo & Hup).
    destruct Hf as (T & m2 & mf & ef & -> & _ & Hef & _).
    apply int_of_float_scaled; [exact Hef |].
    pose proof (pow2_pos (Zdigits2 b) ltac:(lia)).
    pose proof (pow2_pos scale ltac:(unfold scale; lia)).
    split; [exact Hlo | nia].
Qed.

(** [int(a / b + 1)] is the integer quotient plus 1. *)
Lemma int_of_truediv_plus_one a b :
  0 <= a -> 0 < b -> a + 2 * b <= 2 ^ 52 ->
  exists f f',
    Py.int_truediv a b = Ok f /\
    Py.float_add_int f 1 = Ok f' /\
    Py.int_of_float f' = Ok (a / b + 1).
Proof.
  intros Ha Hb Hab.
  destruct (Z.eq_dec a 0) as [-> | Hne].
  - exists (S754_zero false), (S754_finite false 4503599627370496 (-52)).
    split; [| split; reflexivity].
    unfold Py.int_truediv. destruct b; try lia. reflexivity.
  - destruct (int_truediv_faithful a b) as (f & Hdiv & Hf); try lia.
    destruct (faithful_quotient_bounds a b f ltac:(lia) Hb ltac:(lia) Hf)
      as (Hc & Hbc & Hk & Hlo & Hup).
    set (k := a / b) in *. set (c := Zdigits2 b) in *.
    assert (Hk0 : 0 <= k) by (apply Z.div_pos; lia).
    pose proof (pow2_pos c ltac:(lia)) as Hpc.
    pose proof (pow2_pos (c - 1) ltac:(lia)) as Hpc1.
    pose proof (pow2_pos scale ltac:(unfold scale; lia)) as Hps.
    assert (E : 2 ^ c = 2 * 2 ^ (c - 1)).
    { replace c with (1 + (c - 1)) at 1 by lia. rewrite pow2_split by lia. reflexivity. }
    pose proof Hf as (T & m2 & mf & ef & Ef & _ & Hef & Hmf & _).
    subst f.
    destruct (float_add_one_faithful mf ef Hmf Hef) as (f' & Hadd & Hf').
    { change (2 ^ 53) with (2 * 2 ^ 52). nia. }
    exists (S754_finite false mf ef), f'.
    split; [exact Hdiv |]. split; [exact Hadd |].
    pose proof (faithful_lower _ _ f' (k + 1) Hf' Hps ltac:(lia)) as Hlo'.
    pose proof (faithful_upper _ _ f' ((k + 2) * 2 ^ c - 1) c Hf' Hps
                  ltac:(unfold scale; lia)) as Hup'.
    destruct Hf' as (T' & m2' & mf' & ef' & -> & _ & Hef' & _).
    apply int_of_float_scaled; [exact Hef' |].
    split; [exact Hlo' |].
    assert (scaled (S754_finite false mf' ef') * 2 ^ c <=
            ((k + 2) * 2 ^ c - 1) * 2 ^ scale).
    { apply Hup'.
      - split; [nia |]. change (2 ^ 53) with (2 * 2 ^ 52). nia.
      - nia. }
    nia.
Qed.

(** On a device with at least 256 threads per multiprocessor and at least
    one multiprocessor, and for a shape of at most 2^48 elements, the
    calculator returns the closed form of the specification. *)
Lemma rand_offset_calculator_spec hw shape :
  256 <= max_threads_per_multi_processor hw <= 2 ^ 51 ->
  1 <= multi_processor_count hw ->
  1 <= numel_of shape <= 2 ^ 48 ->
  rand_offset_calculator hw shape = Ok (spec_rand_offset hw (numel_of shape)).
Proof.
  intros Hthreads Hcount Hnumel.
  unfold rand_offset_calculator, spec_rand_offset.
  set (numel := numel_of shape) in *.
  destruct (int_of_truediv (max_threads_per_multi_processor hw) 256)
    as (q1 & -> & Hq1); try lia. cbn [rbind]. rewrite Hq1. cbn [rbind].
  destruct (int_of_truediv (numel + 256 - 1) 256)
    as (q2 & -> & Hq2); try lia. cbn [rbind]. rewrite Hq2. cbn [rbind].
  set (bps := max_threads_per_multi_processor hw / 256).
  set (g0 := (numel + 256 - 1) / 256).
  assert (Hbps : 1 <= bps) by (unfold bps; apply Z.div_le_lower_bound; lia).
  assert (Hg0 : 1 <= g0 /\ 256 * g0 <= numel + 255).
  { unfold g0. split.
    - apply Z.div_le_lower_bound; lia.
    - pose proof (Z.mul_div_le (numel + 256 - 1) 256). lia. }
  set (grid := Z.min g0 (multi_processor_count hw * bps)).
  assert (Hgrid : 1 <= grid <= g0) by (unfold grid; nia).
  destruct (int_of_truediv_plus_one (numel - 1) (256 * grid * 4))
    as (q3 & q4 & -> & Hq3 & Hq4); try lia.
  cbn [rbind]. rewrite Hq3. cbn [rbind]. rewrite Hq4. reflexivity.
Qed.

Lemma rand_offset_calculator_at_least_4 hw shape :
  256 <= max_threads_per_multi_processor hw <= 2 ^ 51 ->
  1 <= multi_processor_count hw ->
  1 <= numel_of shape <= 2 ^ 48 ->
  exists k, rand_offset_calculator hw shape = Ok k /\ 4 <= k.
Proof.
  intros Hthreads Hcount Hnumel.
  eexists. split; [now apply rand_offset_calculator_spec |].
  unfold spec_rand_offset.
  set (numel := numel_of shape) in *.
  set (grid := Z.min _ _).
  assert (0 <= (numel - 1) / (256 * grid * 4)); [| lia].
  apply Z.div_pos; [lia |].
  assert (1 <= max_threads_per_multi_processor hw / 256)
    by (apply Z.div_le_lower_bound; lia).
  assert (1 <= (numel + 256 - 1) / 256) by (apply Z.div_le_lower_bound; lia).
  unfold grid. nia.
Qed.

(** The calculator on ordinary shapes, on the device of the examples. An
    empty shape has one element; a shape with a dimension of size 0 makes
    the grid size 0 and the division raise. *)
Example rand_offset_calculator_4_4 :
  rand_offset_calculator a100 [4; 4] = Ok 4.
Proof. reflexivity. Qed.

Example rand_offset_calculator_empty_shape :
  numel_of [] = 1 /\ rand_offset_calculator a100 [] = Ok 4.
Proof. split; reflexivity. Qed.

Example rand_offset_calculator_1000_cubed :
  rand_offset_calculator a100 [1000; 1000; 1000] = Ok 4524 /\
  spec_rand_offset a100 1000000000 = 4524.
Proof. split; reflexivity. Qed.

Example rand_offset_calculator_no_element :
  rand_offset_calculator a100 [3; 0] = Raise ZeroDivisionError.
Proof. reflexivity. Qed.

(** ** The offset calculator on a very large shape

    Beyond the bound of [rand_offset_calculator_spec] the float division
    and the integer formula part ways. *)

(** C1. On a device with 108 multiprocessors of 2048 threads, for the
    shape [27, 16777216, 16777216] (27 * 2^48 elements) the calculator
    returns 34359738372, while the closed form of the specification,
    (floor((numel - 1) / (block_size * grid_size * unroll)) + 1) *
    engine_calls_per_block with grid_size = 864, is 34359738368: the float
    quotient (numel - 1) / 884736 is rounded to 2^33 - 2^-20, and adding 1
    to it rounds up to 2^33 + 1. *)
Theorem rand_offset_calculator_large_shape :
  let shape := [27; 16777216; 16777216] in
  1 <= numel_of shape /\
  rand_offset_calculator a100 shape = Ok 34359738372 /\
  spec_rand_offset a100 (numel_of shape) = 34359738368 /\
  Py.int_truediv (numel_of shape - 1) (256 * 864 * 4) =
    Ok (S754_finite false (2 ^ 53 - 1) (-20)) /\
  Py.float_add_int (S754_finite false (2 ^ 53 - 1) (-20)) 1 =
    Ok (S754_finite false (2 ^ 52 + 2 ^ 19) (-19)).
Proof. vm_compute. repeat split; discriminate. Qed.

(** ** PhiloxState: validation, reads and transport *)

Lemma validate_state_populated self :
  torch.numel (PhiloxState.seed self) <> 0 ->
  torch.numel (PhiloxState.base_offset self) <> 0 ->
  PhiloxState.validate_state self = Ok tt.
Proof.
  intros Hs Hb. unfold PhiloxState.validate_state.
  apply Z.eqb_neq in Hs, Hb. now rewrite Hs, Hb.
Qed.

Lemma validate_state_empty self :
  torch.numel (PhiloxState.seed self) = 0 \/
  torch.numel (PhiloxState.base_offset self) = 0 ->
  PhiloxState.validate_state self = Raise AssertionError.
Proof.
  unfold PhiloxState.validate_state. intros [H | H]; rewrite H; simpl.
  - reflexivity.
  - now rewrite andb_false_r.
Qed.

Lemma validate_state_inv self :
  PhiloxState.validate_state self = Ok tt ->
  torch.numel (PhiloxState.seed self) <> 0 /\
  torch.numel (PhiloxState.base_offset self) <> 0.
Proof.
  unfold PhiloxState.validate_state.
  destruct (torch.numel (PhiloxState.seed self) =? 0) eqn:Hs;
    destruct (torch.numel (PhiloxState.base_offset self) =? 0) eqn:Hb;
    simpl; try discriminate.
  intros _. split; now apply Z.eqb_neq.
Qed.

Lemma get_state_as_tuple_populated self :
  torch.numel (PhiloxState.seed self) <> 0 ->
  torch.numel (PhiloxState.base_offset self) <> 0 ->
  - 2 ^ 63 <= PhiloxState.relative_offset self < 2 ^ 63 ->
  PhiloxState.get_state_as_tuple self =
    Ok (PhiloxState.seed self,
        torch.wrapping_add (PhiloxState.base_offset self) (PhiloxState.relative_offset self)).
Proof.
  intros Hs Hb Hrel. unfold PhiloxState.get_state_as_tuple.
  rewrite validate_state_populated by assumption. cbn [rbind].
  now rewrite add_in_range by exact Hrel.
Qed.

Lemma get_state_as_tensor_populated self :
  torch.numel (PhiloxState.seed self) <> 0 ->
  torch.numel (PhiloxState.base_offset self) <> 0 ->
  - 2 ^ 63 <= PhiloxState.relative_offset self < 2 ^ 63 ->
  torch.shape (PhiloxState.seed self) = torch.shape (PhiloxState.base_offset self) ->
  PhiloxState.get_state_as_tensor self =
    Ok (Dim [PhiloxState.seed self;
             torch.wrapping_add (PhiloxState.base_offset self)
                                (PhiloxState.relative_offset self)]).
Proof.
  intros Hs Hb Hrel Hshape. unfold PhiloxState.get_state_as_tensor.
  rewrite validate_state_populated by assumption. cbn [rbind].
  rewrite add_in_range by exact Hrel. cbn [rbind].
  unfold torch.stack. simpl.
  rewrite shape_add, bool_decide_eq_true_2 by (now symmetry). reflexivity.
Qed.

(** The reads of a populated state whose relative offset does not fit
    int64 raise the error of the addition. *)
Lemma read_outside_int64 self :
  torch.numel (PhiloxState.seed self) <> 0 ->
  torch.numel (PhiloxState.base_offset self) <> 0 ->
  ~ - 2 ^ 63 <= PhiloxState.relative_offset self < 2 ^ 63 ->
  exists e,
    e <> AssertionError /\
    torch.add (PhiloxState.base_offset self) (PhiloxState.relative_offset self) = Raise e /\
    PhiloxState.get_state_as_tuple self = Raise e /\
    PhiloxState.get_state_as_tensor self = Raise e.
Proof.
  intros Hs Hb Hrel.
  destruct (add_out_of_range (PhiloxState.base_offset self) _ Hrel) as (e & He & Hne).
  exists e. unfold PhiloxState.get_state_as_tuple, PhiloxState.get_state_as_tensor.
  rewrite validate_state_populated by assumption. cbn [rbind]. rewrite He.
  repeat split; try reflexivity. exact Hne.
Qed.

(** C7, as amended. Reading the (seed, effective offset) pair through
    [get_state_as_tuple] or [get_state_as_tensor] raises the assertion
    error of [validate_state] whenever the seed or the base offset is
    empty, in particular on a freshly constructed or reset state. Once
    both are populated and the relative offset fits int64,
    [get_state_as_tuple] returns (seed, base_offset + relative_offset),
    [get_state_as_tensor] is the stack of that same pair, which is the
    pair packed in one tensor when the seed and the base offset have one
    shape. Once both are populated and the relative offset does not fit
    int64, both reads raise the error of the addition, which is not the
    assertion error. The tracker's reads are these reads on the running
    state. *)
Theorem read_requires_populated_state (self : PhiloxState.t) :
  (torch.numel (PhiloxState.seed self) = 0 \/
   torch.numel (PhiloxState.base_offset self) = 0 ->
   PhiloxState.get_state_as_tuple self = Raise UninitializedStateError /\
   PhiloxState.get_state_as_tensor self = Raise UninitializedStateError) /\
  (torch.numel (PhiloxState.seed self) <> 0 /\
   torch.numel (PhiloxState.base_offset self) <> 0 ->
   (- 2 ^ 63 <= PhiloxState.relative_offset self < 2 ^ 63 ->
    PhiloxState.get_state_as_tuple self =
      Ok (PhiloxState.seed self,
          torch.wrapping_add (PhiloxState.base_offset self)
                             (PhiloxState.relative_offset self)) /\
    PhiloxState.get_state_as_tensor self =
      torch.stack [PhiloxState.seed self;
                   torch.wrapping_add (PhiloxState.base_offset self)
                                      (PhiloxState.relative_offset self)] /\
    (torch.shape (PhiloxState.seed self) = torch.shape (PhiloxState.base_offset self) ->
     PhiloxState.get_state_as_tensor self =
       Ok (Dim [PhiloxState.seed self;
                torch.wrapping_add (PhiloxState.base_offset self)
                                   (PhiloxState.relative_offset self)]))) /\
   (~ - 2 ^ 63 <= PhiloxState.relative_offset self < 2 ^ 63 ->
    exists e,
      torch.add (PhiloxState.base_offset self) (PhiloxState.relative_offset self) =
        Raise e /\
      PhiloxState.get_state_as_tuple self = Raise e /\
      PhiloxState.get_state_as_tensor self = Raise e) /\
   PhiloxState.get_state_as_tuple self <> Raise UninitializedStateError /\
   PhiloxState.get_state_as_tensor self <> Raise UninitializedStateError) /\
  PhiloxState.get_state_as_tuple (PhiloxState.reset self) = Raise UninitializedStateError /\
  PhiloxState.get_state_as_tensor (PhiloxState.reset self) = Raise UninitializedStateError /\
  (forall cls,
     PhiloxStateTracker.get_state_as_tuple cls =
       (PhiloxState.get_state_as_tuple
          (PhiloxStateTracker.deref cls (PhiloxStateTracker.running_state cls)), cls) /\
     PhiloxStateTracker.get_state_as_tensor cls =
       (PhiloxState.get_state_as_tensor
          (PhiloxStateTracker.deref cls (PhiloxStateTracker.running_state cls)), cls)).
Proof.
  split; [| split; [| split; [| split]]].
  - intros Hempty. split.
    + unfold PhiloxState.get_state_as_tuple. now rewrite validate_state_empty.
    + unfold PhiloxState.get_state_as_tensor. now rewrite validate_state_empty.
  - intros [Hs Hb]. split; [| split].
    + intros Hrel. split; [now apply get_state_as_tuple_populated |]. split.
      * unfold PhiloxState.get_state_as_tensor.
        rewrite validate_state_populated by assumption. cbn [rbind].
        now rewrite add_in_range by exact Hrel.
      * intros Hshape. now apply get_state_as_tensor_populated.
    + intros Hrel. destruct (read_outside_int64 self Hs Hb Hrel) as (e & _ & H).
      now exists e.
    + destruct (Z_le_dec (- 2 ^ 63) (PhiloxState.relative_offset self)) as [Hl | Hl];
        [destruct (Z_lt_dec (PhiloxState.relative_offset self) (2 ^ 63)) as [Hu | Hu] |].
      * rewrite get_state_as_tuple_populated by (assumption || lia).
        split; [discriminate |].
        unfold PhiloxState.get_state_as_tensor.
        rewrite validate_state_populated by assumption. cbn [rbind].
        rewrite add_in_range by lia. cbn [rbind].
        unfold torch.stack. case (forallb _ _); discriminate.
      * destruct (read_outside_int64 self Hs Hb) as (e & Hne & _ & -> & ->); [lia |].
        unfold UninitializedStateError. split; congruence.
      * destruct (read_outside_int64 self Hs Hb) as (e & Hne & _ & -> & ->); [lia |].
        unfold UninitializedStateError. split; congruence.
  - reflexivity.
  - reflexivity.
  - intros cls. split; reflexivity.
Qed.

Lemma read_requires_populated_state_witness :
  let empty := PhiloxState.__init__ in
  let full := PhiloxState.set_state empty (torch.tensor 42) (torch.tensor 7) 5 in
  PhiloxState.get_state_as_tuple empty = Raise UninitializedStateError /\
  PhiloxState.get_state_as_tuple full = Ok (Scalar 42, Scalar 12) /\
  PhiloxState.get_state_as_tensor full = Ok (Dim [Scalar 42; Scalar 12]).
Proof.
  intros empty full.
  destruct (read_requires_populated_state empty) as [He _].
  destruct (read_requires_populated_state full) as (_ & Hf & _).
  destruct Hf as (Hin & _); [split; discriminate |].
  destruct Hin as (Htuple & _ & Htensor); [simpl; lia |].
  split; [| split].
  - apply He. left. reflexivity.
  - exact Htuple.
  - apply Htensor. reflexivity.
Defined.

(** A populated state with a relative offset of 2^64, which
    [advance_offset] reaches and [set_state] accepts: the read does not
    return the pair, it raises. *)
Lemma read_of_populated_state_outside_int64 :
  let full :=
    PhiloxState.set_state PhiloxState.__init__ (torch.tensor 42) (torch.tensor 7) (2 ^ 64) in
  torch.numel (PhiloxState.seed full) <> 0 /\
  torch.numel (PhiloxState.base_offset full) <> 0 /\
  (forall pair, PhiloxState.get_state_as_tuple full <> Ok pair) /\
  (forall state, PhiloxState.get_state_as_tensor full <> Ok state) /\
  PhiloxState.advance_offset
    (PhiloxState.set_state PhiloxState.__init__ (torch.tensor 42) (torch.tensor 7) 0)
    (2 ^ 64) = full.
Proof.
  repeat split; try discriminate; reflexivity.
Qed.

(** C4. Restoring a state from its own transport value succeeds and
    preserves the effective offset: the seed keeps its value, the base
    offset becomes the prior base offset plus the relative offset, the
    relative offset is 0, and the (seed, effective offset) pair read
    afterwards has the values of the pair read before. The fields
    themselves are not preserved: each comes back with one more leading
    dimension of size 1. *)
Theorem transport_round_trip (self : PhiloxState.t) (state : Tensor) :
  PhiloxState.get_state_as_tensor self = Ok state ->
  exists self',
    PhiloxState.set_state_from_tensor self state = Ok self' /\
    PhiloxState.seed self' = Dim [PhiloxState.seed self] /\
    torch.values (PhiloxState.seed self') = torch.values (PhiloxState.seed self) /\
    PhiloxState.base_offset self' =
      Dim [torch.wrapping_add (PhiloxState.base_offset self)
                              (PhiloxState.relative_offset self)] /\
    torch.values (PhiloxState.base_offset self') =
      torch.values (torch.wrapping_add (PhiloxState.base_offset self)
                                       (PhiloxState.relative_offset self)) /\
    PhiloxState.relative_offset self' = 0 /\
    exists seed0 offset0 seed1 offset1,
      PhiloxState.get_state_as_tuple self = Ok (seed0, offset0) /\
      PhiloxState.get_state_as_tuple self' = Ok (seed1, offset1) /\
      torch.values seed1 = torch.values seed0 /\
      torch.values offset1 = torch.values offset0.
Proof.
  unfold PhiloxState.get_state_as_tensor.
  destruct (PhiloxState.validate_state self) as [[] |] eqn:Hv; simpl; [| discriminate].
  destruct (validate_state_inv _ Hv) as [Hs Hb].
  destruct (torch.add (PhiloxState.base_offset self) (PhiloxState.relative_offset self))
    as [offset | e] eqn:Hadd; simpl; [| discriminate].
  apply add_inv in Hadd as [Hrel ->].
  unfold torch.stack. simpl.
  destruct (bool_decide _); simpl; [| discriminate].
  intros [= <-].
  eexists. split; [reflexivity |]. simpl.
  repeat split; try (now rewrite app_nil_r).
  exists (PhiloxState.seed self),
    (torch.wrapping_add (PhiloxState.base_offset self) (PhiloxState.relative_offset self)),
    (Dim [PhiloxState.seed self]),
    (torch.wrapping_add
       (Dim [torch.wrapping_add (PhiloxState.base_offset self)
                                (PhiloxState.relative_offset self)]) 0).
  rewrite get_state_as_tuple_populated by assumption.
  rewrite get_state_as_tuple_populated; simpl.
  - rewrite add_zero_after_add, !app_nil_r. auto.
  - lia.
  - rewrite numel_add. lia.
  - lia.
Qed.

Lemma transport_round_trip_witness :
  let self := {| PhiloxState.seed := Scalar 42;
                 PhiloxState.base_offset := Scalar 7;
                 PhiloxState.relative_offset := 5 |} in
  PhiloxState.get_state_as_tensor self = Ok (Dim [Scalar 42; Scalar 12]) /\
  exists self',
    PhiloxState.set_state_from_tensor self (Dim [Scalar 42; Scalar 12]) = Ok self' /\
    torch.values (PhiloxState.base_offset self') = [12] /\
    PhiloxState.relative_offset self' = 0.
Proof.
  intros self.
  assert (H : PhiloxState.get_state_as_tensor self = Ok (Dim [Scalar 42; Scalar 12]))
    by reflexivity.
  split; [exact H |].
  destruct (transport_round_trip self _ H) as (self' & Hset & _ & _ & _ & Hbase & Hrel & _).
  exists self'. split; [exact Hset |]. split; [exact Hbase | exact Hrel].
Defined.

(** ** The tracker's store *)

Module Import TrackerFacts.
Import PhiloxStateTracker.

Lemma deref_mutate_same a f cls :
  (a < length (store cls))%nat -> deref (mutate a f cls) a = f (deref cls a).
Proof.
  intros Ha. unfold deref, mutate. simpl.
  now rewrite list_lookup_insert_eq.
Qed.

Lemma deref_mutate_other a b f cls :
  a <> b -> deref (mutate a f cls) b = deref cls b.
Proof.
  intros Hab. unfold deref, mutate. simpl.
  now rewrite list_lookup_insert_ne.
Qed.

Lemma lookup_mutate_other a b f cls :
  a <> b -> store (mutate a f cls) !! b = store cls !! b.
Proof. intros Hab. unfold mutate. simpl. now rewrite list_lookup_insert_ne. Qed.

Lemma length_store_mutate a f cls :
  length (store (mutate a f cls)) = length (store cls).
Proof. unfold mutate. simpl. apply length_insert. Qed.

Lemma well_formed_mutate a f cls : well_formed cls -> well_formed (mutate a f cls).
Proof.
  unfold well_formed. rewrite length_store_mutate. simpl. tauto.
Qed.

Lemma well_formed_initial : well_formed initial.
Proof. unfold well_formed, initial. simpl. lia. Qed.

Lemma well_formed_perform c cls : well_formed cls -> well_formed (snd (perform c cls)).
Proof.
  intros Hwf. destruct c; simpl.
  - unfold well_formed in *. simpl. tauto.
  - unfold well_formed in *. simpl. tauto.
  - unfold well_formed in *. simpl. rewrite length_app. simpl. lia.
  - unfold well_formed in *. simpl. rewrite length_app. simpl. lia.
  - unfold record_state.
    repeat case_bool_decide; simpl; auto using well_formed_mutate.
  - unfold set_state_from_tensor.
    destruct (PhiloxState.set_state_from_tensor _ _); simpl;
      auto using well_formed_mutate.
  - now apply well_formed_mutate.
Qed.

Lemma well_formed_after cs cls : well_formed cls -> well_formed (after cs cls).
Proof.
  revert cls. induction cs as [| c cs IH]; intros cls Hwf; simpl.
  - exact Hwf.
  - apply IH, well_formed_perform, Hwf.
Qed.

Lemma reachable_well_formed cls : reachable cls -> well_formed cls.
Proof. intros [cs ->]. apply well_formed_after, well_formed_initial. Qed.

Lemma reachable_initial : reachable initial.
Proof. now exists []. Qed.

Lemma after_app cs1 cs2 cls : after (cs1 ++ cs2) cls = after cs2 (after cs1 cls).
Proof. unfold after. apply fold_left_app. Qed.

Lemma reachable_after cs cls : reachable cls -> reachable (after cs cls).
Proof. intros [cs0 ->]. exists (cs0 ++ cs). now rewrite after_app. Qed.

End TrackerFacts.

(** C8. On a reachable class state, whichever object is running,
    [record_state] with mode "forward" sets the forward object to
    (seed, offset) with relative offset 0 and leaves the backward object as
    it was, with mode "backward" it does the same to the backward object
    and leaves the forward one, and neither moves a reference; with any
    other mode it raises the assertion error and changes nothing. *)
Theorem record_state_sets_named_phase
    (cls : PhiloxStateTracker.t) (seed offset : Tensor) :
  reachable cls ->
  (exists cls',
     PhiloxStateTracker.record_state seed offset "forward" cls = (Ok tt, cls') /\
     PhiloxStateTracker.deref cls' (PhiloxStateTracker.fwd_state cls') =
       {| PhiloxState.seed := seed;
          PhiloxState.base_offset := offset;
          PhiloxState.relative_offset := 0 |} /\
     PhiloxStateTracker.deref cls' (PhiloxStateTracker.bwd_state cls') =
       PhiloxStateTracker.deref cls (PhiloxStateTracker.bwd_state cls) /\
     PhiloxStateTracker.running_state cls' = PhiloxStateTracker.running_state cls /\
     PhiloxStateTracker.fwd_state cls' = PhiloxStateTracker.fwd_state cls /\
     PhiloxStateTracker.bwd_state cls' = PhiloxStateTracker.bwd_state cls) /\
  (exists cls',
     PhiloxStateTracker.record_state seed offset "backward" cls = (Ok tt, cls') /\
     PhiloxStateTracker.deref cls' (PhiloxStateTracker.bwd_state cls') =
       {| PhiloxState.seed := seed;
          PhiloxState.base_offset := offset;
          PhiloxState.relative_offset := 0 |} /\
     PhiloxStateTracker.deref cls' (PhiloxStateTracker.fwd_state cls') =
       PhiloxStateTracker.deref cls (PhiloxStateTracker.fwd_state cls) /\
     PhiloxStateTracker.running_state cls' = PhiloxStateTracker.running_state cls /\
     PhiloxStateTracker.fwd_state cls' = PhiloxStateTracker.fwd_state cls /\
     PhiloxStateTracker.bwd_state cls' = PhiloxStateTracker.bwd_state cls) /\
  (forall mode : string,
     mode <> "forward" -> mode <> "backward" ->
     PhiloxStateTracker.record_state seed offset mode cls = (Raise InvalidPhaseError, cls)).
Proof.
  intros Hr. destruct (reachable_well_formed _ Hr) as (_ & Hf & Hb & Hfb).
  split; [| split].
  - eexists. split; [reflexivity |]. simpl.
    rewrite deref_mutate_same by exact Hf.
    rewrite deref_mutate_other by exact Hfb. auto.
  - eexists. split; [reflexivity |]. simpl.
    rewrite deref_mutate_same by exact Hb.
    rewrite deref_mutate_other by (intros E; apply Hfb; now symmetry). auto.
  - intros mode Hnf Hnb. unfold PhiloxStateTracker.record_state.
    rewrite !bool_decide_eq_false_2 by assumption. reflexivity.
Qed.

Lemma record_state_sets_named_phase_witness :
  let cls := after [Clear; MarkBeginningOfBackward] PhiloxStateTracker.initial in
  (exists cls',
     PhiloxStateTracker.record_state (Scalar 42) (Scalar 7) "forward" cls = (Ok tt, cls') /\
     PhiloxStateTracker.deref cls' (PhiloxStateTracker.fwd_state cls') =
       {| PhiloxState.seed := Scalar 42;
          PhiloxState.base_offset := Scalar 7;
          PhiloxState.relative_offset := 0 |}) /\
  PhiloxStateTracker.record_state (Scalar 42) (Scalar 7) "fwd" cls =
    (Raise InvalidPhaseError, cls).
Proof.
  intros cls.
  assert (Hr : reachable cls) by (apply reachable_after, reachable_initial).
  destruct (record_state_sets_named_phase cls (Scalar 42) (Scalar 7) Hr)
    as ((cls' & Hrec & Hfwd & _) & _ & Hbad).
  split.
  - exists cls'. split; [exact Hrec | exact Hfwd].
  - apply Hbad; discriminate.
Defined.

(** ** Phase isolation *)

Lemma running_phase_forward cls :
  PhiloxStateTracker.running_state cls = PhiloxStateTracker.fwd_state cls ->
  running_phase cls = Some Forward.
Proof. intros H. unfold running_phase. now rewrite decide_True. Qed.

Lemma running_phase_backward cls :
  well_formed cls ->
  PhiloxStateTracker.running_state cls = PhiloxStateTracker.bwd_state cls ->
  running_phase cls = Some Backward.
Proof.
  intros (_ & _ & _ & Hfb) H. unfold running_phase.
  rewrite decide_False by congruence. now rewrite decide_True.
Qed.

Lemma interleaving_offsets (ps : list phase_call) :
  forall cls, well_formed cls ->
  let cls' := after (map call_of ps) cls in
  let fwd := PhiloxStateTracker.deref cls (PhiloxStateTracker.fwd_state cls) in
  let bwd := PhiloxStateTracker.deref cls (PhiloxStateTracker.bwd_state cls) in
  let fwd' := PhiloxStateTracker.deref cls' (PhiloxStateTracker.fwd_state cls') in
  let bwd' := PhiloxStateTracker.deref cls' (PhiloxStateTracker.bwd_state cls') in
  PhiloxStateTracker.fwd_state cls' = PhiloxStateTracker.fwd_state cls /\
  PhiloxStateTracker.bwd_state cls' = PhiloxStateTracker.bwd_state cls /\
  PhiloxState.seed fwd' = PhiloxState.seed fwd /\
  PhiloxState.base_offset fwd' = PhiloxState.base_offset fwd /\
  PhiloxState.relative_offset fwd' =
    PhiloxState.relative_offset fwd + fst (consumed_per_phase (running_phase cls) ps) /\
  PhiloxState.seed bwd' = PhiloxState.seed bwd /\
  PhiloxState.base_offset bwd' = PhiloxState.base_offset bwd /\
  PhiloxState.relative_offset bwd' =
    PhiloxState.relative_offset bwd + snd (consumed_per_phase (running_phase cls) ps).
Proof.
  induction ps as [| p ps IH]; intros cls Hwf.
  - simpl. repeat split; lia.
  - pose proof (well_formed_perform (call_of p) cls Hwf) as Hwf1.
    specialize (IH _ Hwf1). cbv zeta in IH |- *.
    change (after (map call_of (p :: ps)) cls)
      with (after (map call_of ps) (snd (perform (call_of p) cls))).
    destruct IH as (Ef & Eb & Fs & Fb & Fr & Bs & Bb & Br).
    rewrite Ef, Eb in *. clear Ef Eb.
    rewrite Fs, Fb, Fr, Bs, Bb, Br. clear Fs Fb Fr Bs Bb Br.
    destruct Hwf as (Hrun & Hf & Hb & Hfb).
    destruct p as [ | | n].
    + rewrite (running_phase_forward (snd (perform (call_of BeginForward) cls)))
        by reflexivity.
      simpl. repeat split; reflexivity.
    + rewrite (running_phase_backward (snd (perform (call_of BeginBackward) cls)))
        by (exact Hwf1 || reflexivity).
      simpl. repeat split; reflexivity.
    + simpl perform. unfold PhiloxStateTracker.advance_offset. simpl snd.
      change (running_phase (PhiloxStateTracker.mutate _ _ cls)) with (running_phase cls).
      change (PhiloxStateTracker.fwd_state (PhiloxStateTracker.mutate _ _ cls))
        with (PhiloxStateTracker.fwd_state cls).
      change (PhiloxStateTracker.bwd_state (PhiloxStateTracker.mutate _ _ cls))
        with (PhiloxStateTracker.bwd_state cls).
      simpl consumed_per_phase.
      destruct (consumed_per_phase (running_phase cls) ps) as [f b] eqn:Ec.
      unfold running_phase in *.
      destruct (decide (PhiloxStateTracker.running_state cls = PhiloxStateTracker.fwd_state cls))
        as [E1 | N1].
      * rewrite E1. rewrite deref_mutate_same by exact Hf.
        rewrite deref_mutate_other by exact Hfb.
        simpl. repeat split; lia.
      * destruct (decide (PhiloxStateTracker.running_state cls = PhiloxStateTracker.bwd_state cls))
          as [E2 | N2].
        -- rewrite E2. rewrite deref_mutate_same by exact Hb.
           rewrite deref_mutate_other by congruence.
           simpl. repeat split; lia.
        -- rewrite !deref_mutate_other by assumption.
           simpl. repeat split; lia.
Qed.

(** C2. On a reachable class state and for every sequence of
    [mark_beginning_of_forward], [mark_beginning_of_backward] and
    [advance_offset] calls, the forward object's relative offset grows by
    exactly the offsets advanced while the forward object was running and
    the backward object's by those advanced while the backward object was
    running; their seeds and base offsets stay. In particular an advance
    while forward is running leaves the backward object as it was, and the
    other way round; an advance changes no object but the running one; and
    repointing the running reference changes no object at all. *)
Theorem phase_isolation (cls : PhiloxStateTracker.t) (ps : list phase_call) (n : Z) :
  reachable cls ->
  let fwd_of c := PhiloxStateTracker.deref c (PhiloxStateTracker.fwd_state c) in
  let bwd_of c := PhiloxStateTracker.deref c (PhiloxStateTracker.bwd_state c) in
  let advanced := snd (PhiloxStateTracker.advance_offset n cls) in
  (let cls' := after (map call_of ps) cls in
   PhiloxState.seed (fwd_of cls') = PhiloxState.seed (fwd_of cls) /\
   PhiloxState.base_offset (fwd_of cls') = PhiloxState.base_offset (fwd_of cls) /\
   PhiloxState.relative_offset (fwd_of cls') =
     PhiloxState.relative_offset (fwd_of cls) +
     fst (consumed_per_phase (running_phase cls) ps) /\
   PhiloxState.seed (bwd_of cls') = PhiloxState.seed (bwd_of cls) /\
   PhiloxState.base_offset (bwd_of cls') = PhiloxState.base_offset (bwd_of cls) /\
   PhiloxState.relative_offset (bwd_of cls') =
     PhiloxState.relative_offset (bwd_of cls) +
     snd (consumed_per_phase (running_phase cls) ps)) /\
  (PhiloxStateTracker.running_state cls = PhiloxStateTracker.fwd_state cls ->
   bwd_of advanced = bwd_of cls /\
   fwd_of advanced = PhiloxState.advance_offset (fwd_of cls) n) /\
  (PhiloxStateTracker.running_state cls = PhiloxStateTracker.bwd_state cls ->
   fwd_of advanced = fwd_of cls /\
   bwd_of advanced = PhiloxState.advance_offset (bwd_of cls) n) /\
  (forall a : nat,
     a <> PhiloxStateTracker.running_state cls ->
     PhiloxStateTracker.store advanced !! a = PhiloxStateTracker.store cls !! a) /\
  PhiloxStateTracker.store (snd (PhiloxStateTracker.mark_beginning_of_forward cls)) =
    PhiloxStateTracker.store cls /\
  PhiloxStateTracker.store (snd (PhiloxStateTracker.mark_beginning_of_backward cls)) =
    PhiloxStateTracker.store cls.
Proof.
  intros Hr fwd_of bwd_of advanced.
  pose proof (reachable_well_formed _ Hr) as Hwf.
  split; [| split; [| split; [| split; [| split]]]].
  - pose proof (interleaving_offsets ps cls Hwf) as H. cbv zeta in H.
    subst fwd_of bwd_of. cbv beta zeta. tauto.
  - destruct Hwf as (_ & Hf & Hb & Hfb). intros E.
    subst fwd_of bwd_of advanced. cbv beta.
    unfold PhiloxStateTracker.advance_offset. simpl. rewrite E.
    rewrite deref_mutate_other by exact Hfb.
    rewrite deref_mutate_same by exact Hf. auto.
  - destruct Hwf as (_ & Hf & Hb & Hfb). intros E.
    subst fwd_of bwd_of advanced. cbv beta.
    unfold PhiloxStateTracker.advance_offset. simpl. rewrite E.
    rewrite deref_mutate_other by congruence.
    rewrite deref_mutate_same by exact Hb. auto.
  - intros a Ha. subst advanced.
    unfold PhiloxStateTracker.advance_offset. simpl.
    apply list_lookup_insert_ne. congruence.
  - reflexivity.
  - reflexivity.
Qed.

Lemma phase_isolation_witness :
  let cls := after [Clear; MarkBeginningOfForward] PhiloxStateTracker.initial in
  let ps := [Advance 4; BeginBackward; Advance 8; BeginForward; Advance 12] in
  let cls' := after (map call_of ps) cls in
  PhiloxState.relative_offset
    (PhiloxStateTracker.deref cls' (PhiloxStateTracker.fwd_state cls')) = 16 /\
  PhiloxState.relative_offset
    (PhiloxStateTracker.deref cls' (PhiloxStateTracker.bwd_state cls')) = 8.
Proof.
  intros cls ps cls'.
  assert (Hr : reachable cls) by (exists [Clear; MarkBeginningOfForward]; reflexivity).
  destruct (phase_isolation cls ps 0 Hr) as ((_ & _ & Hf & _ & _ & Hb) & _).
  split; [exact Hf | exact Hb].
Defined.

(** ** The guard *)

Lemma guard_unfold {Args A : Type} (fn : Args -> PhiloxStateTracker.M A) args cls :
  throw_if_philox_offset_did_not_advance fn args cls =
  match fn args cls with
  | (Ok out, cls1) =>
      if current_relative_offset cls =? current_relative_offset cls1
      then (Raise OffsetStagnationError, cls1)
      else (Ok out, cls1)
  | (Raise e, cls1) => (Raise e, cls1)
  end.
Proof.
  unfold throw_if_philox_offset_did_not_advance, bind,
    PhiloxStateTracker.get_current_relative_offset, current_relative_offset.
  destruct (fn args cls) as [[out | e] cls1]; [| reflexivity].
  now destruct (_ =? _).
Qed.

Lemma guard_propagates {Args A : Type} (fn : Args -> PhiloxStateTracker.M A) args cls e cls1 :
  fn args cls = (Raise e, cls1) ->
  throw_if_philox_offset_did_not_advance fn args cls = (Raise e, cls1).
Proof. intros H. now rewrite guard_unfold, H. Qed.

(** C3. When the wrapped implementation returns, the wrapper raises the
    stagnation error exactly when the running relative offset read before
    the call equals the one read after it, and when the two differ it
    returns the implementation's result unchanged; the class state is the
    one the implementation left in both cases. *)
Theorem guard_raises_iff_offset_unchanged {Args A : Type}
    (fn : Args -> PhiloxStateTracker.M A) (args : Args)
    (cls cls1 : PhiloxStateTracker.t) (out : A) :
  fn args cls = (Ok out, cls1) ->
  (throw_if_philox_offset_did_not_advance fn args cls = (Raise OffsetStagnationError, cls1)
   <-> fst (PhiloxStateTracker.get_current_relative_offset cls) =
       fst (PhiloxStateTracker.get_current_relative_offset cls1)) /\
  (fst (PhiloxStateTracker.get_current_relative_offset cls) <>
   fst (PhiloxStateTracker.get_current_relative_offset cls1) ->
   throw_if_philox_offset_did_not_advance fn args cls = (Ok out, cls1)).
Proof.
  intros Hfn. rewrite guard_unfold, Hfn.
  unfold PhiloxStateTracker.get_current_relative_offset. simpl.
  fold (current_relative_offset cls) (current_relative_offset cls1).
  destruct (Z.eqb_spec (current_relative_offset cls) (current_relative_offset cls1))
    as [E | N].
  - split; [split; congruence | congruence].
  - split; [split; [discriminate | congruence] | reflexivity].
Qed.

Lemma guard_raises_iff_offset_unchanged_witness :
  let forgetful (_ : unit) : PhiloxStateTracker.M Z := ret 1 in
  let diligent (_ : unit) : PhiloxStateTracker.M Z :=
    PhiloxStateTracker.advance_offset 4;; ret 1 in
  let cls := PhiloxStateTracker.initial in
  throw_if_philox_offset_did_not_advance forgetful tt cls =
    (Raise OffsetStagnationError, cls) /\
  throw_if_philox_offset_did_not_advance diligent tt cls =
    (Ok 1, snd (PhiloxStateTracker.advance_offset 4 cls)).
Proof.
  intros forgetful diligent cls. split.
  - apply (guard_raises_iff_offset_unchanged forgetful tt cls cls 1 eq_refl).
    reflexivity.
  - apply (guard_raises_iff_offset_unchanged diligent tt cls _ 1 eq_refl).
    vm_compute. discriminate.
Defined.

(** ** Devices *)

Lemma rand_fn_rejects_device hw a d cls :
  rand_device a = Some (DeviceObj d) ->
  type d <> "cuda" ->
  rand_fn hw a cls = (Raise (UnsupportedDeviceError (type d)), cls).
Proof.
  intros Hd Hty. unfold rand_fn. rewrite Hd. simpl.
  unfold bind, lift at 1. simpl.
  apply String.eqb_neq in Hty. rewrite Hty. reflexivity.
Qed.

Lemma rand_fn_default_device hw a cls :
  rand_device a = None ->
  rand_fn hw a cls =
    (Raise (AttributeError "'str' object has no attribute 'type'"), cls).
Proof. intros Hd. unfold rand_fn. rewrite Hd. reflexivity. Qed.

(** C6. [rand] called with a device object whose type is not "cuda", a cpu
    device for one, raises the runtime error of [throw_on_non_cuda], whose
    message has the device type in it, and leaves the class state as it
    was, so the running relative offset is the same before and after; the
    undecorated function behaves in the same way. *)
Theorem rand_rejects_non_cuda_device
    (hw : device_properties) (a : rand_args) (d : device) (cls : PhiloxStateTracker.t) :
  rand_device a = Some (DeviceObj d) ->
  type d <> "cuda" ->
  rand hw a cls = (Raise (UnsupportedDeviceError (type d)), cls) /\
  rand_fn hw a cls = (Raise (UnsupportedDeviceError (type d)), cls) /\
  (exists before after_ : string,
     UnsupportedDeviceError (type d) = RuntimeError (before +:+ type d +:+ after_)) /\
  fst (PhiloxStateTracker.get_current_relative_offset (snd (rand hw a cls))) =
    fst (PhiloxStateTracker.get_current_relative_offset cls).
Proof.
  intros Hd Hty.
  pose proof (rand_fn_rejects_device hw a d cls Hd Hty) as Hfn.
  assert (Hrand : rand hw a cls = (Raise (UnsupportedDeviceError (type d)), cls)).
  { unfold rand, register_rng_decomposition. now apply guard_propagates. }
  split; [exact Hrand |]. split; [exact Hfn |]. split.
  - eexists _, _. unfold UnsupportedDeviceError, non_cuda_message. reflexivity.
  - now rewrite Hrand.
Qed.

Lemma rand_rejects_non_cuda_device_witness :
  let cpu := {| type := "cpu"; index := None |} in
  let a := {| rand_shape := [4; 4]; rand_dtype := None; rand_layout := strided;
              rand_device := Some (DeviceObj cpu); rand_pin_memory := false |} in
  let cls := after [Clear; MarkBeginningOfForward; RecordState (Scalar 42) (Scalar 7) "forward"]
               PhiloxStateTracker.initial in
  rand a100 a cls = (Raise (UnsupportedDeviceError "cpu"), cls).
Proof.
  intros cpu a cls.
  apply (rand_rejects_non_cuda_device a100 a cpu cls eq_refl).
  discriminate.
Defined.

(** C10. [rand] called without a device raises the attribute error of
    [device.type] on the string "cpu", whatever the class state is and
    without changing it: the outcome does not depend on the tracker, and
    it is not the unsupported-device error for any device kind. The
    undecorated function behaves in the same way. *)
Theorem rand_without_device_raises_attribute_error
    (hw : device_properties) (a : rand_args) (cls : PhiloxStateTracker.t) :
  rand_device a = None ->
  rand hw a cls = (Raise (AttributeError "'str' object has no attribute 'type'"), cls) /\
  rand_fn hw a cls = (Raise (AttributeError "'str' object has no attribute 'type'"), cls) /\
  (forall kind : string, fst (rand hw a cls) <> Raise (UnsupportedDeviceError kind)) /\
  (forall cls' : PhiloxStateTracker.t, fst (rand hw a cls') = fst (rand hw a cls)).
Proof.
  intros Hd.
  assert (Hrand : forall c,
    rand hw a c = (Raise (AttributeError "'str' object has no attribute 'type'"), c)).
  { intros c. unfold rand, register_rng_decomposition.
    apply guard_propagates. now apply rand_fn_default_device. }
  split; [apply Hrand |]. split; [now apply rand_fn_default_device |]. split.
  - intros kind. rewrite Hrand. simpl. discriminate.
  - intros cls'. now rewrite !Hrand.
Qed.

Lemma rand_without_device_raises_attribute_error_witness :
  let a := {| rand_shape := [4; 4]; rand_dtype := None; rand_layout := strided;
              rand_device := None; rand_pin_memory := false |} in
  rand a100 a PhiloxStateTracker.initial =
    (Raise (AttributeError "'str' object has no attribute 'type'"),
     PhiloxStateTracker.initial).
Proof.
  intros a.
  apply (rand_without_device_raises_attribute_error a100 a PhiloxStateTracker.initial eq_refl).
Defined.

(** ** Draws advance the running state by the computed offset *)

Lemma bind_ok {S A B : Type} (m : ST S A) (k : A -> ST S B) s a s' :
  m s = (Ok a, s') -> bind m k s = k a s'.
Proof. intros H. unfold bind. now rewrite H. Qed.

Lemma bind_inv {S A B : Type} (m : ST S A) (k : A -> ST S B) s b s2 :
  bind m k s = (Ok b, s2) ->
  exists a s1, m s = (Ok a, s1) /\ k a s1 = (Ok b, s2).
Proof.
  unfold bind. destruct (m s) as [[a | e] s1]; [| discriminate].
  intros H. now exists a, s1.
Qed.

Lemma current_after_advance_in_range cls k :
  (PhiloxStateTracker.running_state cls < length (PhiloxStateTracker.store cls))%nat ->
  current_relative_offset (snd (PhiloxStateTracker.advance_offset k cls)) =
    current_relative_offset cls + k.
Proof.
  intros Hin. unfold current_relative_offset, PhiloxStateTracker.advance_offset. simpl.
  now rewrite deref_mutate_same.
Qed.

Lemma current_after_advance_dangling cls k :
  (length (PhiloxStateTracker.store cls) <= PhiloxStateTracker.running_state cls)%nat ->
  current_relative_offset (snd (PhiloxStateTracker.advance_offset k cls)) =
    current_relative_offset cls.
Proof.
  intros Hout.
  unfold current_relative_offset, PhiloxStateTracker.advance_offset,
    PhiloxStateTracker.mutate, PhiloxStateTracker.deref. simpl.
  now rewrite list_insert_ge.
Qed.

(** The body shared by [rand_fn] and [rand_like_fn] once the device is
    known to be a cuda device object. *)
Lemma rand_fn_ok hw a d k cls :
  rand_device a = Some (DeviceObj d) ->
  type d = "cuda" ->
  PhiloxState.validate_state
    (PhiloxStateTracker.deref cls (PhiloxStateTracker.running_state cls)) = Ok tt ->
  - 2 ^ 63 <= current_relative_offset cls < 2 ^ 63 ->
  rand_offset_calculator hw (rand_shape a) = Ok k ->
  let self := PhiloxStateTracker.deref cls (PhiloxStateTracker.running_state cls) in
  rand_fn hw a cls =
    (Ok (philox_rand (rand_shape a) (PhiloxState.seed self)
           (torch.wrapping_add (PhiloxState.base_offset self)
                               (PhiloxState.relative_offset self))
           (make_contiguous_strides_for (rand_shape a)) (DeviceObj d)
           (default float32 (rand_dtype a))),
     snd (PhiloxStateTracker.advance_offset k cls)).
Proof.
  intros Hd Hty Hv Hrel Hk self. unfold rand_fn. rewrite Hd. simpl device_or.
  unfold bind, lift, PhiloxStateTracker.get_state_as_tuple,
    PhiloxState.get_state_as_tuple. simpl.
  rewrite Hty. simpl. rewrite Hv. simpl.
  rewrite add_in_range by exact Hrel. simpl. rewrite Hk. reflexivity.
Qed.

(** A draw on a running state that was never populated is an error, and
    nothing is drawn or advanced. *)
Lemma rand_requires_populated_state hw a d cls :
  rand_device a = Some (DeviceObj d) ->
  type d = "cuda" ->
  (let self := PhiloxStateTracker.deref cls (PhiloxStateTracker.running_state cls) in
   torch.numel (PhiloxState.seed self) = 0 \/
   torch.numel (PhiloxState.base_offset self) = 0) ->
  rand hw a cls = (Raise UninitializedStateError, cls).
Proof.
  intros Hd Hty Hempty. unfold rand, register_rng_decomposition.
  apply guard_propagates.
  unfold rand_fn. rewrite Hd. simpl device_or.
  unfold bind, lift, PhiloxStateTracker.get_state_as_tuple,
    PhiloxState.get_state_as_tuple. simpl.
  rewrite Hty. simpl. rewrite validate_state_empty by exact Hempty. reflexivity.
Qed.

Lemma rand_like_fn_ok hw a k cls :
  like_device a = None ->
  type (x_device (like_x a)) = "cuda" ->
  PhiloxState.validate_state
    (PhiloxStateTracker.deref cls (PhiloxStateTracker.running_state cls)) = Ok tt ->
  - 2 ^ 63 <= current_relative_offset cls < 2 ^ 63 ->
  rand_offset_calculator hw (x_shape (like_x a)) = Ok k ->
  let self := PhiloxStateTracker.deref cls (PhiloxStateTracker.running_state cls) in
  rand_like_fn hw a cls =
    (Ok (philox_rand (x_shape (like_x a)) (PhiloxState.seed self)
           (torch.wrapping_add (PhiloxState.base_offset self)
                               (PhiloxState.relative_offset self))
           (x_stride (like_x a)) (DeviceObj (x_device (like_x a)))
           (default (x_dtype (like_x a)) (like_dtype a))),
     snd (PhiloxStateTracker.advance_offset k cls)).
Proof.
  intros Hd Hty Hv Hrel Hk self. unfold rand_like_fn. rewrite Hd. simpl device_or.
  unfold bind, lift, PhiloxStateTracker.get_state_as_tuple,
    PhiloxState.get_state_as_tuple. simpl.
  rewrite Hty. simpl. rewrite Hv. simpl.
  rewrite add_in_range by exact Hrel. simpl. rewrite Hk. reflexivity.
Qed.

Lemma guard_passes {Args A : Type} (fn : Args -> PhiloxStateTracker.M A) args cls out k :
  fn args cls = (Ok out, snd (PhiloxStateTracker.advance_offset k cls)) ->
  (PhiloxStateTracker.running_state cls < length (PhiloxStateTracker.store cls))%nat ->
  k <> 0 ->
  throw_if_philox_offset_did_not_advance fn args cls =
    (Ok out, snd (PhiloxStateTracker.advance_offset k cls)).
Proof.
  intros Hfn Hin Hk. rewrite guard_unfold, Hfn.
  rewrite current_after_advance_in_range by exact Hin.
  destruct (Z.eqb_spec (current_relative_offset cls) (current_relative_offset cls + k));
    [lia | reflexivity].
Qed.

Lemma rand_fn_inv hw a cls r cls1 :
  rand_fn hw a cls = (Ok r, cls1) ->
  exists k, rand_offset_calculator hw (rand_shape a) = Ok k /\
            cls1 = snd (PhiloxStateTracker.advance_offset k cls).
Proof.
  unfold rand_fn. intros H.
  apply bind_inv in H as (kind & c1 & H1 & H).
  unfold lift in H1. injection H1 as H1 <-.
  apply bind_inv in H as ([] & c2 & H2 & H).
  assert (c2 = cls) as ->.
  { destruct (negb _); [| now injection H2].
    unfold throw_on_non_cuda, bind, lift in H2.
    destruct (device_type _); simpl in H2; discriminate. }
  apply bind_inv in H as ([seed offset] & c3 & H3 & H).
  unfold PhiloxStateTracker.get_state_as_tuple in H3. injection H3 as H3 <-.
  apply bind_inv in H as (k & c4 & H4 & H).
  unfold lift in H4. injection H4 as H4 <-.
  apply bind_inv in H as ([] & c5 & H5 & H).
  unfold ret in H. injection H as _ <-.
  exists k. split; [exact H4 |].
  unfold PhiloxStateTracker.advance_offset in *. now injection H5.
Qed.

Lemma rand_like_fn_inv hw a cls r cls1 :
  rand_like_fn hw a cls = (Ok r, cls1) ->
  exists k, rand_offset_calculator hw (x_shape (like_x a)) = Ok k /\
            cls1 = snd (PhiloxStateTracker.advance_offset k cls).
Proof.
  unfold rand_like_fn. intros H.
  apply bind_inv in H as (kind & c1 & H1 & H).
  unfold lift in H1. injection H1 as H1 <-.
  apply bind_inv in H as ([] & c2 & H2 & H).
  assert (c2 = cls) as ->.
  { destruct (negb _); [| now injection H2].
    unfold throw_on_non_cuda, bind, lift in H2.
    destruct (device_type _); simpl in H2; discriminate. }
  apply bind_inv in H as ([seed offset] & c3 & H3 & H).
  unfold PhiloxStateTracker.get_state_as_tuple in H3. injection H3 as H3 <-.
  apply bind_inv in H as (k & c4 & H4 & H).
  unfold lift in H4. injection H4 as H4 <-.
  apply bind_inv in H as ([] & c5 & H5 & H).
  unfold ret in H. injection H as _ <-.
  exists k. split; [exact H4 |].
  unfold PhiloxStateTracker.advance_offset in *. now injection H5.
Qed.

Lemma guard_inv {Args A : Type} (fn : Args -> PhiloxStateTracker.M A) args cls out cls1 :
  throw_if_philox_offset_did_not_advance fn args cls = (Ok out, cls1) ->
  fn args cls = (Ok out, cls1) /\
  current_relative_offset cls <> current_relative_offset cls1.
Proof.
  rewrite guard_unfold. destruct (fn args cls) as [[o | e] c]; [| discriminate].
  destruct (Z.eqb_spec (current_relative_offset cls) (current_relative_offset c));
    [discriminate |].
  intros [= -> ->]. auto.
Qed.

(** A draw that returns has advanced the running object by the offset
    computed for its shape, and by nothing else. *)
Lemma perform_draw_inv hw d cls r cls1 :
  perform_draw hw d cls = (Ok r, cls1) ->
  rand_offset_calculator hw (draw_shape d) = Ok (computed_offset hw d) /\
  computed_offset hw d <> 0 /\
  cls1 = snd (PhiloxStateTracker.advance_offset (computed_offset hw d) cls) /\
  current_relative_offset cls1 = current_relative_offset cls + computed_offset hw d.
Proof.
  intros H.
  assert (exists k, rand_offset_calculator hw (draw_shape d) = Ok k /\
                    cls1 = snd (PhiloxStateTracker.advance_offset k cls) /\
                    current_relative_offset cls <> current_relative_offset cls1)
    as (k & Hk & -> & Hne).
  { destruct d as [a | a]; simpl in H;
      unfold rand, rand_like, register_rng_decomposition in H;
      apply guard_inv in H as [H Hne].
    - apply rand_fn_inv in H as (k & Hk & ->). eauto.
    - apply rand_like_fn_inv in H as (k & Hk & ->). eauto. }
  unfold computed_offset. rewrite Hk.
  destruct (lt_dec (PhiloxStateTracker.running_state cls)
                   (length (PhiloxStateTracker.store cls))) as [Hin | Hout].
  - rewrite current_after_advance_in_range in * by exact Hin.
    repeat split; try reflexivity. lia.
  - rewrite current_after_advance_dangling in Hne by lia. congruence.
Qed.

Lemma perform_draws_sum hw ds :
  forall cls cls',
  perform_draws hw ds cls = (Ok tt, cls') ->
  current_relative_offset cls' = current_relative_offset cls + total_computed_offset hw ds /\
  PhiloxStateTracker.running_state cls' = PhiloxStateTracker.running_state cls /\
  Forall (fun d => rand_offset_calculator hw (draw_shape d) = Ok (computed_offset hw d) /\
                   computed_offset hw d <> 0) ds.
Proof.
  induction ds as [| d ds IH]; intros cls cls' H; simpl in H.
  - injection H as <-. simpl. split; [lia | split; [reflexivity | constructor]].
  - apply bind_inv in H as (r & c1 & Hd & H).
    apply perform_draw_inv in Hd as (Hk & Hne & Hc1 & Hcur).
    apply IH in H as (Hsum & Hrun & Hall).
    split; [| split].
    + rewrite Hsum, Hcur. simpl. lia.
    + rewrite Hrun, Hc1. reflexivity.
    + constructor; auto.
Qed.

Lemma guard_state {Args A : Type} (fn : Args -> PhiloxStateTracker.M A) args cls :
  snd (throw_if_philox_offset_did_not_advance fn args cls) = snd (fn args cls).
Proof.
  rewrite guard_unfold. destruct (fn args cls) as [[out | e] cls1]; [| reflexivity].
  now destruct (_ =? _).
Qed.

Lemma rand_fn_state hw a cls :
  snd (rand_fn hw a cls) = cls \/
  exists k, snd (rand_fn hw a cls) = snd (PhiloxStateTracker.advance_offset k cls).
Proof.
  unfold rand_fn, bind, lift, throw_on_non_cuda, PhiloxStateTracker.get_state_as_tuple,
    raise, ret.
  destruct (device_type _) as [kind | e]; simpl; [| now left].
  destruct (negb _); simpl.
  - now left.
  - destruct (PhiloxState.get_state_as_tuple _) as [[seed offset] | e]; simpl; [| now left].
    destruct (rand_offset_calculator _ _) as [k | e]; simpl; [| now left].
    right. now exists k.
Qed.

Lemma rand_like_fn_state hw a cls :
  snd (rand_like_fn hw a cls) = cls \/
  exists k, snd (rand_like_fn hw a cls) = snd (PhiloxStateTracker.advance_offset k cls).
Proof.
  unfold rand_like_fn, bind, lift, throw_on_non_cuda, PhiloxStateTracker.get_state_as_tuple,
    raise, ret.
  destruct (device_type _) as [kind | e]; simpl; [| now left].
  destruct (negb _); simpl.
  - now left.
  - destruct (PhiloxState.get_state_as_tuple _) as [[seed offset] | e]; simpl; [| now left].
    destruct (rand_offset_calculator _ _) as [k | e]; simpl; [| now left].
    right. now exists k.
Qed.

(** Draws keep the class state reachable: whatever its outcome, a draw
    leaves the state as it was or as one [advance_offset] leaves it. *)
Lemma perform_draw_reachable hw d cls :
  reachable cls -> reachable (snd (perform_draw hw d cls)).
Proof.
  intros Hr.
  assert (H : snd (perform_draw hw d cls) = cls \/
              exists k, snd (perform_draw hw d cls) =
                        snd (PhiloxStateTracker.advance_offset k cls)).
  { destruct d as [a | a]; simpl;
      unfold rand, rand_like, register_rng_decomposition; rewrite guard_state.
    - apply rand_fn_state.
    - apply rand_like_fn_state. }
  destruct H as [-> | [k ->]]; [exact Hr |].
  apply (reachable_after [AdvanceOffset k] cls Hr).
Qed.

Lemma well_formed_clear cls : well_formed (snd (PhiloxStateTracker.clear cls)).
Proof. unfold well_formed. simpl. rewrite length_app. simpl. lia. Qed.

(** The scenario, step by step: the forward object is recorded and
    advanced twice, then the backward object is recorded and advanced
    once. *)
Lemma scenario_result
    (hw : device_properties) (cls0 : PhiloxStateTracker.t)
    (S O S2 O2 : Tensor) (a44 : rand_args) (like : rand_like_args)
    (d : device) (c44 cx : Z) :
  rand_shape a44 = [4; 4] ->
  rand_device a44 = Some (DeviceObj d) ->
  type d = "cuda" ->
  like_device like = None ->
  type (x_device (like_x like)) = "cuda" ->
  torch.numel S <> 0 -> torch.numel O <> 0 ->
  torch.numel S2 <> 0 -> torch.numel O2 <> 0 ->
  rand_offset_calculator hw [4; 4] = Ok c44 -> c44 <> 0 ->
  - 2 ^ 63 <= c44 < 2 ^ 63 ->
  rand_offset_calculator hw (x_shape (like_x like)) = Ok cx -> cx <> 0 ->
  fst (scenario hw S O S2 O2 a44 like cls0) =
    Ok (2 * c44, {| total_fwd_offset := 2 * c44; total_bwd_offset := cx |}).
Proof.
  intros Hshape Hdev Hcuda Hldev Hlcuda HS HO HS2 HO2 Hc44 Hn44 Hr44 Hcx Hncx.
  unfold scenario.
  set (c1 := snd (PhiloxStateTracker.clear cls0)).
  pose proof (well_formed_clear cls0) as Hwf. fold c1 in Hwf.
  destruct Hwf as (_ & Hf & Hb & Hfb).
  set (c2 := snd (PhiloxStateTracker.mark_beginning_of_forward c1)).
  set (c3 := snd (PhiloxStateTracker.record_state S O "forward" c2)).
  set (c4 := snd (PhiloxStateTracker.advance_offset c44 c3)).
  set (c5 := snd (PhiloxStateTracker.advance_offset c44 c4)).
  set (c6 := snd (PhiloxStateTracker.mark_beginning_of_backward c5)).
  set (c7 := snd (PhiloxStateTracker.record_state S2 O2 "backward" c6)).
  set (c8 := snd (PhiloxStateTracker.advance_offset cx c7)).
  set (F := PhiloxStateTracker.fwd_state c1) in *.
  set (B := PhiloxStateTracker.bwd_state c1) in *.
  assert (Hlen : forall c, In c [c2; c3; c4; c5; c6; c7; c8] ->
            length (PhiloxStateTracker.store c) = length (PhiloxStateTracker.store c1)).
  { intros c Hc. simpl in Hc.
    repeat (destruct Hc as [<- | Hc]; [simpl; now rewrite ?length_insert |]).
    destruct Hc. }
  assert (D3 : PhiloxStateTracker.deref c3 F = PhiloxState.set_state PhiloxState.__init__ S O 0).
  { change c3 with (PhiloxStateTracker.mutate F
                      (fun self => PhiloxState.set_state self S O 0) c2).
    rewrite deref_mutate_same by exact Hf. reflexivity. }
  assert (D4 : PhiloxStateTracker.deref c4 F = PhiloxState.set_state PhiloxState.__init__ S O c44).
  { change c4 with (PhiloxStateTracker.mutate F
                      (fun self => PhiloxState.advance_offset self c44) c3).
    rewrite deref_mutate_same by (rewrite Hlen by (simpl; tauto); assumption).
    rewrite D3. reflexivity. }
  assert (D5 : PhiloxStateTracker.deref c5 F =
               PhiloxState.set_state PhiloxState.__init__ S O (c44 + c44)).
  { change c5 with (PhiloxStateTracker.mutate F
                      (fun self => PhiloxState.advance_offset self c44) c4).
    rewrite deref_mutate_same by (rewrite Hlen by (simpl; tauto); assumption).
    rewrite D4. reflexivity. }
  assert (D7 : PhiloxStateTracker.deref c7 B = PhiloxState.set_state PhiloxState.__init__ S2 O2 0
               /\ PhiloxStateTracker.deref c7 F = PhiloxStateTracker.deref c5 F).
  { change c7 with (PhiloxStateTracker.mutate B
                      (fun self => PhiloxState.set_state self S2 O2 0) c6).
    split.
    - rewrite deref_mutate_same by (rewrite Hlen by (simpl; tauto); assumption). reflexivity.
    - rewrite deref_mutate_other by congruence. reflexivity. }
  destruct D7 as [D7b D7f].
  assert (D8 : PhiloxStateTracker.deref c8 B = PhiloxState.set_state PhiloxState.__init__ S2 O2 cx
               /\ PhiloxStateTracker.deref c8 F = PhiloxStateTracker.deref c5 F).
  { change c8 with (PhiloxStateTracker.mutate B
                      (fun self => PhiloxState.advance_offset self cx) c7).
    split.
    - rewrite deref_mutate_same by (rewrite Hlen by (simpl; tauto); assumption).
      rewrite D7b. reflexivity.
    - rewrite deref_mutate_other by congruence. exact D7f. }
  destruct D8 as [D8b D8f].
  assert (R3 : rand hw a44 c3 = (Ok (philox_rand [4; 4] S (torch.wrapping_add O 0)
                 (make_contiguous_strides_for [4; 4]) (DeviceObj d)
                 (default float32 (rand_dtype a44))), c4)).
  { unfold rand, register_rng_decomposition. apply guard_passes.
    - rewrite (rand_fn_ok hw a44 d c44 c3 Hdev Hcuda).
      + change (PhiloxStateTracker.running_state c3) with F.
        rewrite D3, Hshape. reflexivity.
      + change (PhiloxStateTracker.running_state c3) with F. rewrite D3.
        now apply validate_state_populated.
      + unfold current_relative_offset.
        change (PhiloxStateTracker.running_state c3) with F. rewrite D3. simpl. lia.
      + now rewrite Hshape.
    - change (PhiloxStateTracker.running_state c3) with F.
      rewrite Hlen by (simpl; tauto); assumption.
    - exact Hn44. }
  assert (R4 : rand hw a44 c4 = (Ok (philox_rand [4; 4] S (torch.wrapping_add O c44)
                 (make_contiguous_strides_for [4; 4]) (DeviceObj d)
                 (default float32 (rand_dtype a44))), c5)).
  { unfold rand, register_rng_decomposition. apply guard_passes.
    - rewrite (rand_fn_ok hw a44 d c44 c4 Hdev Hcuda).
      + change (PhiloxStateTracker.running_state c4) with F.
        rewrite D4, Hshape. reflexivity.
      + change (PhiloxStateTracker.running_state c4) with F. rewrite D4.
        now apply validate_state_populated.
      + unfold current_relative_offset.
        change (PhiloxStateTracker.running_state c4) with F. rewrite D4. simpl. lia.
      + now rewrite Hshape.
    - change (PhiloxStateTracker.running_state c4) with F.
      rewrite Hlen by (simpl; tauto); assumption.
    - exact Hn44. }
  assert (R7 : rand_like hw like c7 =
               (Ok (philox_rand (x_shape (like_x like)) S2 (torch.wrapping_add O2 0)
                      (x_stride (like_x like)) (DeviceObj (x_device (like_x like)))
                      (default (x_dtype (like_x like)) (like_dtype like))), c8)).
  { unfold rand_like, register_rng_decomposition. apply guard_passes.
    - rewrite (rand_like_fn_ok hw like cx c7 Hldev Hlcuda).
      + change (PhiloxStateTracker.running_state c7) with B.
        rewrite D7b. reflexivity.
      + change (PhiloxStateTracker.running_state c7) with B. rewrite D7b.
        now apply validate_state_populated.
      + unfold current_relative_offset.
        change (PhiloxStateTracker.running_state c7) with B. rewrite D7b. simpl. lia.
      + exact Hcx.
    - change (PhiloxStateTracker.running_state c7) with B.
      rewrite Hlen by (simpl; tauto); assumption.
    - exact Hncx. }
  rewrite (bind_ok _ _ cls0 tt c1) by reflexivity.
  rewrite (bind_ok _ _ c1 tt c2) by reflexivity.
  rewrite (bind_ok _ _ c2 tt c3) by reflexivity.
  rewrite (bind_ok _ _ c3 _ c4 R3).
  rewrite (bind_ok _ _ c4 _ c5 R4).
  rewrite (bind_ok _ _ c5 (current_relative_offset c5) c5) by reflexivity.
  rewrite (bind_ok _ _ c5 tt c6) by reflexivity.
  rewrite (bind_ok _ _ c6 tt c7) by reflexivity.
  rewrite (bind_ok _ _ c7 _ c8 R7).
  unfold bind, PhiloxStateTracker.get_accumulated_offsets, ret. simpl fst.
  change (Datatypes.S (Datatypes.S (length (PhiloxStateTracker.store cls0)))) with B.
  change (Datatypes.S (length (PhiloxStateTracker.store cls0))) with F.
  unfold current_relative_offset.
  change (PhiloxStateTracker.running_state c5) with F.
  rewrite D8b, D8f, D5. simpl.
  replace (c44 + c44) with (2 * c44) by lia. reflexivity.
Qed.

(** On a device with at least 256 threads per multiprocessor and at least
    one multiprocessor, the offset of a [4, 4] draw is 4, and the scenario
    returns 8 and (8, the closed-form offset of the shape of [x]). *)
Lemma scenario_on_ordinary_device
    (hw : device_properties) (cls0 : PhiloxStateTracker.t)
    (S O S2 O2 : Tensor) (a44 : rand_args) (like : rand_like_args) (d : device) :
  256 <= max_threads_per_multi_processor hw <= 2 ^ 51 ->
  1 <= multi_processor_count hw ->
  1 <= numel_of (x_shape (like_x like)) <= 2 ^ 48 ->
  rand_shape a44 = [4; 4] ->
  rand_device a44 = Some (DeviceObj d) ->
  type d = "cuda" ->
  like_device like = None ->
  type (x_device (like_x like)) = "cuda" ->
  torch.numel S <> 0 -> torch.numel O <> 0 ->
  torch.numel S2 <> 0 -> torch.numel O2 <> 0 ->
  fst (scenario hw S O S2 O2 a44 like cls0) =
    Ok (8, {| total_fwd_offset := 8;
              total_bwd_offset := spec_rand_offset hw (numel_of (x_shape (like_x like))) |}).
Proof.
  intros Hthreads Hcount Hx Hshape Hdev Hcuda Hldev Hlcuda HS HO HS2 HO2.
  assert (H44 : rand_offset_calculator hw [4; 4] = Ok 4).
  { rewrite (rand_offset_calculator_spec hw [4; 4] Hthreads Hcount)
      by (change (numel_of [4; 4]) with 16; lia).
    unfold spec_rand_offset. f_equal.
    assert (1 <= max_threads_per_multi_processor hw / 256)
      by (apply Z.div_le_lower_bound; lia).
    change (numel_of [4; 4]) with 16. change ((16 + 256 - 1) / 256) with 1.
    replace (Z.min 1 (multi_processor_count hw * (max_threads_per_multi_processor hw / 256)))
      with 1 by nia.
    reflexivity. }
  destruct (rand_offset_calculator_at_least_4 hw (x_shape (like_x like)) Hthreads Hcount Hx)
    as (cx & Hcx & Hcx4).
  rewrite (rand_offset_calculator_spec hw _ Hthreads Hcount Hx) in Hcx.
  injection Hcx as <-.
  apply (scenario_result hw cls0 S O S2 O2 a44 like d 4
           (spec_rand_offset hw (numel_of (x_shape (like_x like)))));
    try assumption; try lia.
  now apply rand_offset_calculator_spec.
Qed.

(** C5, as amended. From any class state, the scenario clear, begin
    forward, record the forward state, [rand] of shape [4, 4] twice with a
    cuda device object as its device, read the current relative offset,
    begin backward, record the backward state, [rand_like] of a cuda
    tensor [x] once, read the accumulated offsets, returns twice the
    offset computed for [4, 4] as the current offset and (twice that
    offset, the offset computed for the shape of [x]) as the totals,
    provided the recorded tensors are populated, the calculator returns a
    non-zero offset for both shapes and the offset for [4, 4] fits int64.
    In general, when a sequence of draws returns, the running relative
    offset has grown by the sum of the offsets computed for the draws. *)
Theorem draws_accumulate_computed_offsets :
  (forall (hw : device_properties) (cls0 : PhiloxStateTracker.t)
          (S O S2 O2 : Tensor) (a44 : rand_args) (like : rand_like_args)
          (d : device) (c44 cx : Z),
     rand_shape a44 = [4; 4] ->
     rand_device a44 = Some (DeviceObj d) ->
     type d = "cuda" ->
     like_device like = None ->
     type (x_device (like_x like)) = "cuda" ->
     torch.numel S <> 0 -> torch.numel O <> 0 ->
     torch.numel S2 <> 0 -> torch.numel O2 <> 0 ->
     rand_offset_calculator hw [4; 4] = Ok c44 -> c44 <> 0 ->
     - 2 ^ 63 <= c44 < 2 ^ 63 ->
     rand_offset_calculator hw (x_shape (like_x like)) = Ok cx -> cx <> 0 ->
     fst (scenario hw S O S2 O2 a44 like cls0) =
       Ok (2 * c44, {| total_fwd_offset := 2 * c44; total_bwd_offset := cx |})) /\
  (forall (hw : device_properties) (ds : list draw) (cls cls' : PhiloxStateTracker.t),
     perform_draws hw ds cls = (Ok tt, cls') ->
     fst (PhiloxStateTracker.get_current_relative_offset cls') =
       Ok (current_relative_offset cls + total_computed_offset hw ds)).
Proof.
  split.
  - exact scenario_result.
  - intros hw ds cls cls' H.
    apply perform_draws_sum in H as (Hsum & _ & _).
    unfold PhiloxStateTracker.get_current_relative_offset. simpl.
    fold (current_relative_offset cls'). now rewrite Hsum.
Qed.

Lemma draws_accumulate_computed_offsets_witness :
  let cuda0 := {| type := "cuda"; index := Some 0 |} in
  let a44 := {| rand_shape := [4; 4]; rand_dtype := None; rand_layout := strided;
                rand_device := Some (DeviceObj cuda0); rand_pin_memory := false |} in
  let x := {| x_shape := [1024; 1024]; x_stride := [1024; 1]; x_device := cuda0;
              x_dtype := float16 |} in
  let like := {| like_x := x; like_dtype := None; like_layout := None;
                 like_device := None; like_pin_memory := false;
                 like_memory_format := preserve_format |} in
  let cls := after [Clear; MarkBeginningOfForward; RecordState (Scalar 42) (Scalar 7) "forward"]
               PhiloxStateTracker.initial in
  fst (scenario a100 (Scalar 42) (Scalar 7) (Scalar 43) (Scalar 9) a44 like
         PhiloxStateTracker.initial) =
    Ok (2 * 4, {| total_fwd_offset := 2 * 4; total_bwd_offset := 8 |}) /\
  fst (PhiloxStateTracker.get_current_relative_offset
         (snd (perform_draws a100 [Rand a44; RandLike like; Rand a44] cls))) =
    Ok (0 + 16).
Proof.
  intros cuda0 a44 x like cls. split.
  - apply (proj1 draws_accumulate_computed_offsets a100 PhiloxStateTracker.initial
             (Scalar 42) (Scalar 7) (Scalar 43) (Scalar 9) a44 like cuda0 4 8);
      try reflexivity; try discriminate; lia.
  - apply (proj2 draws_accumulate_computed_offsets a100
             [Rand a44; RandLike like; Rand a44] cls).
    vm_compute. reflexivity.
Defined.

(** The scenario as the specification writes it, [rand] of shape [4, 4]
    with no device: the first draw raises the attribute error of
    [device.type] on the string cpu, and the scenario returns no
    offsets. *)
Lemma scenario_with_default_device_raises :
  let cuda0 := {| type := "cuda"; index := Some 0 |} in
  let a44 := {| rand_shape := [4; 4]; rand_dtype := None; rand_layout := strided;
                rand_device := None; rand_pin_memory := false |} in
  let x := {| x_shape := [1024; 1024]; x_stride := [1024; 1]; x_device := cuda0;
              x_dtype := float16 |} in
  let like := {| like_x := x; like_dtype := None; like_layout := None;
                 like_device := None; like_pin_memory := false;
                 like_memory_format := preserve_format |} in
  fst (scenario a100 (Scalar 42) (Scalar 7) (Scalar 43) (Scalar 9) a44 like
         PhiloxStateTracker.initial) =
    Raise (AttributeError "'str' object has no attribute 'type'") /\
  fst (scenario a100 (Scalar 42) (Scalar 7) (Scalar 43) (Scalar 9) a44 like
         PhiloxStateTracker.initial) <>
    Ok (2 * 4, {| total_fwd_offset := 2 * 4; total_bwd_offset := 8 |}).
Proof.
  split.
  - reflexivity.
  - vm_compute. discriminate.
Qed.

(** ** The device RNG state buffer *)

Lemma to_uint_of_int n v : bytes.to_uint (bytes.of_int n v) = v mod 256 ^ Z.of_nat n.
Proof.
  revert v. induction n as [| n IH]; intros v.
  - simpl. now rewrite Z.mod_1_r.
  - cbn [bytes.of_int bytes.to_uint]. rewrite IH.
    rewrite Nat2Z.inj_succ, Z.pow_succ_r by lia.
    rewrite Z.rem_mul_r by lia. lia.
Qed.

Lemma length_of_int n v : length (bytes.of_int n v) = n.
Proof. revert v. induction n as [| n IH]; intros v; simpl; [reflexivity | now rewrite IH]. Qed.

Lemma of_int_bytes n v : Forall (fun b => 0 <= b < 256) (bytes.of_int n v).
Proof.
  revert v. induction n as [| n IH]; intros v; simpl; constructor.
  - apply Z.mod_pos_bound. lia.
  - apply IH.
Qed.

Lemma int64_of_bytes v :
  - 2 ^ 63 <= v < 2 ^ 63 ->
  torch.wrap64 (bytes.to_uint (bytes.of_int 8 v)) = v.
Proof.
  intros Hv. rewrite to_uint_of_int. unfold torch.wrap64.
  change (256 ^ Z.of_nat 8) with (2 ^ 64).
  rewrite Zplus_mod_idemp_l.
  rewrite Z.mod_small; [lia |].
  change (2 ^ 64) with (2 * 2 ^ 63). lia.
Qed.

Lemma view_int64_8 bs :
  length bs = 8%nat ->
  bytes.view_int64 bs = Ok [torch.wrap64 (bytes.to_uint bs)].
Proof.
  intros Hlen. unfold bytes.view_int64. rewrite Hlen. simpl Z.eqb. cbv iota.
  do 9 (destruct bs as [| ? bs]; try discriminate). reflexivity.
Qed.

Lemma set_torch_state_tensor_ok seed offset s o dev :
  torch.values seed = [s] ->
  torch.values offset = [o] ->
  RNGStateHelper.set_torch_state_tensor seed offset dev =
    (Ok tt,
     {| cuda.is_available := cuda.is_available dev;
        cuda.rng_state := replicate 800 255 ++ bytes.of_int 8 s ++ bytes.of_int 8 o |}).
Proof.
  intros Hs Ho. unfold RNGStateHelper.set_torch_state_tensor, bytes.of_tensor.
  rewrite Hs, Ho. reflexivity.
Qed.

Lemma slice_seed (prefix seed_portion offset_portion : list Z) :
  length prefix = 800%nat ->
  length seed_portion = 8%nat ->
  bytes.slice 800 808 (prefix ++ seed_portion ++ offset_portion) = seed_portion.
Proof.
  intros Hp Hs. unfold bytes.slice.
  rewrite drop_app_length' by (symmetry; exact Hp).
  change (808 - 800)%nat with 8%nat.
  now rewrite take_app_length' by (symmetry; exact Hs).
Qed.

Lemma slice_offset (prefix seed_portion offset_portion : list Z) :
  length prefix = 800%nat ->
  length seed_portion = 8%nat ->
  bytes.slice_from 808 (prefix ++ seed_portion ++ offset_portion) = offset_portion.
Proof.
  intros Hp Hs. unfold bytes.slice_from.
  rewrite app_assoc. apply drop_app_length'.
  rewrite length_app, Hp, Hs. reflexivity.
Qed.

Lemma read_written_state dev s o :
  cuda.is_available dev = true ->
  - 2 ^ 63 <= s < 2 ^ 63 ->
  - 2 ^ 63 <= o < 2 ^ 63 ->
  let dev' := {| cuda.is_available := cuda.is_available dev;
                 cuda.rng_state := replicate 800 255 ++ bytes.of_int 8 s ++ bytes.of_int 8 o |} in
  RNGStateHelper.get_torch_state_as_tuple None dev' = (Ok (Scalar s, Scalar o), dev').
Proof.
  intros Hav Hs Ho dev'. unfold RNGStateHelper.get_torch_state_as_tuple.
  change (cuda.is_available dev') with (cuda.is_available dev). rewrite Hav.
  cbv [negb]. unfold bind, lift, cuda.get_rng_state.
  change (cuda.rng_state dev')
    with (replicate 800 255 ++ bytes.of_int 8 s ++ bytes.of_int 8 o).
  rewrite slice_seed, slice_offset
    by (rewrite ?length_replicate, ?length_of_int; reflexivity).
  rewrite !view_int64_8 by apply length_of_int.
  cbv [bytes.item0]. rewrite !int64_of_bytes by assumption. reflexivity.
Qed.


(** C9, as amended. When a cuda device is available, writing a seed and an
    offset that are single int64 values and reading the state back returns
    exactly that pair: the buffer written is 800 bytes of 255, then the 8
    bytes of the seed, then the 8 bytes of the offset, least significant
    byte first, the seed is read from bytes 800 to 808 and the offset from
    the bytes after them. When no device is available, the read returns
    (0, 0) whatever was written. *)
Theorem write_then_read_round_trip
    (dev : cuda.t) (seed offset : Tensor) (s o : Z) :
  torch.values seed = [s] ->
  torch.values offset = [o] ->
  - 2 ^ 63 <= s < 2 ^ 63 ->
  - 2 ^ 63 <= o < 2 ^ 63 ->
  let written := replicate 800 255 ++ bytes.of_int 8 s ++ bytes.of_int 8 o in
  snd (RNGStateHelper.set_torch_state_tensor seed offset dev) =
    {| cuda.is_available := cuda.is_available dev; cuda.rng_state := written |} /\
  bytes.slice 0 800 written = replicate 800 255 /\
  bytes.slice 800 808 written = bytes.of_int 8 s /\
  bytes.slice_from 808 written = bytes.of_int 8 o /\
  (cuda.is_available dev = true ->
   fst (write_then_read seed offset dev) = Ok (Scalar s, Scalar o)) /\
  (cuda.is_available dev = false ->
   fst (write_then_read seed offset dev) = Ok (torch.tensor 0, torch.tensor 0)).
Proof.
  intros Hs Ho Rs Ro written.
  pose proof (set_torch_state_tensor_ok seed offset s o dev Hs Ho) as Hw.
  fold written in Hw.
  split; [now rewrite Hw |]. split; [| split; [| split; [| split]]].
  - unfold bytes.slice, written. rewrite drop_0.
    change (800 - 0)%nat with 800%nat.
    apply take_app_length'. now rewrite length_replicate.
  - apply slice_seed; [apply length_replicate | apply length_of_int].
  - apply slice_offset; [apply length_replicate | apply length_of_int].
  - intros Hav. unfold write_then_read. erewrite bind_ok by exact Hw.
    unfold written. now rewrite (read_written_state dev s o Hav Rs Ro).
  - intros Hav. unfold write_then_read. erewrite bind_ok by exact Hw.
    unfold RNGStateHelper.get_torch_state_as_tuple. simpl cuda.is_available.
    rewrite Hav. reflexivity.
Qed.

Lemma write_then_read_round_trip_witness :
  fst (write_then_read (torch.tensor 42) (torch.tensor 7)
         {| cuda.is_available := true; cuda.rng_state := [] |}) =
    Ok (Scalar 42, Scalar 7).
Proof.
  apply (write_then_read_round_trip
           {| cuda.is_available := true; cuda.rng_state := [] |}
           (torch.tensor 42) (torch.tensor 7) 42 7);
    reflexivity || lia.
Defined.

(** Without a cuda device, [write_state(seed=42, offset=7)] followed by
    [read_state()] returns (0, 0), not (42, 7). *)
Lemma write_then_read_without_device :
  let dev := {| cuda.is_available := false; cuda.rng_state := [] |} in
  fst (write_then_read (torch.tensor 42) (torch.tensor 7) dev) =
    Ok (torch.tensor 0, torch.tensor 0) /\
  fst (write_then_read (torch.tensor 42) (torch.tensor 7) dev) <>
    Ok (torch.tensor 42, torch.tensor 7).
Proof.
  split.
  - reflexivity.
  - vm_compute. discriminate.
Qed.

(** * Further properties *)

(** ** The offset calculator *)

Lemma numel_of_fold acc shape : fold_left Z.mul shape acc = acc * numel_of shape.
Proof.
  unfold numel_of. revert acc.
  induction shape as [| d shape IH]; intros acc; simpl.
  - lia.
  - rewrite IH, (IH (1 * d)). ring.
Qed.

Lemma numel_of_cons d shape : numel_of (d :: shape) = d * numel_of shape.
Proof. unfold numel_of at 1. simpl. rewrite numel_of_fold. ring. Qed.

Lemma numel_of_app s1 s2 : numel_of (s1 ++ s2) = numel_of s1 * numel_of s2.
Proof.
  induction s1 as [| d s1 IH]; simpl.
  - unfold numel_of at 2. simpl. lia.
  - rewrite !numel_of_cons, IH. ring.
Qed.

Lemma numel_of_permutation s1 s2 : s1 ≡ₚ s2 -> numel_of s1 = numel_of s2.
Proof.
  induction 1 as [| d s1 s2 _ IH | d1 d2 s | s1 s2 s3 _ IH1 _ IH2].
  - reflexivity.
  - now rewrite !numel_of_cons, IH.
  - rewrite !numel_of_cons. ring.
  - congruence.
Qed.

Lemma numel_of_zero shape : In 0 shape -> numel_of shape = 0.
Proof.
  induction shape as [| d shape IH]; intros Hin; [destruct Hin |].
  rewrite numel_of_cons. destruct Hin as [-> | Hin]; [lia |].
  rewrite IH by exact Hin. lia.
Qed.

(** The closed form does not depend on the clamp: it is 4 times the
    number of rounds of 1024 elements per resident block. *)
Lemma spec_rand_offset_rounds hw numel :
  ordinary_device hw -> 1 <= numel ->
  spec_rand_offset hw numel =
    4 * ((numel + 1024 * resident_blocks hw - 1) / (1024 * resident_blocks hw)).
Proof.
  intros [Hthreads Hcount] Hnumel. unfold spec_rand_offset, resident_blocks.
  set (bps := max_threads_per_multi_processor hw / 256).
  assert (Hbps : 1 <= bps) by (unfold bps; apply Z.div_le_lower_bound; lia).
  set (cap := multi_processor_count hw * bps).
  assert (Hcap : 1 <= cap) by (unfold cap; nia).
  set (g0 := (numel + 256 - 1) / 256).
  assert (Hg0 : numel <= 256 * g0 /\ 256 * g0 <= numel + 255).
  { unfold g0. pose proof (Z.mul_div_le (numel + 256 - 1) 256 ltac:(lia)).
    pose proof (Z.mul_succ_div_gt (numel + 256 - 1) 256 ltac:(lia)). lia. }
  destruct (Z.min_spec g0 cap) as [[Hlt ->] | [Hle ->]].
  - rewrite (Z.div_small (numel - 1)) by lia.
    replace ((numel + 1024 * cap - 1) / (1024 * cap)) with 1; [lia |].
    apply Z.div_unique with (numel - 1); lia.
  - replace (numel + 1024 * cap - 1) with (numel - 1 + 1 * (1024 * cap)) by lia.
    rewrite Z.div_add by lia.
    replace (256 * cap * 4) with (1024 * cap) by lia. lia.
Qed.

(** X1. On an ordinary device and for a shape of 1 to 2^48 elements, the
    calculator returns the integer closed form of the C++ execution
    policy it was copied from: with grid_size the clamped number of
    blocks of 256 elements, (floor((numel - 1) / (256 * grid_size * 4)) + 1)
    * 4. Its float divisions lose nothing in that range. *)
Theorem rand_offset_calculator_exact_in_range
    (hw : device_properties) (shape : list Z) :
  ordinary_device hw -> ordinary_shape shape ->
  let numel := numel_of shape in
  let blocks_per_sm := max_threads_per_multi_processor hw / 256 in
  let grid_size :=
    Z.min ((numel + 255) / 256) (multi_processor_count hw * blocks_per_sm) in
  rand_offset_calculator hw shape =
    Ok (((numel - 1) / (256 * grid_size * 4) + 1) * 4).
Proof.
  intros [Hthreads Hcount] Hshape. cbv zeta.
  rewrite (rand_offset_calculator_spec hw shape Hthreads Hcount Hshape).
  unfold spec_rand_offset.
  replace (numel_of shape + 256 - 1) with (numel_of shape + 255) by lia. reflexivity.
Qed.

Lemma rand_offset_calculator_exact_in_range_witness :
  rand_offset_calculator a100 [1000; 1000; 1000] = Ok 4524.
Proof.
  apply (rand_offset_calculator_exact_in_range a100 [1000; 1000; 1000]).
  - unfold ordinary_device. simpl. lia.
  - unfold ordinary_shape. vm_compute. split; discriminate.
Defined.

(** X2. In that range the offset is 4 times the number of rounds the
    resident blocks need, each round covering 1024 elements per block:
    4 * ceil(numel / (1024 * resident_blocks)). So the offset is at least
    4, a multiple of 4, and 256 threads in each resident block with that
    many counter values each cover every element. *)
Theorem rand_offset_calculator_rounds (hw : device_properties) (shape : list Z) :
  ordinary_device hw -> ordinary_shape shape ->
  exists offset,
    rand_offset_calculator hw shape = Ok offset /\
    offset =
      4 * ((numel_of shape + 1024 * resident_blocks hw - 1) / (1024 * resident_blocks hw)) /\
    4 <= offset /\
    offset mod 4 = 0 /\
    numel_of shape <= offset * 256 * resident_blocks hw /\
    (offset = 4 <-> numel_of shape <= 1024 * resident_blocks hw).
Proof.
  intros Hdev Hshape. pose proof Hdev as [Hthreads Hcount].
  eexists. split; [now apply rand_offset_calculator_spec |].
  rewrite (spec_rand_offset_rounds hw _ Hdev) by (unfold ordinary_shape in Hshape; lia).
  assert (Hcap : 1 <= resident_blocks hw).
  { unfold resident_blocks.
    assert (1 <= max_threads_per_multi_processor hw / 256)
      by (apply Z.div_le_lower_bound; lia). nia. }
  destruct Hshape as [Hlo Hhi].
  set (numel := numel_of shape) in *. set (R := 1024 * resident_blocks hw).
  assert (HR : 0 < R) by (unfold R; lia).
  pose proof (Z.mul_div_le (numel + R - 1) R HR) as Hle.
  pose proof (Z.mul_succ_div_gt (numel + R - 1) R HR) as Hgt.
  set (rounds := (numel + R - 1) / R) in *.
  assert (Hrounds : 1 <= rounds) by (unfold rounds; apply Z.div_le_lower_bound; lia).
  split; [reflexivity |]. split; [lia |]. split.
  - rewrite Z.mul_comm. apply Z.mod_mul. lia.
  - split; [unfold R in *; nia |]. split; intros H.
    + assert (rounds = 1) by lia. nia.
    + assert (rounds < 2) by (unfold rounds; apply Z.div_lt_upper_bound; lia). lia.
Qed.

Lemma rand_offset_calculator_rounds_witness :
  exists offset,
    rand_offset_calculator a100 [1024; 1024] = Ok offset /\
    numel_of [1024; 1024] <= offset * 256 * resident_blocks a100.
Proof.
  destruct (rand_offset_calculator_rounds a100 [1024; 1024])
    as (offset & Hcalc & _ & _ & _ & Hcover & _).
  - unfold ordinary_device. simpl. lia.
  - unfold ordinary_shape. vm_compute. split; discriminate.
  - exists offset. split; [exact Hcalc | exact Hcover].
Defined.

(** X3. In that range the offset does not decrease when the number of
    elements grows. *)
Theorem rand_offset_calculator_monotone
    (hw : device_properties) (shape1 shape2 : list Z) :
  ordinary_device hw -> ordinary_shape shape1 -> ordinary_shape shape2 ->
  numel_of shape1 <= numel_of shape2 ->
  exists offset1 offset2,
    rand_offset_calculator hw shape1 = Ok offset1 /\
    rand_offset_calculator hw shape2 = Ok offset2 /\
    offset1 <= offset2.
Proof.
  intros Hdev H1 H2 Hle. pose proof Hdev as [Hthreads Hcount].
  exists (spec_rand_offset hw (numel_of shape1)), (spec_rand_offset hw (numel_of shape2)).
  split; [now apply rand_offset_calculator_spec |].
  split; [now apply rand_offset_calculator_spec |].
  unfold ordinary_shape in *.
  rewrite !(spec_rand_offset_rounds hw _ Hdev) by lia.
  assert (Hcap : 1 <= resident_blocks hw).
  { unfold resident_blocks.
    assert (1 <= max_threads_per_multi_processor hw / 256)
      by (apply Z.div_le_lower_bound; lia). nia. }
  apply Z.mul_le_mono_nonneg_l; [lia |].
  apply Z.div_le_mono; lia.
Qed.

Lemma rand_offset_calculator_monotone_witness :
  exists offset1 offset2,
    rand_offset_calculator a100 [4; 4] = Ok offset1 /\
    rand_offset_calculator a100 [1000; 1000; 1000] = Ok offset2 /\
    offset1 <= offset2.
Proof.
  apply (rand_offset_calculator_monotone a100 [4; 4] [1000; 1000; 1000]).
  - unfold ordinary_device. simpl. lia.
  - unfold ordinary_shape. vm_compute. split; discriminate.
  - unfold ordinary_shape. vm_compute. split; discriminate.
  - vm_compute. discriminate.
Defined.

(** X4. A shape with a dimension of size 0 has no element, and the
    calculator then divides by a grid size of 0: on any device whose
    thread and multiprocessor counts are not negative it raises
    ZeroDivisionError. *)
Theorem rand_offset_calculator_no_element_raises
    (hw : device_properties) (shape : list Z) :
  0 <= max_threads_per_multi_processor hw <= 2 ^ 51 ->
  0 <= multi_processor_count hw ->
  In 0 shape ->
  numel_of shape = 0 /\
  rand_offset_calculator hw shape = Raise ZeroDivisionError.
Proof.
  intros Hthreads Hcount Hin.
  pose proof (numel_of_zero shape Hin) as Hnumel.
  split; [exact Hnumel |].
  unfold rand_offset_calculator. rewrite Hnumel.
  destruct (int_of_truediv (max_threads_per_multi_processor hw) 256)
    as (q1 & -> & Hq1); try lia. cbn [rbind]. rewrite Hq1. cbn [rbind].
  destruct (int_of_truediv (0 + 256 - 1) 256) as (q2 & -> & Hq2); try lia.
  cbn [rbind]. rewrite Hq2. cbn [rbind].
  change ((0 + 256 - 1) / 256) with 0.
  assert (0 <= max_threads_per_multi_processor hw / 256) by (apply Z.div_pos; lia).
  replace (Z.min 0 (multi_processor_count hw * (max_threads_per_multi_processor hw / 256)))
    with 0 by nia.
  reflexivity.
Qed.

Lemma rand_offset_calculator_no_element_raises_witness :
  rand_offset_calculator a100 [16; 0; 3] = Raise ZeroDivisionError.
Proof.
  apply (rand_offset_calculator_no_element_raises a100 [16; 0; 3]).
  - simpl. lia.
  - simpl. lia.
  - simpl. tauto.
Defined.

(** X5. The calculator sees a shape only through its number of elements:
    permuting the dimensions, or appending dimensions of size 1, changes
    neither its result nor the error it raises. *)
Theorem rand_offset_calculator_shape_invariance
    (hw : device_properties) (shape1 shape2 : list Z) (ones : nat) :
  shape1 ≡ₚ shape2 ->
  rand_offset_calculator hw shape1 = rand_offset_calculator hw shape2 /\
  rand_offset_calculator hw (shape1 ++ replicate ones 1) = rand_offset_calculator hw shape1.
Proof.
  intros Hperm. unfold rand_offset_calculator. split.
  - now rewrite (numel_of_permutation _ _ Hperm).
  - rewrite numel_of_app.
    replace (numel_of (replicate ones 1)) with 1; [now rewrite Z.mul_1_r |].
    induction ones as [| n IH]; [reflexivity |].
    simpl replicate. rewrite numel_of_cons. lia.
Qed.

Lemma rand_offset_calculator_shape_invariance_witness :
  rand_offset_calculator a100 [2; 3; 5] = rand_offset_calculator a100 [5; 2; 3].
Proof.
  apply (rand_offset_calculator_shape_invariance a100 [2; 3; 5] [5; 2; 3] 0).
  change [5; 2; 3] with ([5] ++ [2; 3]). change [2; 3; 5] with ([2; 3] ++ [5]).
  apply Permutation_app_comm.
Defined.

(** ** The decompositions *)

Lemma device_or_string o s :
  s <> "" -> device_or (Some (DeviceStr s)) o = DeviceStr s.
Proof. intros Hs. destruct s; [contradiction | reflexivity]. Qed.

Lemma perform_draw_string_device hw d s cls :
  draw_device d = DeviceStr s ->
  perform_draw hw d cls =
    (Raise (AttributeError "'str' object has no attribute 'type'"), cls).
Proof.
  intros Hdev. destruct d as [a | a]; simpl in *;
    unfold rand, rand_like, register_rng_decomposition;
    apply guard_propagates; unfold rand_fn, rand_like_fn; rewrite Hdev; reflexivity.
Qed.

(** X6. A device given as a string never works: [rand] with any string,
    "cuda" included, and [rand_like] with any non-empty string raise the
    attribute error of [device.type] and leave the class state as it was;
    an empty string counts as no device. *)
Theorem draw_with_string_device_raises_attribute_error
    (hw : device_properties) (cls : PhiloxStateTracker.t) (s : string) :
  (forall a : rand_args,
     rand_device a = Some (DeviceStr s) ->
     rand hw a cls =
       (Raise (AttributeError "'str' object has no attribute 'type'"), cls)) /\
  (forall a : rand_like_args,
     like_device a = Some (DeviceStr s) -> s <> "" ->
     rand_like hw a cls =
       (Raise (AttributeError "'str' object has no attribute 'type'"), cls)) /\
  (forall a b : rand_like_args,
     like_device a = Some (DeviceStr "") -> like_device b = None ->
     like_x a = like_x b -> like_dtype a = like_dtype b ->
     rand_like hw a cls = rand_like hw b cls).
Proof.
  split; [| split].
  - intros a Hd. apply (perform_draw_string_device hw (Rand a) (match s with "" => "cpu" | _ => s end)).
    simpl. rewrite Hd. now destruct s.
  - intros a Hd Hs. apply (perform_draw_string_device hw (RandLike a) s).
    simpl. rewrite Hd. now apply device_or_string.
  - intros a b Ha Hb Hx Hdt.
    unfold rand_like, register_rng_decomposition. rewrite !guard_unfold.
    unfold rand_like_fn. now rewrite Ha, Hb, Hx, Hdt.
Qed.

Lemma draw_with_string_device_raises_attribute_error_witness :
  let a := {| rand_shape := [4; 4]; rand_dtype := None; rand_layout := strided;
              rand_device := Some (DeviceStr "cuda"); rand_pin_memory := false |} in
  rand a100 a PhiloxStateTracker.initial =
    (Raise (AttributeError "'str' object has no attribute 'type'"),
     PhiloxStateTracker.initial).
Proof.
  intros a.
  apply (proj1 (draw_with_string_device_raises_attribute_error
                  a100 PhiloxStateTracker.initial "cuda") a eq_refl).
Defined.

Lemma perform_draw_rejects_device hw d o cls :
  draw_device d = DeviceObj o -> type o <> "cuda" ->
  perform_draw hw d cls = (Raise (UnsupportedDeviceError (type o)), cls).
Proof.
  intros Hdev Hty. apply String.eqb_neq in Hty.
  destruct d as [a | a]; simpl in *;
    unfold rand, rand_like, register_rng_decomposition;
    apply guard_propagates; unfold rand_fn, rand_like_fn; rewrite Hdev; simpl;
    unfold bind, lift at 1; simpl; rewrite Hty; reflexivity.
Qed.

(** X7. [rand_like] takes the device of [x] when none is given and the
    given device object otherwise; when that device is not a cuda device
    it raises the runtime error of [throw_on_non_cuda] naming the device
    type and leaves the class state as it was. A cuda [x] does not save a
    call with an explicit cpu device. *)
Theorem rand_like_rejects_non_cuda_device
    (hw : device_properties) (a : rand_like_args) (cls : PhiloxStateTracker.t) :
  (like_device a = None ->
   type (x_device (like_x a)) <> "cuda" ->
   rand_like hw a cls =
     (Raise (UnsupportedDeviceError (type (x_device (like_x a)))), cls)) /\
  (forall o : device,
     like_device a = Some (DeviceObj o) ->
     type o <> "cuda" ->
     rand_like hw a cls = (Raise (UnsupportedDeviceError (type o)), cls)).
Proof.
  split.
  - intros Hd Hty.
    apply (perform_draw_rejects_device hw (RandLike a) (x_device (like_x a)) cls);
      [simpl; now rewrite Hd | exact Hty].
  - intros o Hd Hty.
    apply (perform_draw_rejects_device hw (RandLike a) o cls);
      [simpl; now rewrite Hd | exact Hty].
Qed.

Lemma rand_like_rejects_non_cuda_device_witness :
  let cpu := {| type := "cpu"; index := None |} in
  let cuda0 := {| type := "cuda"; index := Some 0 |} in
  let x := {| x_shape := [4; 4]; x_stride := [4; 1]; x_device := cuda0;
              x_dtype := float32 |} in
  let a := {| like_x := x; like_dtype := None; like_layout := None;
              like_device := Some (DeviceObj cpu); like_pin_memory := false;
              like_memory_format := preserve_format |} in
  rand_like a100 a PhiloxStateTracker.initial =
    (Raise (UnsupportedDeviceError "cpu"), PhiloxStateTracker.initial).
Proof.
  intros cpu cuda0 x a.
  apply (proj2 (rand_like_rejects_non_cuda_device a100 a PhiloxStateTracker.initial)
           cpu eq_refl).
  discriminate.
Defined.

Lemma ordinary_offset_at_least_4 hw shape :
  ordinary_device hw -> ordinary_shape shape ->
  rand_offset_calculator hw shape = Ok (spec_rand_offset hw (numel_of shape)) /\
  4 <= spec_rand_offset hw (numel_of shape).
Proof.
  intros [Hthreads Hcount] Hshape.
  destruct (rand_offset_calculator_at_least_4 hw shape Hthreads Hcount Hshape)
    as (k & Hk & Hk4).
  rewrite (rand_offset_calculator_spec hw shape Hthreads Hcount Hshape) in Hk.
  injection Hk as <-.
  split; [now apply rand_offset_calculator_spec | exact Hk4].
Qed.

Lemma rand_fn_ok_device hw a o k cls :
  device_or (rand_device a) (DeviceStr "cpu") = DeviceObj o ->
  type o = "cuda" ->
  PhiloxState.validate_state
    (PhiloxStateTracker.deref cls (PhiloxStateTracker.running_state cls)) = Ok tt ->
  - 2 ^ 63 <= current_relative_offset cls < 2 ^ 63 ->
  rand_offset_calculator hw (rand_shape a) = Ok k ->
  let self := PhiloxStateTracker.deref cls (PhiloxStateTracker.running_state cls) in
  rand_fn hw a cls =
    (Ok (philox_rand (rand_shape a) (PhiloxState.seed self)
           (torch.wrapping_add (PhiloxState.base_offset self)
                               (PhiloxState.relative_offset self))
           (make_contiguous_strides_for (rand_shape a)) (DeviceObj o)
           (default float32 (rand_dtype a))),
     snd (PhiloxStateTracker.advance_offset k cls)).
Proof.
  intros Hd Hty Hv Hrel Hk self. unfold rand_fn. rewrite Hd.
  unfold bind, lift, PhiloxStateTracker.get_state_as_tuple,
    PhiloxState.get_state_as_tuple. simpl.
  rewrite Hty. simpl. rewrite Hv. simpl.
  rewrite add_in_range by exact Hrel. simpl. rewrite Hk. reflexivity.
Qed.

Lemma rand_like_fn_ok_device hw a o k cls :
  device_or (like_device a) (DeviceObj (x_device (like_x a))) = DeviceObj o ->
  type o = "cuda" ->
  PhiloxState.validate_state
    (PhiloxStateTracker.deref cls (PhiloxStateTracker.running_state cls)) = Ok tt ->
  - 2 ^ 63 <= current_relative_offset cls < 2 ^ 63 ->
  rand_offset_calculator hw (x_shape (like_x a)) = Ok k ->
  let self := PhiloxStateTracker.deref cls (PhiloxStateTracker.running_state cls) in
  rand_like_fn hw a cls =
    (Ok (philox_rand (x_shape (like_x a)) (PhiloxState.seed self)
           (torch.wrapping_add (PhiloxState.base_offset self)
                               (PhiloxState.relative_offset self))
           (x_stride (like_x a)) (DeviceObj o)
           (default (x_dtype (like_x a)) (like_dtype a))),
     snd (PhiloxStateTracker.advance_offset k cls)).
Proof.
  intros Hd Hty Hv Hrel Hk self. unfold rand_like_fn. rewrite Hd.
  unfold bind, lift, PhiloxStateTracker.get_state_as_tuple,
    PhiloxState.get_state_as_tuple. simpl.
  rewrite Hty. simpl. rewrite Hv. simpl.
  rewrite add_in_range by exact Hrel. simpl. rewrite Hk. reflexivity.
Qed.

(** X8. On an ordinary device, [rand] of a shape in range on a cuda device
    object, called while the running object is populated and its relative
    offset fits int64, passes the guard: it returns the philox draw at
    (seed, base_offset + relative_offset) with contiguous strides and
    dtype float32 unless one is given, and leaves the class state as
    [advance_offset] by the closed-form offset of the shape leaves it, so
    the running relative offset has grown by that offset, which is at
    least 4. *)
Theorem rand_draws_and_advances
    (hw : device_properties) (a : rand_args) (o : device) (cls : PhiloxStateTracker.t) :
  ordinary_device hw -> ordinary_shape (rand_shape a) ->
  rand_device a = Some (DeviceObj o) -> type o = "cuda" ->
  reachable cls ->
  populated (PhiloxStateTracker.deref cls (PhiloxStateTracker.running_state cls)) ->
  valid_shape (rand_shape a) ->
  - 2 ^ 63 <= current_relative_offset cls < 2 ^ 63 ->
  let self := PhiloxStateTracker.deref cls (PhiloxStateTracker.running_state cls) in
  let consumed := spec_rand_offset hw (numel_of (rand_shape a)) in
  rand hw a cls =
    (Ok (philox_rand (rand_shape a) (PhiloxState.seed self)
           (torch.wrapping_add (PhiloxState.base_offset self)
                               (PhiloxState.relative_offset self))
           (make_contiguous_strides_for (rand_shape a)) (DeviceObj o)
           (default float32 (rand_dtype a))),
     snd (PhiloxStateTracker.advance_offset consumed cls)) /\
  4 <= consumed /\
  current_relative_offset (snd (rand hw a cls)) = current_relative_offset cls + consumed.
Proof.
  intros Hdev Hshape Hd Hty Hr [Hs Hb] Hdims Hrel self consumed.
  destruct (ordinary_offset_at_least_4 hw _ Hdev Hshape) as [Hk Hk4].
  destruct (reachable_well_formed _ Hr) as (Hrun & _).
  assert (Hrand : rand hw a cls =
    (Ok (philox_rand (rand_shape a) (PhiloxState.seed self)
           (torch.wrapping_add (PhiloxState.base_offset self)
                               (PhiloxState.relative_offset self))
           (make_contiguous_strides_for (rand_shape a)) (DeviceObj o)
           (default float32 (rand_dtype a))),
     snd (PhiloxStateTracker.advance_offset consumed cls))).
  { unfold rand, register_rng_decomposition. apply guard_passes.
    - apply rand_fn_ok; auto. now apply validate_state_populated.
    - exact Hrun.
    - fold consumed in Hk4. lia. }
  split; [exact Hrand |]. split; [exact Hk4 |].
  rewrite Hrand. simpl snd. now apply current_after_advance_in_range.
Qed.

Lemma rand_draws_and_advances_witness :
  let cuda0 := {| type := "cuda"; index := Some 0 |} in
  let a := {| rand_shape := [1024; 1024]; rand_dtype := None; rand_layout := strided;
              rand_device := Some (DeviceObj cuda0); rand_pin_memory := false |} in
  let cls := after [Clear; MarkBeginningOfForward; RecordState (Scalar 42) (Scalar 7) "forward"]
               PhiloxStateTracker.initial in
  current_relative_offset (snd (rand a100 a cls)) = current_relative_offset cls + 8.
Proof.
  intros cuda0 a cls.
  apply (rand_draws_and_advances a100 a cuda0 cls).
  - unfold ordinary_device. simpl. lia.
  - unfold ordinary_shape. vm_compute. split; discriminate.
  - reflexivity.
  - reflexivity.
  - exists [Clear; MarkBeginningOfForward; RecordState (Scalar 42) (Scalar 7) "forward"].
    reflexivity.
  - split; vm_compute; discriminate.
  - repeat (constructor; [lia |]). constructor.
  - vm_compute. split; [discriminate | reflexivity].
Defined.

(** X9. [rand_like] does the same for the shape of [x], with the strides
    of [x] as they are (not contiguous ones), the device of [x] unless a
    device object is given and the dtype of [x] unless one is given; its
    layout, pin_memory and memory_format arguments change nothing. *)
Theorem rand_like_draws_and_advances
    (hw : device_properties) (a : rand_like_args) (o : device)
    (cls : PhiloxStateTracker.t) :
  ordinary_device hw -> ordinary_shape (x_shape (like_x a)) ->
  device_or (like_device a) (DeviceObj (x_device (like_x a))) = DeviceObj o ->
  type o = "cuda" ->
  reachable cls ->
  populated (PhiloxStateTracker.deref cls (PhiloxStateTracker.running_state cls)) ->
  valid_shape (x_shape (like_x a)) ->
  - 2 ^ 63 <= current_relative_offset cls < 2 ^ 63 ->
  let self := PhiloxStateTracker.deref cls (PhiloxStateTracker.running_state cls) in
  let consumed := spec_rand_offset hw (numel_of (x_shape (like_x a))) in
  rand_like hw a cls =
    (Ok (philox_rand (x_shape (like_x a)) (PhiloxState.seed self)
           (torch.wrapping_add (PhiloxState.base_offset self)
                               (PhiloxState.relative_offset self))
           (x_stride (like_x a)) (DeviceObj o)
           (default (x_dtype (like_x a)) (like_dtype a))),
     snd (PhiloxStateTracker.advance_offset consumed cls)) /\
  (forall b : rand_like_args,
     like_x b = like_x a -> like_dtype b = like_dtype a -> like_device b = like_device a ->
     rand_like hw b cls = rand_like hw a cls).
Proof.
  intros Hdev Hshape Hd Hty Hr [Hs Hb] Hdims Hrel self consumed.
  destruct (ordinary_offset_at_least_4 hw _ Hdev Hshape) as [Hk Hk4].
  destruct (reachable_well_formed _ Hr) as (Hrun & _).
  split.
  - unfold rand_like, register_rng_decomposition. apply guard_passes.
    + apply rand_like_fn_ok_device; auto. now apply validate_state_populated.
    + exact Hrun.
    + fold consumed in Hk4. lia.
  - intros b Hx Hdt Hdv.
    unfold rand_like, register_rng_decomposition. rewrite !guard_unfold.
    unfold rand_like_fn. now rewrite Hx, Hdt, Hdv.
Qed.

Lemma rand_like_draws_and_advances_witness :
  let cuda0 := {| type := "cuda"; index := Some 0 |} in
  let x := {| x_shape := [8; 4]; x_stride := [1; 8]; x_device := cuda0;
              x_dtype := float16 |} in
  let a := {| like_x := x; like_dtype := None; like_layout := None;
              like_device := None; like_pin_memory := false;
              like_memory_format := preserve_format |} in
  let cls := after [Clear; MarkBeginningOfForward; RecordState (Scalar 42) (Scalar 7) "forward"]
               PhiloxStateTracker.initial in
  fst (rand_like a100 a cls) =
    Ok (philox_rand [8; 4] (Scalar 42) (Scalar 7) [1; 8] (DeviceObj cuda0) float16).
Proof.
  intros cuda0 x a cls.
  destruct (rand_like_draws_and_advances a100 a cuda0 cls) as [H _].
  - unfold ordinary_device. simpl. lia.
  - unfold ordinary_shape. vm_compute. split; discriminate.
  - reflexivity.
  - reflexivity.
  - exists [Clear; MarkBeginningOfForward; RecordState (Scalar 42) (Scalar 7) "forward"].
    reflexivity.
  - split; vm_compute; discriminate.
  - repeat (constructor; [lia |]). constructor.
  - vm_compute. split; [discriminate | reflexivity].
  - rewrite H. reflexivity.
Defined.

Lemma perform_draw_ok hw d cls :
  ordinary_device hw -> ordinary_draw d -> well_formed cls ->
  populated (PhiloxStateTracker.deref cls (PhiloxStateTracker.running_state cls)) ->
  - 2 ^ 63 <= current_relative_offset cls < 2 ^ 63 ->
  exists r,
    perform_draw hw d cls =
      (Ok r, snd (PhiloxStateTracker.advance_offset
                    (spec_rand_offset hw (numel_of (draw_shape d))) cls)).
Proof.
  intros Hdev [(o & Hd & Hty) [Hshape _]] (Hrun & _) [Hs Hb] Hrel.
  destruct (ordinary_offset_at_least_4 hw _ Hdev Hshape) as [Hk Hk4].
  destruct d as [a | a]; simpl in *; eexists;
    unfold rand, rand_like, register_rng_decomposition; apply guard_passes;
    try exact Hrun; try lia.
  - apply (rand_fn_ok_device hw a o); auto. now apply validate_state_populated.
  - apply (rand_like_fn_ok_device hw a o); auto. now apply validate_state_populated.
Qed.

Lemma advance_keeps_fields k cls a :
  let cls' := snd (PhiloxStateTracker.advance_offset k cls) in
  PhiloxState.seed (PhiloxStateTracker.deref cls' a) =
    PhiloxState.seed (PhiloxStateTracker.deref cls a) /\
  PhiloxState.base_offset (PhiloxStateTracker.deref cls' a) =
    PhiloxState.base_offset (PhiloxStateTracker.deref cls a).
Proof.
  unfold PhiloxStateTracker.advance_offset. simpl.
  destruct (decide (PhiloxStateTracker.running_state cls = a)) as [<- | Hne].
  - destruct (lt_dec (PhiloxStateTracker.running_state cls)
                     (length (PhiloxStateTracker.store cls))) as [Hin | Hout].
    + rewrite deref_mutate_same by exact Hin. split; reflexivity.
    + unfold PhiloxStateTracker.mutate, PhiloxStateTracker.deref. simpl.
      rewrite list_insert_ge by lia. split; reflexivity.
  - rewrite deref_mutate_other by exact Hne. split; reflexivity.
Qed.

Lemma total_spec_offset_nonneg hw ds :
  ordinary_device hw -> Forall ordinary_draw ds -> 0 <= total_spec_offset hw ds.
Proof.
  intros Hdev Hds. induction Hds as [| d ds [_ [Hshape _]] _ IH]; simpl; [lia |].
  destruct (ordinary_offset_at_least_4 hw _ Hdev Hshape) as [_ Hk4]. lia.
Qed.

(** X10. On an ordinary device, every sequence of draws on cuda device
    objects and of shapes in range, started on a reachable class state
    whose running object is populated and whose relative offset stays
    within int64 up to the end of the sequence, returns: no draw raises,
    the guard never fires, and the running relative offset has grown by
    the sum of the closed-form offsets of the shapes, while seed and base
    offset of the running object and the running reference stay. *)
Theorem ordinary_draws_return
    (hw : device_properties) (ds : list draw) (cls : PhiloxStateTracker.t) :
  ordinary_device hw -> Forall ordinary_draw ds ->
  reachable cls ->
  populated (PhiloxStateTracker.deref cls (PhiloxStateTracker.running_state cls)) ->
  - 2 ^ 63 <= current_relative_offset cls ->
  current_relative_offset cls + total_spec_offset hw ds < 2 ^ 63 ->
  exists cls',
    perform_draws hw ds cls = (Ok tt, cls') /\
    reachable cls' /\
    PhiloxStateTracker.running_state cls' = PhiloxStateTracker.running_state cls /\
    current_relative_offset cls' = current_relative_offset cls + total_spec_offset hw ds /\
    total_computed_offset hw ds = total_spec_offset hw ds /\
    PhiloxState.seed (PhiloxStateTracker.deref cls' (PhiloxStateTracker.running_state cls')) =
      PhiloxState.seed (PhiloxStateTracker.deref cls (PhiloxStateTracker.running_state cls)) /\
    PhiloxState.base_offset
        (PhiloxStateTracker.deref cls' (PhiloxStateTracker.running_state cls')) =
      PhiloxState.base_offset
        (PhiloxStateTracker.deref cls (PhiloxStateTracker.running_state cls)).
Proof.
  intros Hdev Hds. revert cls.
  induction Hds as [| d ds Hd Hds IH]; intros cls Hr Hpop Hlow Hhigh.
  - exists cls. simpl. repeat split; auto; lia.
  - pose proof (reachable_well_formed _ Hr) as Hwf.
    pose proof (total_spec_offset_nonneg hw ds Hdev Hds) as Hrest0.
    assert (Hk4 : 4 <= spec_rand_offset hw (numel_of (draw_shape d)))
      by (destruct Hd as [_ [Hshape _]];
          apply (ordinary_offset_at_least_4 hw _ Hdev Hshape)).
    cbn [total_spec_offset fold_right] in Hhigh.
    fold (total_spec_offset hw ds) in Hhigh.
    assert (Hrel : - 2 ^ 63 <= current_relative_offset cls < 2 ^ 63) by lia.
    destruct (perform_draw_ok hw d cls Hdev Hd Hwf Hpop Hrel) as (r & Hdraw).
    pose proof (current_after_advance_in_range cls
                  (spec_rand_offset hw (numel_of (draw_shape d))) (proj1 Hwf)) as Hcur1.
    set (k := spec_rand_offset hw (numel_of (draw_shape d))) in *.
    set (c1 := snd (PhiloxStateTracker.advance_offset k cls)) in *.
    assert (Hr1 : reachable c1) by apply (reachable_after [AdvanceOffset k] cls Hr).
    destruct (advance_keeps_fields k cls (PhiloxStateTracker.running_state cls))
      as [Es Eb]. fold c1 in Es, Eb.
    assert (Hpop1 : populated
              (PhiloxStateTracker.deref c1 (PhiloxStateTracker.running_state c1))).
    { change (PhiloxStateTracker.running_state c1)
        with (PhiloxStateTracker.running_state cls).
      unfold populated. rewrite Es, Eb. exact Hpop. }
    destruct (IH c1 Hr1 Hpop1) as (cls' & Hrest & Hr' & Hrun & Hcur & Htot & Hseed & Hbase);
      [lia | lia |].
    exists cls'. simpl perform_draws.
    rewrite (bind_ok _ _ cls r c1 Hdraw).
    split; [exact Hrest |]. split; [exact Hr' |]. split; [exact Hrun |].
    destruct Hwf as (Hin & _).
    destruct Hd as [_ [Hshape _]].
    destruct (ordinary_offset_at_least_4 hw _ Hdev Hshape) as [Hk _].
    split; [| split; [| split]].
    + rewrite Hcur. unfold c1.
      rewrite current_after_advance_in_range by exact Hin. simpl. fold k. lia.
    + simpl. unfold computed_offset at 1. rewrite Hk, Htot. reflexivity.
    + rewrite Hseed. exact Es.
    + rewrite Hbase. exact Eb.
Qed.

Lemma ordinary_draws_return_witness :
  let cuda0 := {| type := "cuda"; index := Some 0 |} in
  let a := {| rand_shape := [1024; 1024]; rand_dtype := None; rand_layout := strided;
              rand_device := Some (DeviceObj cuda0); rand_pin_memory := false |} in
  let x := {| x_shape := [8; 4]; x_stride := [1; 8]; x_device := cuda0;
              x_dtype := float16 |} in
  let b := {| like_x := x; like_dtype := None; like_layout := None;
              like_device := None; like_pin_memory := false;
              like_memory_format := preserve_format |} in
  let cls := after [Clear; MarkBeginningOfForward; RecordState (Scalar 42) (Scalar 7) "forward"]
               PhiloxStateTracker.initial in
  exists cls',
    perform_draws a100 [Rand a; RandLike b; Rand a] cls = (Ok tt, cls') /\
    current_relative_offset cls' = 20.
Proof.
  intros cuda0 a x b cls.
  destruct (ordinary_draws_return a100 [Rand a; RandLike b; Rand a] cls)
    as (cls' & Hrun & _ & _ & Hcur & _).
  - unfold ordinary_device. simpl. lia.
  - constructor; [| constructor; [| constructor; [| constructor]]];
      (split; [exists cuda0; split; reflexivity |
               split; [unfold ordinary_shape; vm_compute; split; discriminate |
                       repeat (constructor; [lia |]); constructor]]).
  - exists [Clear; MarkBeginningOfForward; RecordState (Scalar 42) (Scalar 7) "forward"].
    reflexivity.
  - split; vm_compute; discriminate.
  - vm_compute. discriminate.
  - vm_compute. reflexivity.
  - exists cls'. split; [exact Hrun | exact Hcur].
Defined.

(** X11. Whatever its outcome, a draw changes nothing but the relative
    offset of the running object: the three references, the number of
    objects, every object other than the running one, and the seed and
    base offset of every object are after the call what they were
    before. *)
Theorem draw_changes_only_running_offset
    (hw : device_properties) (d : draw) (cls : PhiloxStateTracker.t) :
  let cls' := snd (perform_draw hw d cls) in
  PhiloxStateTracker.running_state cls' = PhiloxStateTracker.running_state cls /\
  PhiloxStateTracker.fwd_state cls' = PhiloxStateTracker.fwd_state cls /\
  PhiloxStateTracker.bwd_state cls' = PhiloxStateTracker.bwd_state cls /\
  length (PhiloxStateTracker.store cls') = length (PhiloxStateTracker.store cls) /\
  (forall a : nat,
     a <> PhiloxStateTracker.running_state cls ->
     PhiloxStateTracker.store cls' !! a = PhiloxStateTracker.store cls !! a) /\
  (forall a : nat,
     PhiloxState.seed (PhiloxStateTracker.deref cls' a) =
       PhiloxState.seed (PhiloxStateTracker.deref cls a) /\
     PhiloxState.base_offset (PhiloxStateTracker.deref cls' a) =
       PhiloxState.base_offset (PhiloxStateTracker.deref cls a)).
Proof.
  intros cls'.
  assert (H : cls' = cls \/
              exists k, cls' = snd (PhiloxStateTracker.advance_offset k cls)).
  { subst cls'. destruct d as [a | a]; simpl;
      unfold rand, rand_like, register_rng_decomposition; rewrite guard_state.
    - apply rand_fn_state.
    - apply rand_like_fn_state. }
  destruct H as [-> | [k ->]].
  - repeat split; reflexivity.
  - split; [reflexivity |]. split; [reflexivity |]. split; [reflexivity |].
    split; [apply length_store_mutate |]. split.
    + intros a Ha. apply lookup_mutate_other. congruence.
    + intros a. apply advance_keeps_fields.
Qed.

(** ** The tracker *)

Lemma deref_cleared cls (i : nat) :
  PhiloxStateTracker.deref (snd (PhiloxStateTracker.clear cls))
    (length (PhiloxStateTracker.store cls) + i) = PhiloxState.__init__.
Proof.
  unfold PhiloxStateTracker.deref. simpl.
  rewrite lookup_app_r by lia.
  replace (length (PhiloxStateTracker.store cls) + i -
           length (PhiloxStateTracker.store cls))%nat with i by lia.
  destruct i as [| [| [| i]]]; reflexivity.
Qed.

Lemma view_of_clear cls :
  view_of (snd (PhiloxStateTracker.clear cls)) =
    {| v_running := PhiloxState.__init__; v_fwd := PhiloxState.__init__;
       v_bwd := PhiloxState.__init__; v_phase := None |}.
Proof.
  unfold view_of.
  replace (PhiloxStateTracker.running_state (snd (PhiloxStateTracker.clear cls)))
    with (length (PhiloxStateTracker.store cls) + 0)%nat by (simpl; lia).
  replace (PhiloxStateTracker.fwd_state (snd (PhiloxStateTracker.clear cls)))
    with (length (PhiloxStateTracker.store cls) + 1)%nat by (simpl; lia).
  replace (PhiloxStateTracker.bwd_state (snd (PhiloxStateTracker.clear cls)))
    with (length (PhiloxStateTracker.store cls) + 2)%nat by (simpl; lia).
  rewrite !deref_cleared. f_equal.
  unfold running_phase. simpl. rewrite !decide_False by lia. reflexivity.
Qed.

(** X12. [clear], and [mark_end_of_tracing] which is the same call, works
    from any class state: afterwards the three references point to three
    distinct new empty objects, the accumulated offsets are (0, 0), the
    current relative offset is 0 and a read of the state raises the
    assertion error; the objects that existed before are not touched. An
    advance made after [clear] and before a phase begins counts for
    neither phase. *)
Theorem clear_starts_from_empty_objects (cls : PhiloxStateTracker.t) (n : Z) :
  let cleared := snd (PhiloxStateTracker.clear cls) in
  PhiloxStateTracker.mark_end_of_tracing cls = PhiloxStateTracker.clear cls /\
  fst (PhiloxStateTracker.clear cls) = Ok tt /\
  well_formed cleared /\
  PhiloxStateTracker.running_state cleared <> PhiloxStateTracker.fwd_state cleared /\
  PhiloxStateTracker.running_state cleared <> PhiloxStateTracker.bwd_state cleared /\
  view_of cleared =
    {| v_running := PhiloxState.__init__; v_fwd := PhiloxState.__init__;
       v_bwd := PhiloxState.__init__; v_phase := None |} /\
  fst (PhiloxStateTracker.get_accumulated_offsets cleared) =
    Ok {| total_fwd_offset := 0; total_bwd_offset := 0 |} /\
  fst (PhiloxStateTracker.get_current_relative_offset cleared) = Ok 0 /\
  fst (PhiloxStateTracker.get_state_as_tuple cleared) = Raise UninitializedStateError /\
  fst (PhiloxStateTracker.get_state_as_tensor cleared) = Raise UninitializedStateError /\
  (forall a : nat,
     (a < length (PhiloxStateTracker.store cls))%nat ->
     PhiloxStateTracker.store cleared !! a = PhiloxStateTracker.store cls !! a) /\
  fst (PhiloxStateTracker.get_accumulated_offsets
         (snd (PhiloxStateTracker.advance_offset n cleared))) =
    Ok {| total_fwd_offset := 0; total_bwd_offset := 0 |}.
Proof.
  intros cleared.
  pose proof (view_of_clear cls) as Hview. fold cleared in Hview.
  assert (H0 : PhiloxStateTracker.deref cleared (PhiloxStateTracker.running_state cleared)
               = PhiloxState.__init__) by (now injection Hview).
  assert (H1 : PhiloxStateTracker.deref cleared (PhiloxStateTracker.fwd_state cleared)
               = PhiloxState.__init__) by (now injection Hview).
  assert (H2 : PhiloxStateTracker.deref cleared (PhiloxStateTracker.bwd_state cleared)
               = PhiloxState.__init__) by (now injection Hview).
  split; [reflexivity |]. split; [reflexivity |].
  split; [apply well_formed_clear |].
  split; [simpl; lia |]. split; [simpl; lia |].
  split; [exact Hview |].
  split; [unfold PhiloxStateTracker.get_accumulated_offsets; cbv beta; cbn [fst];
          now rewrite H1, H2 |].
  split; [unfold PhiloxStateTracker.get_current_relative_offset; cbv beta; cbn [fst];
          now rewrite H0 |].
  split; [unfold PhiloxStateTracker.get_state_as_tuple; cbv beta; cbn [fst]; now rewrite H0 |].
  split; [unfold PhiloxStateTracker.get_state_as_tensor; cbv beta; cbn [fst]; now rewrite H0 |].
  split.
  - intros a Ha. unfold cleared. simpl. now apply lookup_app_l.
  - unfold PhiloxStateTracker.get_accumulated_offsets, PhiloxStateTracker.advance_offset.
    cbv beta. cbn [fst snd].
    change (PhiloxStateTracker.fwd_state (PhiloxStateTracker.mutate _ _ cleared))
      with (PhiloxStateTracker.fwd_state cleared).
    change (PhiloxStateTracker.bwd_state (PhiloxStateTracker.mutate _ _ cleared))
      with (PhiloxStateTracker.bwd_state cleared).
    rewrite !deref_mutate_other by (simpl; lia).
    now rewrite H1, H2.
Qed.

Lemma view_of_mutate_running f cls :
  well_formed cls ->
  view_of (PhiloxStateTracker.mutate (PhiloxStateTracker.running_state cls) f cls) =
    view_mutate_running f (view_of cls).
Proof.
  intros (Hrun & Hf & Hb & Hfb).
  unfold view_of, view_mutate_running, running_phase. simpl.
  rewrite deref_mutate_same by exact Hrun.
  destruct (decide (PhiloxStateTracker.running_state cls = PhiloxStateTracker.fwd_state cls))
    as [E1 | N1].
  - rewrite <- E1, deref_mutate_same by exact Hrun.
    rewrite deref_mutate_other by congruence. reflexivity.
  - rewrite (deref_mutate_other _ (PhiloxStateTracker.fwd_state cls)) by exact N1.
    destruct (decide (PhiloxStateTracker.running_state cls = PhiloxStateTracker.bwd_state cls))
      as [E2 | N2].
    + rewrite <- E2, deref_mutate_same by exact Hrun. reflexivity.
    + rewrite deref_mutate_other by exact N2. reflexivity.
Qed.

Lemma view_of_mutate_fwd f cls :
  well_formed cls ->
  view_of (PhiloxStateTracker.mutate (PhiloxStateTracker.fwd_state cls) f cls) =
    view_mutate_fwd f (view_of cls).
Proof.
  intros (Hrun & Hf & Hb & Hfb).
  unfold view_of, view_mutate_fwd, running_phase. simpl.
  rewrite (deref_mutate_same (PhiloxStateTracker.fwd_state cls)) by exact Hf.
  rewrite (deref_mutate_other _ (PhiloxStateTracker.bwd_state cls)) by exact Hfb.
  destruct (decide (PhiloxStateTracker.running_state cls = PhiloxStateTracker.fwd_state cls))
    as [E1 | N1].
  - rewrite E1, deref_mutate_same by exact Hf. reflexivity.
  - rewrite deref_mutate_other by congruence.
    destruct (decide _); reflexivity.
Qed.

Lemma view_of_mutate_bwd f cls :
  well_formed cls ->
  view_of (PhiloxStateTracker.mutate (PhiloxStateTracker.bwd_state cls) f cls) =
    view_mutate_bwd f (view_of cls).
Proof.
  intros (Hrun & Hf & Hb & Hfb).
  unfold view_of, view_mutate_bwd, running_phase. simpl.
  rewrite (deref_mutate_same (PhiloxStateTracker.bwd_state cls)) by exact Hb.
  rewrite (deref_mutate_other _ (PhiloxStateTracker.fwd_state cls)) by congruence.
  destruct (decide (PhiloxStateTracker.running_state cls = PhiloxStateTracker.fwd_state cls))
    as [E1 | N1].
  - rewrite E1, deref_mutate_other by congruence. reflexivity.
  - destruct (decide (PhiloxStateTracker.running_state cls = PhiloxStateTracker.bwd_state cls))
      as [E2 | N2].
    + rewrite E2, deref_mutate_same by exact Hb. reflexivity.
    + rewrite deref_mutate_other by congruence. reflexivity.
Qed.

Lemma view_of_mark_forward cls :
  view_of (snd (PhiloxStateTracker.mark_beginning_of_forward cls)) =
    {| v_running := v_fwd (view_of cls); v_fwd := v_fwd (view_of cls);
       v_bwd := v_bwd (view_of cls); v_phase := Some Forward |}.
Proof.
  unfold view_of at 1. rewrite running_phase_forward by reflexivity. reflexivity.
Qed.

Lemma view_of_mark_backward cls :
  well_formed cls ->
  view_of (snd (PhiloxStateTracker.mark_beginning_of_backward cls)) =
    {| v_running := v_bwd (view_of cls); v_fwd := v_fwd (view_of cls);
       v_bwd := v_bwd (view_of cls); v_phase := Some Backward |}.
Proof.
  intros Hwf. unfold view_of at 1.
  rewrite running_phase_backward
    by (reflexivity || apply (well_formed_perform MarkBeginningOfBackward), Hwf).
  reflexivity.
Qed.

(** Two well-formed class states that look the same to the tracker's
    methods answer every call in the same way and look the same after
    it. *)
Lemma perform_same_view c c1 c2 :
  well_formed c1 -> well_formed c2 -> view_of c1 = view_of c2 ->
  fst (perform c c1) = fst (perform c c2) /\
  view_of (snd (perform c c1)) = view_of (snd (perform c c2)).
Proof.
  intros W1 W2 Hv.
  assert (Hrunning : PhiloxStateTracker.deref c1 (PhiloxStateTracker.running_state c1) =
                     PhiloxStateTracker.deref c2 (PhiloxStateTracker.running_state c2))
    by (now injection Hv).
  destruct c as [ | | | | seed offset mode | x | n]; simpl perform.
  - split; [reflexivity |]. now rewrite !view_of_mark_forward, Hv.
  - split; [reflexivity |]. now rewrite !view_of_mark_backward, Hv by assumption.
  - split; [reflexivity |]. unfold PhiloxStateTracker.mark_end_of_tracing.
    now rewrite !view_of_clear.
  - split; [reflexivity |]. now rewrite !view_of_clear.
  - unfold PhiloxStateTracker.record_state.
    repeat case_bool_decide; simpl; split; try reflexivity; try exact Hv.
    + now rewrite !view_of_mutate_fwd, Hv by assumption.
    + now rewrite !view_of_mutate_bwd, Hv by assumption.
  - unfold PhiloxStateTracker.set_state_from_tensor. rewrite Hrunning.
    destruct (PhiloxState.set_state_from_tensor _ x); simpl; split; try reflexivity;
      try exact Hv.
    now rewrite !view_of_mutate_running, Hv by assumption.
  - unfold PhiloxStateTracker.advance_offset. simpl. split; [reflexivity |].
    now rewrite !view_of_mutate_running, Hv by assumption.
Qed.

Lemma guard_after_advance cls k :
  (PhiloxStateTracker.running_state cls < length (PhiloxStateTracker.store cls))%nat ->
  (current_relative_offset cls =?
   current_relative_offset (snd (PhiloxStateTracker.advance_offset k cls))) = (k =? 0).
Proof.
  intros Hin. rewrite current_after_advance_in_range by exact Hin.
  destruct (Z.eqb_spec k 0) as [-> | Hk].
  - rewrite Z.add_0_r. apply Z.eqb_refl.
  - apply Z.eqb_neq. lia.
Qed.

(** A draw is a function of the running object: it looks at nothing else
    of the class state, and it changes the class state only by advancing
    the running object. *)
Lemma perform_draw_outcome hw d cls :
  (PhiloxStateTracker.running_state cls < length (PhiloxStateTracker.store cls))%nat ->
  let outcome :=
    draw_outcome hw d
      (PhiloxStateTracker.deref cls (PhiloxStateTracker.running_state cls)) in
  perform_draw hw d cls =
    (fst outcome,
     match snd outcome with
     | Some k => snd (PhiloxStateTracker.advance_offset k cls)
     | None => cls
     end).
Proof.
  intros Hin outcome. subst outcome.
  destruct d as [a | a]; cbn [perform_draw];
    unfold rand, rand_like, register_rng_decomposition; rewrite guard_unfold;
    unfold rand_fn, rand_like_fn, draw_outcome; cbn [draw_device draw_shape];
    unfold bind, lift, throw_on_non_cuda, raise, ret, PhiloxStateTracker.get_state_as_tuple.
  - destruct (device_type _) as [kind | e]; [| reflexivity].
    destruct (negb (String.eqb kind "cuda")); [reflexivity |].
    destruct (PhiloxState.get_state_as_tuple _) as [[seed offset] | e]; [| reflexivity].
    destruct (rand_offset_calculator hw (rand_shape a)) as [k | e]; [| reflexivity].
    cbn [fst snd]. fold (PhiloxStateTracker.advance_offset k cls).
    change (PhiloxStateTracker.advance_offset k cls)
      with (Ok tt, snd (PhiloxStateTracker.advance_offset k cls)).
    cbv iota beta. rewrite guard_after_advance by exact Hin.
    now destruct (k =? 0).
  - destruct (device_type _) as [kind | e]; [| reflexivity].
    destruct (negb (String.eqb kind "cuda")); [reflexivity |].
    destruct (PhiloxState.get_state_as_tuple _) as [[seed offset] | e]; [| reflexivity].
    destruct (rand_offset_calculator hw (x_shape (like_x a))) as [k | e]; [| reflexivity].
    cbn [fst snd]. fold (PhiloxStateTracker.advance_offset k cls).
    change (PhiloxStateTracker.advance_offset k cls)
      with (Ok tt, snd (PhiloxStateTracker.advance_offset k cls)).
    cbv iota beta. rewrite guard_after_advance by exact Hin.
    now destruct (k =? 0).
Qed.

Lemma well_formed_perform_draw hw d cls :
  well_formed cls -> well_formed (snd (perform_draw hw d cls)).
Proof.
  intros Hwf. rewrite perform_draw_outcome by apply Hwf. cbn [snd].
  destruct (snd (draw_outcome hw d _)) as [k |]; [| exact Hwf].
  apply (well_formed_perform (AdvanceOffset k)), Hwf.
Qed.

Lemma perform_draw_same_view hw d c1 c2 :
  well_formed c1 -> well_formed c2 -> view_of c1 = view_of c2 ->
  fst (perform_draw hw d c1) = fst (perform_draw hw d c2) /\
  view_of (snd (perform_draw hw d c1)) = view_of (snd (perform_draw hw d c2)).
Proof.
  intros W1 W2 Hv.
  assert (Hrunning : PhiloxStateTracker.deref c1 (PhiloxStateTracker.running_state c1) =
                     PhiloxStateTracker.deref c2 (PhiloxStateTracker.running_state c2))
    by (now injection Hv).
  rewrite !perform_draw_outcome by (apply W1 || apply W2). cbn [fst snd].
  rewrite Hrunning. split; [reflexivity |].
  destruct (snd (draw_outcome hw d _)) as [k |]; [| exact Hv].
  apply (perform_same_view (AdvanceOffset k)); assumption.
Qed.

Lemma act_same_view hw x c1 c2 :
  well_formed c1 -> well_formed c2 -> view_of c1 = view_of c2 ->
  fst (act hw x c1) = fst (act hw x c2) /\
  view_of (snd (act hw x c1)) = view_of (snd (act hw x c2)) /\
  well_formed (snd (act hw x c1)) /\ well_formed (snd (act hw x c2)).
Proof.
  intros W1 W2 Hv. destruct x as [c | d]; unfold act, bind, ret.
  - destruct (perform_same_view c c1 c2 W1 W2 Hv) as [Hr Hs].
    pose proof (well_formed_perform c c1 W1) as W1'.
    pose proof (well_formed_perform c c2 W2) as W2'.
    destruct (perform c c1) as [r1 s1], (perform c c2) as [r2 s2].
    cbn [fst snd] in *. subst r2.
    destruct r1 as [[] | e]; cbn [fst snd]; auto.
  - destruct (perform_draw_same_view hw d c1 c2 W1 W2 Hv) as [Hr Hs].
    pose proof (well_formed_perform_draw hw d c1 W1) as W1'.
    pose proof (well_formed_perform_draw hw d c2 W2) as W2'.
    destruct (perform_draw hw d c1) as [r1 s1], (perform_draw hw d c2) as [r2 s2].
    cbn [fst snd] in *. subst r2.
    destruct r1 as [r | e]; cbn [fst snd]; auto.
Qed.

Lemma session_same_view hw xs : forall c1 c2,
  well_formed c1 -> well_formed c2 -> view_of c1 = view_of c2 ->
  fst (session hw xs c1) = fst (session hw xs c2) /\
  view_of (snd (session hw xs c1)) = view_of (snd (session hw xs c2)).
Proof.
  induction xs as [| x xs IH]; intros c1 c2 W1 W2 Hv.
  - split; [reflexivity | exact Hv].
  - cbn [session].
    destruct (act_same_view hw x c1 c2 W1 W2 Hv) as (Hr & Hs & W1' & W2').
    destruct (act hw x c1) as [r1 s1], (act hw x c2) as [r2 s2].
    cbn [fst snd] in *. subst r2.
    destruct (IH s1 s2 W1' W2' Hs) as [Hrs Hss].
    destruct (session hw xs s1) as [rs1 t1], (session hw xs s2) as [rs2 t2].
    cbn [fst snd] in *. now subst rs2.
Qed.

Lemma readers_of_view c1 c2 :
  view_of c1 = view_of c2 ->
  fst (PhiloxStateTracker.get_accumulated_offsets c1) =
    fst (PhiloxStateTracker.get_accumulated_offsets c2) /\
  fst (PhiloxStateTracker.get_current_relative_offset c1) =
    fst (PhiloxStateTracker.get_current_relative_offset c2) /\
  fst (PhiloxStateTracker.get_state_as_tuple c1) =
    fst (PhiloxStateTracker.get_state_as_tuple c2) /\
  fst (PhiloxStateTracker.get_state_as_tensor c1) =
    fst (PhiloxStateTracker.get_state_as_tensor c2).
Proof.
  intros Hv. injection Hv as H0 H1 H2 _.
  unfold PhiloxStateTracker.get_accumulated_offsets,
    PhiloxStateTracker.get_current_relative_offset,
    PhiloxStateTracker.get_state_as_tuple, PhiloxStateTracker.get_state_as_tensor.
  cbv beta. cbn [fst]. now rewrite H0, H1, H2.
Qed.

(** X13. [clear] forgets everything: whatever class state two tracing
    sessions start from, after [clear] (or [mark_end_of_tracing]) the
    same sequence of tracker calls and draws gives the same outcomes, one
    by one, and the same answers of the four readers at the end. No
    state of an earlier trace leaks into the next one through the
    objects the references alias. *)
Theorem clear_isolates_sessions (hw : device_properties) (xs : list action)
    (c1 c2 : PhiloxStateTracker.t) (first : call) :
  first = Clear \/ first = MarkEndOfTracing ->
  let s1 := session hw (Call first :: xs) c1 in
  let s2 := session hw (Call first :: xs) c2 in
  fst s1 = fst s2 /\
  view_of (snd s1) = view_of (snd s2) /\
  fst (PhiloxStateTracker.get_accumulated_offsets (snd s1)) =
    fst (PhiloxStateTracker.get_accumulated_offsets (snd s2)) /\
  fst (PhiloxStateTracker.get_current_relative_offset (snd s1)) =
    fst (PhiloxStateTracker.get_current_relative_offset (snd s2)) /\
  fst (PhiloxStateTracker.get_state_as_tuple (snd s1)) =
    fst (PhiloxStateTracker.get_state_as_tuple (snd s2)) /\
  fst (PhiloxStateTracker.get_state_as_tensor (snd s1)) =
    fst (PhiloxStateTracker.get_state_as_tensor (snd s2)).
Proof.
  intros Hfirst s1 s2.
  assert (Hstep : act hw (Call first) c1 = (Ok None, snd (PhiloxStateTracker.clear c1)) /\
                  act hw (Call first) c2 = (Ok None, snd (PhiloxStateTracker.clear c2)))
    by (destruct Hfirst as [-> | ->]; split; reflexivity).
  destruct Hstep as [E1 E2].
  destruct (session_same_view hw xs
              (snd (PhiloxStateTracker.clear c1)) (snd (PhiloxStateTracker.clear c2)))
    as [Hrs Hss].
  { apply well_formed_clear. }
  { apply well_formed_clear. }
  { now rewrite !view_of_clear. }
  assert (Hfst : fst s1 = fst s2 /\ view_of (snd s1) = view_of (snd s2)).
  { unfold s1, s2. cbn [session]. rewrite E1, E2.
    destruct (session hw xs (snd (PhiloxStateTracker.clear c1))) as [rs1 t1].
    destruct (session hw xs (snd (PhiloxStateTracker.clear c2))) as [rs2 t2].
    cbn [fst snd] in *. now subst rs2. }
  destruct Hfst as [Hr Hv].
  split; [exact Hr |]. split; [exact Hv |].
  now apply readers_of_view.
Qed.

Lemma clear_isolates_sessions_witness :
  let xs := [Call MarkBeginningOfForward;
             Call (RecordState (Scalar 123) (Scalar 4) "forward");
             Draw (Rand {| rand_shape := [1024; 1024]; rand_dtype := None;
                           rand_layout := strided;
                           rand_device :=
                             Some (DeviceObj {| type := "cuda"; index := Some 0 |});
                           rand_pin_memory := false |});
             Call MarkBeginningOfBackward;
             Call (AdvanceOffset 8)] in
  let c := after [MarkBeginningOfForward;
                  RecordState (Scalar 7) (Scalar 100) "forward";
                  AdvanceOffset 64] PhiloxStateTracker.initial in
  fst (session a100 (Call Clear :: xs) c) =
    fst (session a100 (Call Clear :: xs) PhiloxStateTracker.initial).
Proof.
  intros xs c.
  exact (proj1 (clear_isolates_sessions a100 xs c PhiloxStateTracker.initial Clear
                  (or_introl eq_refl))).
Defined.

Lemma set_state_from_tensor_two_rows self s b :
  PhiloxState.set_state_from_tensor self (Dim [s; b]) =
    Ok {| PhiloxState.seed := Dim [s]; PhiloxState.base_offset := Dim [b];
          PhiloxState.relative_offset := 0 |}.
Proof. reflexivity. Qed.

Lemma set_state_from_tensor_other_rows self x :
  (forall s b, x <> Dim [s; b]) ->
  exists e, PhiloxState.set_state_from_tensor self x = Raise e.
Proof.
  intros Hx. destruct x as [v | [| a [| b [| c rows]]]]; try (eexists; reflexivity).
  now destruct (Hx a b).
Qed.

(** X14. A restore through the tracker writes the running object: with a
    value of exactly two rows it succeeds, the rows become seed and base
    offset (each with a leading dimension of size 1) and the relative
    offset becomes 0, so the accumulated offset of the running phase
    restarts from 0 while the other phase keeps its count; with any other
    value it raises and leaves the class state exactly as it was. *)
Theorem tracker_restore_restarts_running_count (cls : PhiloxStateTracker.t) (x : Tensor) :
  well_formed cls ->
  let r := PhiloxStateTracker.set_state_from_tensor x cls in
  let fwd_before :=
    PhiloxState.relative_offset
      (PhiloxStateTracker.deref cls (PhiloxStateTracker.fwd_state cls)) in
  let bwd_before :=
    PhiloxState.relative_offset
      (PhiloxStateTracker.deref cls (PhiloxStateTracker.bwd_state cls)) in
  (forall s b, x = Dim [s; b] ->
     fst r = Ok tt /\
     view_of (snd r) =
       view_mutate_running
         (fun _ => {| PhiloxState.seed := Dim [s]; PhiloxState.base_offset := Dim [b];
                      PhiloxState.relative_offset := 0 |})
         (view_of cls) /\
     fst (PhiloxStateTracker.get_current_relative_offset (snd r)) = Ok 0 /\
     fst (PhiloxStateTracker.get_accumulated_offsets (snd r)) =
       Ok {| total_fwd_offset :=
               match running_phase cls with Some Forward => 0 | _ => fwd_before end;
             total_bwd_offset :=
               match running_phase cls with Some Backward => 0 | _ => bwd_before end |}) /\
  ((forall s b, x <> Dim [s; b]) ->
     (exists e, fst r = Raise e) /\ snd r = cls).
Proof.
  intros Hwf r fwd_before bwd_before. split.
  - intros s b ->. subst r.
    unfold PhiloxStateTracker.set_state_from_tensor.
    rewrite set_state_from_tensor_two_rows. cbn [fst snd].
    pose proof (view_of_mutate_running
                  (fun _ => {| PhiloxState.seed := Dim [s];
                               PhiloxState.base_offset := Dim [b];
                               PhiloxState.relative_offset := 0 |}) cls Hwf) as Hview.
    split; [reflexivity |]. split; [exact Hview |].
    unfold PhiloxStateTracker.get_current_relative_offset,
      PhiloxStateTracker.get_accumulated_offsets. cbv beta. cbn [fst].
    set (cls' := PhiloxStateTracker.mutate _ _ cls) in *.
    assert (H0 : PhiloxStateTracker.deref cls' (PhiloxStateTracker.running_state cls') =
                 v_running (view_of cls')) by reflexivity.
    assert (H1 : PhiloxStateTracker.deref cls' (PhiloxStateTracker.fwd_state cls') =
                 v_fwd (view_of cls')) by reflexivity.
    assert (H2 : PhiloxStateTracker.deref cls' (PhiloxStateTracker.bwd_state cls') =
                 v_bwd (view_of cls')) by reflexivity.
    rewrite H0, H1, H2, Hview. unfold view_mutate_running. cbn [v_running v_fwd v_bwd].
    change (v_phase (view_of cls)) with (running_phase cls).
    split; [reflexivity |].
    destruct (running_phase cls) as [[|] |]; reflexivity.
  - intros Hx. subst r. unfold PhiloxStateTracker.set_state_from_tensor.
    destruct (set_state_from_tensor_other_rows
                (PhiloxStateTracker.deref cls (PhiloxStateTracker.running_state cls)) x Hx)
      as [e ->].
    split; [now exists e | reflexivity].
Qed.

Lemma tracker_restore_restarts_running_count_witness :
  let cls := after [MarkBeginningOfForward;
                    RecordState (Scalar 7) (Scalar 100) "forward";
                    AdvanceOffset 64;
                    MarkBeginningOfBackward;
                    AdvanceOffset 8;
                    MarkBeginningOfForward] PhiloxStateTracker.initial in
  well_formed cls /\
  fst (PhiloxStateTracker.get_accumulated_offsets cls) =
    Ok {| total_fwd_offset := 64; total_bwd_offset := 8 |} /\
  fst (PhiloxStateTracker.get_accumulated_offsets
         (snd (PhiloxStateTracker.set_state_from_tensor (Dim [Scalar 7; Scalar 164]) cls))) =
    Ok {| total_fwd_offset := 0; total_bwd_offset := 8 |}.
Proof.
  intros cls.
  assert (Hwf : well_formed cls) by (apply well_formed_after, well_formed_initial).
  split; [exact Hwf |]. split; [reflexivity |].
  exact (proj2 (proj2 (proj2
    (proj1 (tracker_restore_restarts_running_count cls (Dim [Scalar 7; Scalar 164]) Hwf)
       (Scalar 7) (Scalar 164) eq_refl)))).
Defined.

Lemma values_one_row t : torch.values (Dim [t]) = torch.values t.
Proof. simpl. apply app_nil_r. Qed.

Lemma numel_one_row t : torch.numel (Dim [t]) = torch.numel t.
Proof. simpl. lia. Qed.

Lemma get_state_as_tensor_inv self state :
  PhiloxState.get_state_as_tensor self = Ok state ->
  PhiloxState.validate_state self = Ok tt /\
  - 2 ^ 63 <= PhiloxState.relative_offset self < 2 ^ 63 /\
  state = Dim [PhiloxState.seed self;
               torch.wrapping_add (PhiloxState.base_offset self)
                                  (PhiloxState.relative_offset self)].
Proof.
  unfold PhiloxState.get_state_as_tensor.
  destruct (PhiloxState.validate_state self) as [[] | e]; simpl; [| discriminate].
  destruct (torch.add (PhiloxState.base_offset self) (PhiloxState.relative_offset self))
    as [offset | e] eqn:Hadd; simpl; [| discriminate].
  apply add_inv in Hadd as [Hrel ->].
  unfold torch.stack.
  match goal with |- context [if ?c then _ else _] => destruct c end; [| discriminate].
  intros [= <-]. repeat split; lia.
Qed.

(** X15. Restoring a saved state replays the draw: if the state saved at
    one point of a trace is restored at any later point, the next draw
    of the same arguments succeeds with seed and offset of the same
    values as the draw made where the state was saved, and with the same
    shape, stride, device and dtype. *)
Theorem restore_replays_draw (hw : device_properties) (d : draw)
    (cls later : PhiloxStateTracker.t) (state : Tensor) (r1 : philox_rand_call) :
  well_formed cls -> well_formed later ->
  fst (PhiloxStateTracker.get_state_as_tensor cls) = Ok state ->
  fst (perform_draw hw d cls) = Ok r1 ->
  fst (PhiloxStateTracker.set_state_from_tensor state later) = Ok tt /\
  exists r2,
    fst (perform_draw hw d (snd (PhiloxStateTracker.set_state_from_tensor state later))) =
      Ok r2 /\
    torch.values (drawn_seed r2) = torch.values (drawn_seed r1) /\
    torch.values (drawn_offset r2) = torch.values (drawn_offset r1) /\
    drawn_shape r2 = drawn_shape r1 /\
    drawn_stride r2 = drawn_stride r1 /\
    drawn_device r2 = drawn_device r1 /\
    drawn_dtype r2 = drawn_dtype r1.
Proof.
  intros Hwf Hlater Hsave Hdraw.
  unfold PhiloxStateTracker.get_state_as_tensor in Hsave. cbn [fst] in Hsave.
  destruct (get_state_as_tensor_inv _ _ Hsave) as (Hvalid & Hrel & ->).
  destruct (validate_state_inv _ Hvalid) as [Hs Hb].
  set (self := PhiloxStateTracker.deref cls (PhiloxStateTracker.running_state cls)) in *.
  rewrite perform_draw_outcome in Hdraw by apply Hwf. cbn [fst] in Hdraw. fold self in Hdraw.
  unfold PhiloxStateTracker.set_state_from_tensor.
  rewrite set_state_from_tensor_two_rows. cbn [fst snd].
  split; [reflexivity |].
  set (self2 := {| PhiloxState.seed := Dim [PhiloxState.seed self];
                   PhiloxState.base_offset :=
                     Dim [torch.wrapping_add (PhiloxState.base_offset self)
                                             (PhiloxState.relative_offset self)];
                   PhiloxState.relative_offset := 0 |}).
  set (cls2 := PhiloxStateTracker.mutate _ _ later).
  assert (Hwf2 : well_formed cls2) by (apply well_formed_mutate, Hlater).
  assert (Hself2 : PhiloxStateTracker.deref cls2 (PhiloxStateTracker.running_state cls2) =
                   self2).
  { unfold cls2. cbn [PhiloxStateTracker.running_state PhiloxStateTracker.mutate].
    apply (deref_mutate_same _ (fun _ => self2)), Hlater. }
  rewrite perform_draw_outcome by apply Hwf2. cbn [fst]. rewrite Hself2.
  assert (Htuple1 : PhiloxState.get_state_as_tuple self =
                    Ok (PhiloxState.seed self,
                        torch.wrapping_add (PhiloxState.base_offset self)
                                  (PhiloxState.relative_offset self))).
  { now apply get_state_as_tuple_populated. }
  assert (Htuple2 : PhiloxState.get_state_as_tuple self2 =
                    Ok (Dim [PhiloxState.seed self],
                        Dim [torch.wrapping_add (PhiloxState.base_offset self)
                                       (PhiloxState.relative_offset self)])).
  { rewrite get_state_as_tuple_populated;
      cbn [PhiloxState.seed PhiloxState.base_offset PhiloxState.relative_offset self2].
    - cbn [torch.wrapping_add map]. now rewrite add_zero_after_add.
    - now rewrite numel_one_row.
    - now rewrite numel_one_row, numel_add.
    - lia. }
  unfold draw_outcome in *. rewrite Htuple1 in Hdraw. rewrite Htuple2.
  destruct (device_type (draw_device d)) as [kind | e]; [| discriminate].
  destruct (negb (String.eqb kind "cuda")); [discriminate |].
  destruct (rand_offset_calculator hw (draw_shape d)) as [k | e]; [| discriminate].
  cbn [fst] in *. destruct (k =? 0); [discriminate |].
  injection Hdraw as <-.
  eexists. split; [reflexivity |].
  destruct d as [a | a]; cbn [drawn_seed drawn_offset drawn_shape drawn_stride
                              drawn_device drawn_dtype];
    rewrite !values_one_row; repeat split; reflexivity.
Qed.

Lemma restore_replays_draw_witness :
  let d := Rand {| rand_shape := [1024; 1024]; rand_dtype := None;
                   rand_layout := strided;
                   rand_device := Some (DeviceObj {| type := "cuda"; index := Some 0 |});
                   rand_pin_memory := false |} in
  let cls := after [MarkBeginningOfForward;
                    RecordState (Scalar 7) (Scalar 100) "forward";
                    AdvanceOffset 64] PhiloxStateTracker.initial in
  let later := after [AdvanceOffset 4096; MarkBeginningOfBackward]
                 (snd (perform_draw a100 d cls)) in
  exists r2,
    fst (perform_draw a100 d
           (snd (PhiloxStateTracker.set_state_from_tensor
                   (Dim [Scalar 7; Scalar 164]) later))) = Ok r2 /\
    torch.values (drawn_seed r2) = [7] /\
    torch.values (drawn_offset r2) = [164].
Proof.
  intros d cls later.
  assert (Hwf : well_formed cls) by (apply well_formed_after, well_formed_initial).
  assert (Hlater : well_formed later)
    by (apply well_formed_after, well_formed_perform_draw, Hwf).
  destruct (restore_replays_draw a100 d cls later (Dim [Scalar 7; Scalar 164])
              (philox_rand [1024; 1024] (Scalar 7) (Scalar 164) [1024; 1]
                 (DeviceObj {| type := "cuda"; index := Some 0 |}) float32)
              Hwf Hlater)
    as (_ & r2 & Hr2 & Hseed & Hoffset & _).
  - reflexivity.
  - vm_compute. reflexivity.
  - exists r2. split; [exact Hr2 |]. split; [exact Hseed | exact Hoffset].
Defined.

(** ** The device RNG state buffer, any contents *)

Lemma of_int_mod n v : bytes.of_int n (v mod 256 ^ Z.of_nat n) = bytes.of_int n v.
Proof.
  revert v. induction n as [| n IH]; intros v; [reflexivity |].
  cbn [bytes.of_int].
  rewrite Nat2Z.inj_succ, Z.pow_succ_r by lia.
  rewrite Z.rem_mul_r by lia.
  pose proof (Z.mod_pos_bound v 256 ltac:(lia)) as Hb.
  f_equal.
  - rewrite (Z.mul_comm 256), Z_mod_plus_full. apply Z.mod_mod. lia.
  - rewrite (Z.mul_comm 256), Z.div_add by lia.
    rewrite Z.div_small by exact Hb. rewrite Z.add_0_l. apply IH.
Qed.

Lemma of_int_to_uint bs :
  Forall (fun b => 0 <= b < 256) bs ->
  bytes.of_int (length bs) (bytes.to_uint bs) = bs.
Proof.
  induction 1 as [| b bs Hb _ IH]; [reflexivity |].
  cbn [length bytes.of_int bytes.to_uint]. f_equal.
  - rewrite (Z.mul_comm 256), Z_mod_plus_full. now apply Z.mod_small.
  - rewrite (Z.mul_comm 256), Z.div_add by lia.
    rewrite Z.div_small by exact Hb. rewrite Z.add_0_l. exact IH.
Qed.

Lemma wrap64_congruent v : torch.wrap64 v mod 2 ^ 64 = v mod 2 ^ 64.
Proof.
  unfold torch.wrap64. rewrite (Z.mod_eq (v + 2 ^ 63)) by lia.
  replace (v + 2 ^ 63 - 2 ^ 64 * ((v + 2 ^ 63) / 2 ^ 64) - 2 ^ 63)
    with (v + (- ((v + 2 ^ 63) / 2 ^ 64)) * 2 ^ 64) by lia.
  apply Z_mod_plus_full.
Qed.



Lemma of_int_wrap64 v : bytes.of_int 8 (torch.wrap64 v) = bytes.of_int 8 v.
Proof.
  rewrite <- (of_int_mod 8 (torch.wrap64 v)), <- (of_int_mod 8 v).
  change (256 ^ Z.of_nat 8) with (2 ^ 64). now rewrite wrap64_congruent.
Qed.

(** The 8 bytes of the int64 value read from 8 bytes are those bytes. *)
Lemma bytes_of_int64_of_bytes bs :
  length bs = 8%nat -> Forall (fun b => 0 <= b < 256) bs ->
  bytes.of_int 8 (torch.wrap64 (bytes.to_uint bs)) = bs.
Proof.
  intros Hlen Hbs. rewrite of_int_wrap64, <- Hlen. now apply of_int_to_uint.
Qed.

(** A state buffer of 816 bytes in its three parts. *)
Lemma buffer_parts (buf : list Z) :
  length buf = 816%nat ->
  buf = take 800 buf ++ bytes.slice 800 808 buf ++ bytes.slice_from 808 buf /\
  length (take 800 buf) = 800%nat /\
  length (bytes.slice 800 808 buf) = 8%nat /\
  length (bytes.slice_from 808 buf) = 8%nat.
Proof.
  intros Hlen. unfold bytes.slice, bytes.slice_from.
  change (808 - 800)%nat with 8%nat.
  split; [| rewrite !length_take, !length_drop, Hlen; repeat split; reflexivity].
  replace (drop 808 buf) with (drop 8 (drop 800 buf)) by (now rewrite drop_drop).
  now rewrite !take_drop.
Qed.

Lemma read_buffer dev :
  cuda.is_available dev = true ->
  length (cuda.rng_state dev) = 816%nat ->
  RNGStateHelper.get_torch_state_as_tuple None dev =
    (Ok (Scalar (torch.wrap64 (bytes.to_uint (bytes.slice 800 808 (cuda.rng_state dev)))),
         Scalar (torch.wrap64 (bytes.to_uint (bytes.slice_from 808 (cuda.rng_state dev))))),
     dev).
Proof.
  intros Hav Hlen. destruct (buffer_parts _ Hlen) as (_ & _ & Hs & Ho).
  unfold RNGStateHelper.get_torch_state_as_tuple. rewrite Hav. cbv [negb].
  unfold bind, lift, cuda.get_rng_state.
  rewrite !view_int64_8 by assumption. reflexivity.
Qed.

(** X16. Reading the device state and writing it back keeps seed and
    offset byte for byte, for any 816-byte buffer: the read succeeds,
    the write succeeds, and the new buffer is the old one with its
    first 800 bytes overwritten by 255. *)
Theorem read_then_write_keeps_seed_and_offset (dev : cuda.t) :
  cuda.is_available dev = true ->
  length (cuda.rng_state dev) = 816%nat ->
  Forall (fun b => 0 <= b < 256) (cuda.rng_state dev) ->
  exists seed offset,
    RNGStateHelper.get_torch_state_as_tuple None dev = (Ok (seed, offset), dev) /\
    RNGStateHelper.set_torch_state_tensor seed offset dev =
      (Ok tt,
       {| cuda.is_available := cuda.is_available dev;
          cuda.rng_state := replicate 800 255 ++ drop 800 (cuda.rng_state dev) |}) /\
    fst (RNGStateHelper.get_torch_state_as_tuple None
           (snd (RNGStateHelper.set_torch_state_tensor seed offset dev))) =
      Ok (seed, offset).
Proof.
  intros Hav Hlen Hbytes.
  destruct (buffer_parts _ Hlen) as (Hparts & Hp & Hs & Ho).
  set (buf := cuda.rng_state dev) in *.
  assert (Hsb : Forall (fun b => 0 <= b < 256) (bytes.slice 800 808 buf))
    by (unfold bytes.slice; apply Forall_take, Forall_drop, Hbytes).
  assert (Hob : Forall (fun b => 0 <= b < 256) (bytes.slice_from 808 buf))
    by (unfold bytes.slice_from; apply Forall_drop, Hbytes).
  exists (Scalar (torch.wrap64 (bytes.to_uint (bytes.slice 800 808 buf)))),
    (Scalar (torch.wrap64 (bytes.to_uint (bytes.slice_from 808 buf)))).
  split; [apply read_buffer; assumption |].
  assert (Hw : RNGStateHelper.set_torch_state_tensor
                 (Scalar (torch.wrap64 (bytes.to_uint (bytes.slice 800 808 buf))))
                 (Scalar (torch.wrap64 (bytes.to_uint (bytes.slice_from 808 buf)))) dev =
               (Ok tt,
                {| cuda.is_available := cuda.is_available dev;
                   cuda.rng_state := replicate 800 255 ++ drop 800 buf |})).
  { erewrite set_torch_state_tensor_ok by reflexivity.
    rewrite !bytes_of_int64_of_bytes by assumption.
    do 3 f_equal. unfold bytes.slice, bytes.slice_from.
    change (808 - 800)%nat with 8%nat.
    replace (drop 808 buf) with (drop 8 (drop 800 buf)) by (now rewrite drop_drop).
    apply take_drop. }
  split; [exact Hw |].
  rewrite Hw. cbn [snd].
  rewrite read_buffer; [| exact Hav | cbn [cuda.rng_state];
                                      rewrite length_app, length_replicate, length_drop, Hlen;
                                      reflexivity].
  cbn [fst cuda.rng_state].
  assert (Hd : drop 800 buf = bytes.slice 800 808 buf ++ bytes.slice_from 808 buf).
  { unfold bytes.slice, bytes.slice_from. change (808 - 800)%nat with 8%nat.
    replace (drop 808 buf) with (drop 8 (drop 800 buf)) by (now rewrite drop_drop).
    symmetry. apply take_drop. }
  rewrite Hd.
  rewrite slice_seed, slice_offset by (assumption || apply length_replicate).
  reflexivity.
Qed.

Lemma read_then_write_keeps_seed_and_offset_witness :
  let dev := {| cuda.is_available := true;
                cuda.rng_state := replicate 800 0 ++ [42; 0; 0; 0; 0; 0; 0; 0] ++
                                  [255; 255; 255; 255; 255; 255; 255; 255] |} in
  exists seed offset,
    RNGStateHelper.get_torch_state_as_tuple None dev = (Ok (seed, offset), dev) /\
    cuda.rng_state (snd (RNGStateHelper.set_torch_state_tensor seed offset dev)) =
      replicate 800 255 ++ [42; 0; 0; 0; 0; 0; 0; 0] ++
      [255; 255; 255; 255; 255; 255; 255; 255].
Proof.
  intros dev.
  destruct (read_then_write_keeps_seed_and_offset dev) as (seed & offset & Hr & Hw & _).
  - reflexivity.
  - reflexivity.
  - unfold dev. cbn [cuda.rng_state].
    repeat (apply Forall_app; split); try (apply Forall_replicate);
      repeat constructor; lia.
  - exists seed, offset. split; [exact Hr |]. now rewrite Hw.
Defined.


